(** * Kylie25 virtual museum: movement, collision and artwork focus

    A shallow embedding of the interaction core of [src/main.js]: the
    furniture registry and [checkFurnitureCollision], the artwork registry
    and [findNearestArtwork], the focus controller ([zoomToArtwork],
    [resetZoom], [emergencyReset]) and the per-frame loop [animate].
    The global variables of the script, and what three.js keeps of the
    camera (position, quaternion, Euler angles, matrix), are the fields
    of one [State] record; every function of the script that writes
    them is a function from states to states, and the browser's events
    (keys, clicks, mouse movements, pointer-lock changes, texture loads
    and animation frames) drive [step].

    Numbers.  JavaScript numbers are modelled as exact rationals ([Q]):
    every comparison, sum, product and quotient of the source is the
    corresponding operation on [Q], its result kept in lowest terms.
    Rounding of IEEE doubles is not modelled.  [Math.sqrt] and
    [Math.acos], which leave the rationals, and the orientation routines
    of three.js that call the trigonometric functions
    ([Quaternion.setFromEuler], [Euler.setFromQuaternion],
    [Object3D.lookAt] and the mouse handler of [PointerLockControls])
    are parameters of the section that defines the functions of the
    script. *)

From Stdlib Require Import QArith Qabs Lqa ZArith Lia List Bool String.
Import ListNotations.

Local Open Scope Q_scope.

(* ================================================================= *)
(** ** JavaScript numbers *)

Module Num.

(** Arithmetic: the rational result, reduced to lowest terms. *)
Definition add (a b : Q) : Q := Qred (a + b).
Definition sub (a b : Q) : Q := Qred (a - b).
Definition mul (a b : Q) : Q := Qred (a * b).
Definition div (a b : Q) : Q := Qred (a / b).
Definition opp (a : Q) : Q := Qred (- a).

(** [a < b] *)
Definition ltb (a b : Q) : bool :=
  match a ?= b with Lt => true | _ => false end.

(** [a > b] *)
Definition gtb (a b : Q) : bool := ltb b a.

(** [a <= b] *)
Definition leb (a b : Q) : bool := Qle_bool a b.

(** [a >= b] *)
Definition geb (a b : Q) : bool := Qle_bool b a.

(** [a !== b] on two numbers *)
Definition neqb (a b : Q) : bool := negb (Qeq_bool a b).

(** [Math.abs] *)
Definition Math_abs (a : Q) : Q := Qabs a.

(** [Math.max(a, b)] *)
Definition Math_max (a b : Q) : Q := if ltb b a then a else b.

(** [Math.min(a, b)] *)
Definition Math_min (a b : Q) : Q := if ltb a b then a else b.

(** [Math.PI], written as JavaScript prints it. *)
Definition Math_PI : Q := 3.141592653589793.

(** [Number(b)] on a boolean *)
Definition Number (b : bool) : Q := if b then 1 else 0.

End Num.
Import Num.

(* ================================================================= *)
(** ** THREE.Vector3 *)

Record Vector3 : Type := vec3 { vx : Q; vy : Q; vz : Q }.

(** Equality of vectors as numbers (component-wise [==]). *)
Definition veq (a b : Vector3) : Prop :=
  vx a == vx b /\ vy a == vy b /\ vz a == vz b.

(** The same, decided. *)
Definition veqb (a b : Vector3) : bool :=
  Qeq_bool (vx a) (vx b) && Qeq_bool (vy a) (vy b) && Qeq_bool (vz a) (vz b).

(** [THREE.Quaternion], the orientation of an object. *)
Record Quaternion : Type := quat { qx : Q; qy : Q; qz : Q; qw : Q }.

(** [THREE.Euler] in the default order XYZ, the order of
    [camera.rotation] and of the copy [zoomToArtwork] takes of it. *)
Record Euler : Type := euler { euler_x : Q; euler_y : Q; euler_z : Q }.

(* ================================================================= *)
(** ** Rational stand-ins for the irrational functions

    The functions of [main.js] are defined below for any [Math.sqrt],
    [Math.acos] and three.js orientation routines.  To run them on concrete
    inputs the following rational approximations are supplied; each is
    exact wherever the exact value is rational and simple (the square root
    of a square, the angle of two equal directions, a rotation by 0). *)

(** Square root to twelve decimals, exact on squares. *)
Definition sample_sqrt (q : Q) : Q :=
  let s := 1000000000000%Z in
  Qred (Z.sqrt (Qnum q * Zpos (Qden q) * s * s) # (Qden q * Z.to_pos s)).

(** Arc cosine by the polynomial of Abramowitz and Stegun 4.4.45. *)
Definition sample_acos (t : Q) : Q :=
  let a := Qabs t in
  let r :=
    sample_sqrt (1 - a)
    * (1.5707288 + a * (-0.2121144 + a * (0.0742610 + a * -0.0187293))) in
  Qred (if ltb t 0 then Math_PI - r else r).

(** Sine and cosine by their Taylor polynomials of degree 9 and 8. *)
Definition sample_sin (t : Q) : Q :=
  let t2 := t * t in
  Qred (t * (1 - t2 / 6 * (1 - t2 / 20 * (1 - t2 / 42 * (1 - t2 / 72))))).

Definition sample_cos (t : Q) : Q :=
  let t2 := t * t in
  Qred (1 - t2 / 2 * (1 - t2 / 12 * (1 - t2 / 30 * (1 - t2 / 56)))).

(** [Quaternion.setFromEuler] for the order XYZ. *)
Definition sample_setFromEuler (x y z : Q) : Quaternion :=
  let c1 := sample_cos (x / 2) in
  let c2 := sample_cos (y / 2) in
  let c3 := sample_cos (z / 2) in
  let s1 := sample_sin (x / 2) in
  let s2 := sample_sin (y / 2) in
  let s3 := sample_sin (z / 2) in
  quat (Qred (s1 * c2 * c3 + c1 * s2 * s3))
       (Qred (c1 * s2 * c3 - s1 * c2 * s3))
       (Qred (c1 * c2 * s3 + s1 * s2 * c3))
       (Qred (c1 * c2 * c3 - s1 * s2 * s3)).

(** Arc sine and the angle of a point of the plane, from the arc
    cosine. *)
Definition sample_asin (t : Q) : Q :=
  if Qeq_bool t 0 then 0 else Qred (Math_PI / 2 - sample_acos t).

Definition sample_atan2 (y x : Q) : Q :=
  let len := sample_sqrt (x * x + y * y) in
  if Qeq_bool len 0 then 0
  else
    let a := sample_acos (Qred (x / len)) in
    if ltb y 0 then Qred (- a) else a.

(** To four decimals. *)
Definition round4 (q : Q) : Q :=
  let r := q * 10000 + (1 # 2) in
  Qred ((Qnum r / Zpos (Qden r))%Z # 10000).

(** [Euler.setFromQuaternion] for the order XYZ: the rotation matrix of
    the quaternion, then [Euler.setFromRotationMatrix]; the angles are
    given to four decimals. *)
Definition sample_setFromQuaternion (q : Quaternion) : Euler :=
  let x := qx q in
  let y := qy q in
  let z := qz q in
  let w := qw q in
  let m11 := Qred (1 - 2 * (y * y + z * z)) in
  let m12 := Qred (2 * (x * y - w * z)) in
  let m13 := Qred (2 * (x * z + w * y)) in
  let m22 := Qred (1 - 2 * (x * x + z * z)) in
  let m23 := Qred (2 * (y * z - w * x)) in
  let m32 := Qred (2 * (y * z + w * x)) in
  let m33 := Qred (1 - 2 * (x * x + y * y)) in
  let clamped := if ltb m13 (-1) then -1 else if ltb 1 m13 then 1 else m13 in
  if ltb (Qabs m13) 0.9999999 then
    euler (round4 (sample_atan2 (Qred (- m23)) m33))
          (round4 (sample_asin clamped))
          (round4 (sample_atan2 (Qred (- m12)) m11))
  else
    euler (round4 (sample_atan2 m32 m22)) (round4 (sample_asin clamped)) 0.

(** The turn about the vertical axis that the mouse handler of
    [PointerLockControls] makes of a horizontal movement
    ([_euler.y -= movementX * 0.002]); the tilt of a vertical movement is
    left out. *)
Definition sample_turn (movementX movementY : Q) (q : Quaternion)
  : Quaternion :=
  let d := Qred (- (movementX * 0.002)) in
  let s := sample_sin (d / 2) in
  let c := sample_cos (d / 2) in
  quat (Qred (c * qx q + s * qz q))
       (Qred (s * qw q + c * qy q))
       (Qred (c * qz q - s * qx q))
       (Qred (c * qw q - s * qy q)).

(** The turn about the vertical axis that [camera.lookAt] makes: the
    view direction is turned towards the target, the tilt up or down to a
    target at another height is left out. *)
Definition sample_lookAt (eye target : Vector3) : Quaternion :=
  let dx := vx eye - vx target in
  let dz := vz eye - vz target in
  let len := sample_sqrt (dx * dx + dz * dz) in
  if Qeq_bool len 0 then quat 0 0 0 1
  else
    (* the camera looks down its negative z axis: z axis = (dx, 0, dz)/len *)
    let zx := dx / len in
    let zz := dz / len in
    if ltb (-1) zz then
      let w := sample_sqrt ((1 + zz) / 2) in
      quat 0 (Qred (zx / (2 * w))) 0 (Qred w)
    else quat 0 1 0 0.

(* ================================================================= *)
(** ** Arithmetic of the embedding

    From here on [+], [-], [*] and [/] stand for the operations of [Num],
    which keep every result in lowest terms; numerals and comparisons are
    those of [Q]. *)

#[local, warnings="-notation-overridden"] Notation "a + b" := (Num.add a b) : Q_scope.
#[local, warnings="-notation-overridden"] Notation "a - b" := (Num.sub a b) : Q_scope.
#[local, warnings="-notation-overridden"] Notation "a * b" := (Num.mul a b) : Q_scope.
#[local, warnings="-notation-overridden"] Notation "a / b" := (Num.div a b) : Q_scope.
#[local, warnings="-notation-overridden"] Notation "- a" := (Num.opp a) : Q_scope.

(* ================================================================= *)
(** ** Operations of THREE.Vector3 *)

Definition set_x (v : Vector3) (q : Q) : Vector3 := vec3 q (vy v) (vz v).
Definition set_y (v : Vector3) (q : Q) : Vector3 := vec3 (vx v) q (vz v).
Definition set_z (v : Vector3) (q : Q) : Vector3 := vec3 (vx v) (vy v) q.

(** [a.sub(b)] *)
Definition vsub (a b : Vector3) : Vector3 :=
  vec3 (vx a - vx b) (vy a - vy b) (vz a - vz b).

(** [a.addScaledVector(v, s)] *)
Definition addScaledVector (a v : Vector3) (s : Q) : Vector3 :=
  vec3 (vx a + vx v * s) (vy a + vy v * s) (vz a + vz v * s).

(** [a.dot(b)] *)
Definition vdot (a b : Vector3) : Q :=
  vx a * vx b + vy a * vy b + vz a * vz b.

(** [a.lengthSq()] *)
Definition lengthSq (a : Vector3) : Q := vdot a a.

(** [a.distanceToSquared(b)] *)
Definition distanceToSquared (a b : Vector3) : Q := lengthSq (vsub a b).

(** [a.crossVectors(u, v)] *)
Definition crossVectors (u v : Vector3) : Vector3 :=
  vec3 (vy u * vz v - vz u * vy v)
       (vz u * vx v - vx u * vz v)
       (vx u * vy v - vy u * vx v).

(* ================================================================= *)
(** ** Room constants *)

Definition ROOM_WIDTH : Q := 50.
Definition ROOM_HEIGHT : Q := 6.
Definition ROOM_LENGTH : Q := 30.
Definition GRAVITY : Q := -30.
Definition JUMP_FORCE : Q := 10.
Definition MAX_ARTWORK_DIMENSION : Q := 5.

(* ================================================================= *)
(** ** Furniture registry *)

Inductive FurnitureType : Type := planter | bench | decoration.

Definition is_bench (t : FurnitureType) : bool :=
  match t with bench => true | _ => false end.

(** An entry of the [furniture] array.  Planters are pushed without a
    [rotation] property, hence the option. *)
Record FurnitureItem : Type := mkItem {
  item_type : FurnitureType;
  item_position : Vector3;
  item_dimensions : Vector3;
  item_rotation : option Q
}.

(** [item.rotation !== 0]; [undefined !== 0] is true. *)
Definition rotation_nonzero (r : option Q) : bool :=
  match r with
  | Some q => neqb q 0
  | None => true
  end.

(** The benches' footprint, with the extents swapped when rotated. *)
Definition bench_bounds (item : FurnitureItem) : Q * Q :=
  let xBound := vx (item_dimensions item) / 2 in
  let zBound := vz (item_dimensions item) / 2 in
  if rotation_nonzero (item_rotation item) then (zBound, xBound)
  else (xBound, zBound).

(** The bounds [checkFurnitureCollision] uses for any item: swapped only
    for a rotated bench. *)
Definition collision_bounds (item : FurnitureItem) : Q * Q :=
  let xBound := vx (item_dimensions item) / 2 in
  let zBound := vz (item_dimensions item) / 2 in
  if is_bench (item_type item) && rotation_nonzero (item_rotation item)
  then (zBound, xBound)
  else (xBound, zBound).

(** One iteration of the loop of [checkFurnitureCollision]:
    [Some b] is [return b], [None] falls through to the next item. *)
Definition checkItem (item : FurnitureItem) (newPosition : Vector3)
  : option bool :=
  let dx := vx newPosition - vx (item_position item) in
  let dz := vz newPosition - vz (item_position item) in
  let '(xBound, zBound) := collision_bounds item in
  if ltb (Math_abs dx) (xBound + 0.3) && ltb (Math_abs dz) (zBound + 0.3)
  then
    if is_bench (item_type item) then
      let playerHeight := vy newPosition in
      let benchTotalHeight := 1.0 in
      if gtb playerHeight (benchTotalHeight + 1.0) then Some false
      else if ltb (Math_abs (playerHeight - 3)) 0.1 then
        let topSurfaceXBound := xBound - 0.1 in
        let topSurfaceZBound := zBound - 0.1 in
        if ltb (Math_abs dx) topSurfaceXBound
           && ltb (Math_abs dz) topSurfaceZBound
        then Some false
        else Some true
      else if leb playerHeight (benchTotalHeight + 1.0) then Some true
      else None
    else Some true
  else None.

Fixpoint checkFurnitureCollision
  (furniture : list FurnitureItem) (newPosition : Vector3) : bool :=
  match furniture with
  | [] => false
  | item :: rest =>
      match checkItem item newPosition with
      | Some b => b
      | None => checkFurnitureCollision rest newPosition
      end
  end.

(** *** Scene construction: what is pushed on [furniture] *)

Definition createPlanter (x z : Q) (furniture : list FurnitureItem)
  : list FurnitureItem :=
  furniture ++ [mkItem planter (vec3 x 0 z) (vec3 2 3 2) None].

Definition createBench (x z rotation : Q) (furniture : list FurnitureItem)
  : list FurnitureItem :=
  let benchWidth := 4 in
  let benchHeight := 1 in
  let benchDepth := 1.5 in
  furniture ++ [mkItem bench (vec3 x 0 z)
                       (vec3 benchWidth benchHeight benchDepth)
                       (Some rotation)].

Definition createBalloonGroup (x y z : Q) (furniture : list FurnitureItem)
  : list FurnitureItem :=
  furniture ++ [mkItem decoration (vec3 x 0 z) (vec3 1 3 1) (Some 0)].

(** [random] is the value [Math.random()] returns for the box's rotation. *)
Definition createGiftBox (x y z width height depth : Q) (random : Q)
  (furniture : list FurnitureItem) : list FurnitureItem :=
  let group_rotation_y := random * Math_PI / 2 in
  furniture ++ [mkItem decoration (vec3 x (y + height / 2) z)
                       (vec3 width height depth)
                       (Some group_rotation_y)].

Definition setupLighting (furniture : list FurnitureItem)
  : list FurnitureItem :=
  let furniture := createPlanter (- ROOM_WIDTH / 2 + 2) (- ROOM_LENGTH / 2 + 2) furniture in
  let furniture := createPlanter (- ROOM_WIDTH / 2 + 2) (ROOM_LENGTH / 2 - 2) furniture in
  let furniture := createPlanter (ROOM_WIDTH / 2 - 2) (- ROOM_LENGTH / 2 + 2) furniture in
  let furniture := createPlanter (ROOM_WIDTH / 2 - 2) (ROOM_LENGTH / 2 - 2) furniture in
  let furniture := createBench 0 (- ROOM_LENGTH / 4) 0 furniture in
  createBench 0 (ROOM_LENGTH / 4) 0 furniture.

Definition createBalloons (furniture : list FurnitureItem)
  : list FurnitureItem :=
  let furniture := createBalloonGroup (- ROOM_WIDTH / 4) 0 (- ROOM_LENGTH / 4) furniture in
  let furniture := createBalloonGroup (ROOM_WIDTH / 4) 0 (- ROOM_LENGTH / 4) furniture in
  let furniture := createBalloonGroup 0 0 (ROOM_LENGTH / 4) furniture in
  let furniture := createBalloonGroup (- ROOM_WIDTH / 3) 0 (ROOM_LENGTH / 3) furniture in
  createBalloonGroup (ROOM_WIDTH / 3) 0 (ROOM_LENGTH / 3) furniture.

(** [random i] is the value of the [i]-th gift box's [Math.random()]. *)
Definition createGiftBoxes (random : nat -> Q)
  (furniture : list FurnitureItem) : list FurnitureItem :=
  let furniture := createGiftBox (- ROOM_WIDTH / 3) 0 (- ROOM_LENGTH / 3) 0.8 0.5 0.8 (random 0%nat) furniture in
  let furniture := createGiftBox (ROOM_WIDTH / 3) 0 (- ROOM_LENGTH / 3) 0.7 0.6 0.7 (random 1%nat) furniture in
  let furniture := createGiftBox 0 0 (ROOM_LENGTH / 3) 0.9 0.4 0.6 (random 2%nat) furniture in
  let furniture := createGiftBox (- ROOM_WIDTH / 2 + 2) 0 (- ROOM_LENGTH / 2 + 2) 1 0.6 0.8 (random 3%nat) furniture in
  let furniture := createGiftBox (- ROOM_WIDTH / 2 + 2) 0.6 (- ROOM_LENGTH / 2 + 2) 0.7 0.4 0.6 (random 4%nat) furniture in
  createGiftBox (- ROOM_WIDTH / 2 + 2) 1.0 (- ROOM_LENGTH / 2 + 2) 0.5 0.3 0.5 (random 5%nat) furniture.

(** The registry once [init] has returned: [setupLighting] runs first,
    then [createWalls], whose [createBirthdayDecorations] calls
    [createBalloons] and [createGiftBoxes]. *)
Definition init_furniture (random : nat -> Q) : list FurnitureItem :=
  createGiftBoxes random (createBalloons (setupLighting [])).

(* ================================================================= *)
(** ** The camera axes

    [camera.rotation] (an Euler) and [camera.quaternion] are two views of
    one orientation: a write to either makes three.js recompute the
    other.  [camera.matrix] is composed from the quaternion, with scale
    1, when [updateMatrix] runs, and keeps its value in between. *)

(** Column 0 of [camera.matrix] ([Matrix4.compose]): the local x axis. *)
Definition matrixColumn0 (q : Quaternion) : Vector3 :=
  let y2 := qy q + qy q in
  let z2 := qz q + qz q in
  let xy := qx q * y2 in
  let xz := qx q * z2 in
  let yy := qy q * y2 in
  let zz := qz q * z2 in
  let wy := qw q * y2 in
  let wz := qw q * z2 in
  vec3 (1 - (yy + zz)) (xy + wz) (xz - wy).

(** Column 2 of [camera.matrix]: the local z axis. *)
Definition matrixColumn2 (q : Quaternion) : Vector3 :=
  let x2 := qx q + qx q in
  let y2 := qy q + qy q in
  let z2 := qz q + qz q in
  let xx := qx q * x2 in
  let xz := qx q * z2 in
  let yy := qy q * y2 in
  let yz := qy q * z2 in
  let wx := qw q * x2 in
  let wy := qw q * y2 in
  vec3 (xz + wy) (yz - wx) (1 - (xx + yy)).

(** [v.applyQuaternion(q)] *)
Definition applyQuaternion (v : Vector3) (q : Quaternion) : Vector3 :=
  let tx := 2 * (qy q * vz v - qz q * vy v) in
  let ty := 2 * (qz q * vx v - qx q * vz v) in
  let tz := 2 * (qx q * vy v - qy q * vx v) in
  vec3 (vx v + qw q * tx + qy q * tz - qz q * ty)
       (vy v + qw q * ty + qz q * tx - qx q * tz)
       (vz v + qw q * tz + qx q * ty - qy q * tx).

(** [camera.up] *)
Definition camera_up : Vector3 := vec3 0 1 0.

(* ================================================================= *)
(** ** Artwork registry entries *)

Record Group : Type := mkGroup {
  group_position : Vector3;
  group_quaternion : Quaternion
}.

(** An entry of the [artworks] array.  A JavaScript property may be
    [undefined], which [findNearestArtwork] tests for: the four data
    properties are options. *)
Record Artwork : Type := mkArtwork {
  group : Group;
  originalPosition : Vector3;
  isZoomed : bool;
  imagePath : string;
  title : option string;
  description : option string;
  width : option Q;
  height : option Q
}.

Record ArtworkInfo : Type := mkInfo {
  info_title : string;
  info_description : string
}.

Record ArtworkPlace : Type := mkPlace {
  place_position : Vector3;
  place_rotation : Q
}.

Definition imagePaths : list string :=
  [ "images/img1.jpg"; "images/img2.jpg"; "images/img3.jpg";
    "images/img4.jpg"; "images/img5.jpg"; "images/img6.jpg";
    "images/img7.jpg"; "images/img8.jpg"; "images/img9.jpg";
    "images/img10.jpg"; "images/img11.jpg" ]%string.

Definition artworkInfo : list ArtworkInfo :=
  [ mkInfo "3-1-25"
      "We are going to rezz every time.";
    mkInfo "10-19-24"
      "Your laugh is my favorite sound in the world. I fall more in love with you every day.";
    mkInfo "10-12-24"
      "First rave togetherrrrr. I love you happy birthday sweet 21.";
    mkInfo "9-23-24"
      "Are you a high-resolution camera? Because every time I see you, you make my world ultra HD.";
    mkInfo "10-26-24"
      "Are you Remy? Because you've taken control of my heart just like you took control of Linguini!ðŸ’•ðŸ­ðŸ";
    mkInfo "12-31-24"
      "Miles of road, music playing, and your hand in mine. I'd drive anywhere as long as you're by my side.";
    mkInfo "2-14-25"
      "Your cuddles are the best part of my day. â¤ï¸";
    mkInfo "8-11-24"
      "Are you a squat rack? Because I can't resist getting under you.";
    mkInfo "idk the date"
      "Sunshine, sandwiches, and your sweet kisses. Simple joys become treasures when I'm with you. You're the cherry on top of my life.";
    mkInfo "10-13-24"
      "Are you my remedy? Because in the chaos of life, you're the clarity that keeps me sane.ðŸ’–ðŸŽ¶";
    mkInfo "2-14-25"
      "Thank you for sharing your heart with me. I promise to cherish it always. Forever yours. â¤ï¸" ]%string.

Definition artworkPositions : list ArtworkPlace :=
  [ (* left wall *)
    mkPlace (vec3 (- ROOM_WIDTH / 2 + 0.2) (ROOM_HEIGHT / 2) (-10)) (Math_PI / 2);
    mkPlace (vec3 (- ROOM_WIDTH / 2 + 0.2) (ROOM_HEIGHT / 2) 0) (Math_PI / 2);
    mkPlace (vec3 (- ROOM_WIDTH / 2 + 0.2) (ROOM_HEIGHT / 2) 10) (Math_PI / 2);
    (* right wall *)
    mkPlace (vec3 (ROOM_WIDTH / 2 - 0.2) (ROOM_HEIGHT / 2) (-10)) (- Math_PI / 2);
    mkPlace (vec3 (ROOM_WIDTH / 2 - 0.2) (ROOM_HEIGHT / 2) 0) (- Math_PI / 2);
    mkPlace (vec3 (ROOM_WIDTH / 2 - 0.2) (ROOM_HEIGHT / 2) 10) (- Math_PI / 2);
    (* back wall *)
    mkPlace (vec3 (-15) (ROOM_HEIGHT / 2) (- ROOM_LENGTH / 2 + 0.2)) 0;
    mkPlace (vec3 (-5) (ROOM_HEIGHT / 2) (- ROOM_LENGTH / 2 + 0.2)) 0;
    mkPlace (vec3 5 (ROOM_HEIGHT / 2) (- ROOM_LENGTH / 2 + 0.2)) 0;
    mkPlace (vec3 15 (ROOM_HEIGHT / 2) (- ROOM_LENGTH / 2 + 0.2)) 0;
    (* front wall centre *)
    mkPlace (vec3 0 (ROOM_HEIGHT / 2) (ROOM_LENGTH / 2 - 0.2)) Math_PI ].

(* ================================================================= *)
(** ** The global state of [main.js] *)

(** A call of [controls.lock()] or [controls.unlock()].  Both only ask the
    browser; [controls.isLocked] changes when the browser answers. *)
Inductive LockRequest : Type := request_lock | request_unlock.

(** [style.display] of the artwork-info panel; [display_unset] until the
    script assigns it. *)
Inductive Display : Type := display_unset | display_block | display_none.

(** The script's global variables.  Of the camera three.js keeps the
    position, the orientation twice ([camera_quaternion] and
    [camera_rotation]) and the matrix; [camera_matrix] is the quaternion
    [camera.matrix] was last composed from, its position and scale are
    read by nothing in the script. *)
Record State : Type := mkState {
  camera_position : Vector3;
  camera_quaternion : Quaternion;
  camera_rotation : Euler;
  camera_matrix : Quaternion;
  moveForward : bool;
  moveBackward : bool;
  moveLeft : bool;
  moveRight : bool;
  isJumping : bool;
  jumpVelocity : Q;
  canJump : bool;
  prevTime : Q;
  velocity : Vector3;
  direction : Vector3;
  isZooming : bool;
  artworks : list Artwork;
  furniture : list FurnitureItem;
  originalCameraPosition : option Vector3;
  originalCameraRotation : option Euler;
  controls_isLocked : bool;
  lock_requests : list LockRequest;
  panel_title : option string;
  panel_message : option string;
  panel_display : Display
}.

Definition with_camera_position (v : Vector3) (st : State) : State :=
  {|
     camera_position := v; camera_quaternion := camera_quaternion
     st; camera_rotation := camera_rotation st; camera_matrix :=
     camera_matrix st; moveForward := moveForward st; moveBackward
     := moveBackward st; moveLeft := moveLeft st; moveRight :=
     moveRight st; isJumping := isJumping st; jumpVelocity :=
     jumpVelocity st; canJump := canJump st; prevTime := prevTime
     st; velocity := velocity st; direction := direction st;
     isZooming := isZooming st; artworks := artworks st; furniture
     := furniture st; originalCameraPosition :=
     originalCameraPosition st; originalCameraRotation :=
     originalCameraRotation st; controls_isLocked :=
     controls_isLocked st; lock_requests := lock_requests st;
     panel_title := panel_title st; panel_message := panel_message
     st; panel_display := panel_display st |}.

Definition with_camera_quaternion (v : Quaternion) (st : State) : State :=
  {|
     camera_position := camera_position st; camera_quaternion :=
     v; camera_rotation := camera_rotation st; camera_matrix :=
     camera_matrix st; moveForward := moveForward st; moveBackward
     := moveBackward st; moveLeft := moveLeft st; moveRight :=
     moveRight st; isJumping := isJumping st; jumpVelocity :=
     jumpVelocity st; canJump := canJump st; prevTime := prevTime
     st; velocity := velocity st; direction := direction st;
     isZooming := isZooming st; artworks := artworks st; furniture
     := furniture st; originalCameraPosition :=
     originalCameraPosition st; originalCameraRotation :=
     originalCameraRotation st; controls_isLocked :=
     controls_isLocked st; lock_requests := lock_requests st;
     panel_title := panel_title st; panel_message := panel_message
     st; panel_display := panel_display st |}.

Definition with_camera_rotation (v : Euler) (st : State) : State :=
  {|
     camera_position := camera_position st; camera_quaternion :=
     camera_quaternion st; camera_rotation := v; camera_matrix :=
     camera_matrix st; moveForward := moveForward st; moveBackward
     := moveBackward st; moveLeft := moveLeft st; moveRight :=
     moveRight st; isJumping := isJumping st; jumpVelocity :=
     jumpVelocity st; canJump := canJump st; prevTime := prevTime
     st; velocity := velocity st; direction := direction st;
     isZooming := isZooming st; artworks := artworks st; furniture
     := furniture st; originalCameraPosition :=
     originalCameraPosition st; originalCameraRotation :=
     originalCameraRotation st; controls_isLocked :=
     controls_isLocked st; lock_requests := lock_requests st;
     panel_title := panel_title st; panel_message := panel_message
     st; panel_display := panel_display st |}.

Definition with_camera_matrix (v : Quaternion) (st : State) : State :=
  {|
     camera_position := camera_position st; camera_quaternion :=
     camera_quaternion st; camera_rotation := camera_rotation st;
     camera_matrix := v; moveForward := moveForward st;
     moveBackward := moveBackward st; moveLeft := moveLeft st;
     moveRight := moveRight st; isJumping := isJumping st;
     jumpVelocity := jumpVelocity st; canJump := canJump st;
     prevTime := prevTime st; velocity := velocity st; direction
     := direction st; isZooming := isZooming st; artworks :=
     artworks st; furniture := furniture st;
     originalCameraPosition := originalCameraPosition st;
     originalCameraRotation := originalCameraRotation st;
     controls_isLocked := controls_isLocked st; lock_requests :=
     lock_requests st; panel_title := panel_title st;
     panel_message := panel_message st; panel_display :=
     panel_display st |}.

Definition with_moveForward (v : bool) (st : State) : State :=
  {|
     camera_position := camera_position st; camera_quaternion :=
     camera_quaternion st; camera_rotation := camera_rotation st;
     camera_matrix := camera_matrix st; moveForward := v;
     moveBackward := moveBackward st; moveLeft := moveLeft st;
     moveRight := moveRight st; isJumping := isJumping st;
     jumpVelocity := jumpVelocity st; canJump := canJump st;
     prevTime := prevTime st; velocity := velocity st; direction
     := direction st; isZooming := isZooming st; artworks :=
     artworks st; furniture := furniture st;
     originalCameraPosition := originalCameraPosition st;
     originalCameraRotation := originalCameraRotation st;
     controls_isLocked := controls_isLocked st; lock_requests :=
     lock_requests st; panel_title := panel_title st;
     panel_message := panel_message st; panel_display :=
     panel_display st |}.

Definition with_moveBackward (v : bool) (st : State) : State :=
  {|
     camera_position := camera_position st; camera_quaternion :=
     camera_quaternion st; camera_rotation := camera_rotation st;
     camera_matrix := camera_matrix st; moveForward := moveForward
     st; moveBackward := v; moveLeft := moveLeft st; moveRight :=
     moveRight st; isJumping := isJumping st; jumpVelocity :=
     jumpVelocity st; canJump := canJump st; prevTime := prevTime
     st; velocity := velocity st; direction := direction st;
     isZooming := isZooming st; artworks := artworks st; furniture
     := furniture st; originalCameraPosition :=
     originalCameraPosition st; originalCameraRotation :=
     originalCameraRotation st; controls_isLocked :=
     controls_isLocked st; lock_requests := lock_requests st;
     panel_title := panel_title st; panel_message := panel_message
     st; panel_display := panel_display st |}.

Definition with_moveLeft (v : bool) (st : State) : State :=
  {|
     camera_position := camera_position st; camera_quaternion :=
     camera_quaternion st; camera_rotation := camera_rotation st;
     camera_matrix := camera_matrix st; moveForward := moveForward
     st; moveBackward := moveBackward st; moveLeft := v; moveRight
     := moveRight st; isJumping := isJumping st; jumpVelocity :=
     jumpVelocity st; canJump := canJump st; prevTime := prevTime
     st; velocity := velocity st; direction := direction st;
     isZooming := isZooming st; artworks := artworks st; furniture
     := furniture st; originalCameraPosition :=
     originalCameraPosition st; originalCameraRotation :=
     originalCameraRotation st; controls_isLocked :=
     controls_isLocked st; lock_requests := lock_requests st;
     panel_title := panel_title st; panel_message := panel_message
     st; panel_display := panel_display st |}.

Definition with_moveRight (v : bool) (st : State) : State :=
  {|
     camera_position := camera_position st; camera_quaternion :=
     camera_quaternion st; camera_rotation := camera_rotation st;
     camera_matrix := camera_matrix st; moveForward := moveForward
     st; moveBackward := moveBackward st; moveLeft := moveLeft st;
     moveRight := v; isJumping := isJumping st; jumpVelocity :=
     jumpVelocity st; canJump := canJump st; prevTime := prevTime
     st; velocity := velocity st; direction := direction st;
     isZooming := isZooming st; artworks := artworks st; furniture
     := furniture st; originalCameraPosition :=
     originalCameraPosition st; originalCameraRotation :=
     originalCameraRotation st; controls_isLocked :=
     controls_isLocked st; lock_requests := lock_requests st;
     panel_title := panel_title st; panel_message := panel_message
     st; panel_display := panel_display st |}.

Definition with_isJumping (v : bool) (st : State) : State :=
  {|
     camera_position := camera_position st; camera_quaternion :=
     camera_quaternion st; camera_rotation := camera_rotation st;
     camera_matrix := camera_matrix st; moveForward := moveForward
     st; moveBackward := moveBackward st; moveLeft := moveLeft st;
     moveRight := moveRight st; isJumping := v; jumpVelocity :=
     jumpVelocity st; canJump := canJump st; prevTime := prevTime
     st; velocity := velocity st; direction := direction st;
     isZooming := isZooming st; artworks := artworks st; furniture
     := furniture st; originalCameraPosition :=
     originalCameraPosition st; originalCameraRotation :=
     originalCameraRotation st; controls_isLocked :=
     controls_isLocked st; lock_requests := lock_requests st;
     panel_title := panel_title st; panel_message := panel_message
     st; panel_display := panel_display st |}.

Definition with_jumpVelocity (v : Q) (st : State) : State :=
  {|
     camera_position := camera_position st; camera_quaternion :=
     camera_quaternion st; camera_rotation := camera_rotation st;
     camera_matrix := camera_matrix st; moveForward := moveForward
     st; moveBackward := moveBackward st; moveLeft := moveLeft st;
     moveRight := moveRight st; isJumping := isJumping st;
     jumpVelocity := v; canJump := canJump st; prevTime :=
     prevTime st; velocity := velocity st; direction := direction
     st; isZooming := isZooming st; artworks := artworks st;
     furniture := furniture st; originalCameraPosition :=
     originalCameraPosition st; originalCameraRotation :=
     originalCameraRotation st; controls_isLocked :=
     controls_isLocked st; lock_requests := lock_requests st;
     panel_title := panel_title st; panel_message := panel_message
     st; panel_display := panel_display st |}.

Definition with_canJump (v : bool) (st : State) : State :=
  {|
     camera_position := camera_position st; camera_quaternion :=
     camera_quaternion st; camera_rotation := camera_rotation st;
     camera_matrix := camera_matrix st; moveForward := moveForward
     st; moveBackward := moveBackward st; moveLeft := moveLeft st;
     moveRight := moveRight st; isJumping := isJumping st;
     jumpVelocity := jumpVelocity st; canJump := v; prevTime :=
     prevTime st; velocity := velocity st; direction := direction
     st; isZooming := isZooming st; artworks := artworks st;
     furniture := furniture st; originalCameraPosition :=
     originalCameraPosition st; originalCameraRotation :=
     originalCameraRotation st; controls_isLocked :=
     controls_isLocked st; lock_requests := lock_requests st;
     panel_title := panel_title st; panel_message := panel_message
     st; panel_display := panel_display st |}.

Definition with_prevTime (v : Q) (st : State) : State :=
  {|
     camera_position := camera_position st; camera_quaternion :=
     camera_quaternion st; camera_rotation := camera_rotation st;
     camera_matrix := camera_matrix st; moveForward := moveForward
     st; moveBackward := moveBackward st; moveLeft := moveLeft st;
     moveRight := moveRight st; isJumping := isJumping st;
     jumpVelocity := jumpVelocity st; canJump := canJump st;
     prevTime := v; velocity := velocity st; direction :=
     direction st; isZooming := isZooming st; artworks := artworks
     st; furniture := furniture st; originalCameraPosition :=
     originalCameraPosition st; originalCameraRotation :=
     originalCameraRotation st; controls_isLocked :=
     controls_isLocked st; lock_requests := lock_requests st;
     panel_title := panel_title st; panel_message := panel_message
     st; panel_display := panel_display st |}.

Definition with_velocity (v : Vector3) (st : State) : State :=
  {|
     camera_position := camera_position st; camera_quaternion :=
     camera_quaternion st; camera_rotation := camera_rotation st;
     camera_matrix := camera_matrix st; moveForward := moveForward
     st; moveBackward := moveBackward st; moveLeft := moveLeft st;
     moveRight := moveRight st; isJumping := isJumping st;
     jumpVelocity := jumpVelocity st; canJump := canJump st;
     prevTime := prevTime st; velocity := v; direction :=
     direction st; isZooming := isZooming st; artworks := artworks
     st; furniture := furniture st; originalCameraPosition :=
     originalCameraPosition st; originalCameraRotation :=
     originalCameraRotation st; controls_isLocked :=
     controls_isLocked st; lock_requests := lock_requests st;
     panel_title := panel_title st; panel_message := panel_message
     st; panel_display := panel_display st |}.

Definition with_direction (v : Vector3) (st : State) : State :=
  {|
     camera_position := camera_position st; camera_quaternion :=
     camera_quaternion st; camera_rotation := camera_rotation st;
     camera_matrix := camera_matrix st; moveForward := moveForward
     st; moveBackward := moveBackward st; moveLeft := moveLeft st;
     moveRight := moveRight st; isJumping := isJumping st;
     jumpVelocity := jumpVelocity st; canJump := canJump st;
     prevTime := prevTime st; velocity := velocity st; direction
     := v; isZooming := isZooming st; artworks := artworks st;
     furniture := furniture st; originalCameraPosition :=
     originalCameraPosition st; originalCameraRotation :=
     originalCameraRotation st; controls_isLocked :=
     controls_isLocked st; lock_requests := lock_requests st;
     panel_title := panel_title st; panel_message := panel_message
     st; panel_display := panel_display st |}.

Definition with_isZooming (v : bool) (st : State) : State :=
  {|
     camera_position := camera_position st; camera_quaternion :=
     camera_quaternion st; camera_rotation := camera_rotation st;
     camera_matrix := camera_matrix st; moveForward := moveForward
     st; moveBackward := moveBackward st; moveLeft := moveLeft st;
     moveRight := moveRight st; isJumping := isJumping st;
     jumpVelocity := jumpVelocity st; canJump := canJump st;
     prevTime := prevTime st; velocity := velocity st; direction
     := direction st; isZooming := v; artworks := artworks st;
     furniture := furniture st; originalCameraPosition :=
     originalCameraPosition st; originalCameraRotation :=
     originalCameraRotation st; controls_isLocked :=
     controls_isLocked st; lock_requests := lock_requests st;
     panel_title := panel_title st; panel_message := panel_message
     st; panel_display := panel_display st |}.

Definition with_artworks (v : list Artwork) (st : State) : State :=
  {|
     camera_position := camera_position st; camera_quaternion :=
     camera_quaternion st; camera_rotation := camera_rotation st;
     camera_matrix := camera_matrix st; moveForward := moveForward
     st; moveBackward := moveBackward st; moveLeft := moveLeft st;
     moveRight := moveRight st; isJumping := isJumping st;
     jumpVelocity := jumpVelocity st; canJump := canJump st;
     prevTime := prevTime st; velocity := velocity st; direction
     := direction st; isZooming := isZooming st; artworks := v;
     furniture := furniture st; originalCameraPosition :=
     originalCameraPosition st; originalCameraRotation :=
     originalCameraRotation st; controls_isLocked :=
     controls_isLocked st; lock_requests := lock_requests st;
     panel_title := panel_title st; panel_message := panel_message
     st; panel_display := panel_display st |}.

Definition with_furniture (v : list FurnitureItem) (st : State) : State :=
  {|
     camera_position := camera_position st; camera_quaternion :=
     camera_quaternion st; camera_rotation := camera_rotation st;
     camera_matrix := camera_matrix st; moveForward := moveForward
     st; moveBackward := moveBackward st; moveLeft := moveLeft st;
     moveRight := moveRight st; isJumping := isJumping st;
     jumpVelocity := jumpVelocity st; canJump := canJump st;
     prevTime := prevTime st; velocity := velocity st; direction
     := direction st; isZooming := isZooming st; artworks :=
     artworks st; furniture := v; originalCameraPosition :=
     originalCameraPosition st; originalCameraRotation :=
     originalCameraRotation st; controls_isLocked :=
     controls_isLocked st; lock_requests := lock_requests st;
     panel_title := panel_title st; panel_message := panel_message
     st; panel_display := panel_display st |}.

Definition with_originalCameraPosition (v : option Vector3) (st : State) : State :=
  {|
     camera_position := camera_position st; camera_quaternion :=
     camera_quaternion st; camera_rotation := camera_rotation st;
     camera_matrix := camera_matrix st; moveForward := moveForward
     st; moveBackward := moveBackward st; moveLeft := moveLeft st;
     moveRight := moveRight st; isJumping := isJumping st;
     jumpVelocity := jumpVelocity st; canJump := canJump st;
     prevTime := prevTime st; velocity := velocity st; direction
     := direction st; isZooming := isZooming st; artworks :=
     artworks st; furniture := furniture st;
     originalCameraPosition := v; originalCameraRotation :=
     originalCameraRotation st; controls_isLocked :=
     controls_isLocked st; lock_requests := lock_requests st;
     panel_title := panel_title st; panel_message := panel_message
     st; panel_display := panel_display st |}.

Definition with_originalCameraRotation (v : option Euler) (st : State) : State :=
  {|
     camera_position := camera_position st; camera_quaternion :=
     camera_quaternion st; camera_rotation := camera_rotation st;
     camera_matrix := camera_matrix st; moveForward := moveForward
     st; moveBackward := moveBackward st; moveLeft := moveLeft st;
     moveRight := moveRight st; isJumping := isJumping st;
     jumpVelocity := jumpVelocity st; canJump := canJump st;
     prevTime := prevTime st; velocity := velocity st; direction
     := direction st; isZooming := isZooming st; artworks :=
     artworks st; furniture := furniture st;
     originalCameraPosition := originalCameraPosition st;
     originalCameraRotation := v; controls_isLocked :=
     controls_isLocked st; lock_requests := lock_requests st;
     panel_title := panel_title st; panel_message := panel_message
     st; panel_display := panel_display st |}.

Definition with_controls_isLocked (v : bool) (st : State) : State :=
  {|
     camera_position := camera_position st; camera_quaternion :=
     camera_quaternion st; camera_rotation := camera_rotation st;
     camera_matrix := camera_matrix st; moveForward := moveForward
     st; moveBackward := moveBackward st; moveLeft := moveLeft st;
     moveRight := moveRight st; isJumping := isJumping st;
     jumpVelocity := jumpVelocity st; canJump := canJump st;
     prevTime := prevTime st; velocity := velocity st; direction
     := direction st; isZooming := isZooming st; artworks :=
     artworks st; furniture := furniture st;
     originalCameraPosition := originalCameraPosition st;
     originalCameraRotation := originalCameraRotation st;
     controls_isLocked := v; lock_requests := lock_requests st;
     panel_title := panel_title st; panel_message := panel_message
     st; panel_display := panel_display st |}.

Definition with_lock_requests (v : list LockRequest) (st : State) : State :=
  {|
     camera_position := camera_position st; camera_quaternion :=
     camera_quaternion st; camera_rotation := camera_rotation st;
     camera_matrix := camera_matrix st; moveForward := moveForward
     st; moveBackward := moveBackward st; moveLeft := moveLeft st;
     moveRight := moveRight st; isJumping := isJumping st;
     jumpVelocity := jumpVelocity st; canJump := canJump st;
     prevTime := prevTime st; velocity := velocity st; direction
     := direction st; isZooming := isZooming st; artworks :=
     artworks st; furniture := furniture st;
     originalCameraPosition := originalCameraPosition st;
     originalCameraRotation := originalCameraRotation st;
     controls_isLocked := controls_isLocked st; lock_requests :=
     v; panel_title := panel_title st; panel_message :=
     panel_message st; panel_display := panel_display st |}.

Definition with_panel_title (v : option string) (st : State) : State :=
  {|
     camera_position := camera_position st; camera_quaternion :=
     camera_quaternion st; camera_rotation := camera_rotation st;
     camera_matrix := camera_matrix st; moveForward := moveForward
     st; moveBackward := moveBackward st; moveLeft := moveLeft st;
     moveRight := moveRight st; isJumping := isJumping st;
     jumpVelocity := jumpVelocity st; canJump := canJump st;
     prevTime := prevTime st; velocity := velocity st; direction
     := direction st; isZooming := isZooming st; artworks :=
     artworks st; furniture := furniture st;
     originalCameraPosition := originalCameraPosition st;
     originalCameraRotation := originalCameraRotation st;
     controls_isLocked := controls_isLocked st; lock_requests :=
     lock_requests st; panel_title := v; panel_message :=
     panel_message st; panel_display := panel_display st |}.

Definition with_panel_message (v : option string) (st : State) : State :=
  {|
     camera_position := camera_position st; camera_quaternion :=
     camera_quaternion st; camera_rotation := camera_rotation st;
     camera_matrix := camera_matrix st; moveForward := moveForward
     st; moveBackward := moveBackward st; moveLeft := moveLeft st;
     moveRight := moveRight st; isJumping := isJumping st;
     jumpVelocity := jumpVelocity st; canJump := canJump st;
     prevTime := prevTime st; velocity := velocity st; direction
     := direction st; isZooming := isZooming st; artworks :=
     artworks st; furniture := furniture st;
     originalCameraPosition := originalCameraPosition st;
     originalCameraRotation := originalCameraRotation st;
     controls_isLocked := controls_isLocked st; lock_requests :=
     lock_requests st; panel_title := panel_title st;
     panel_message := v; panel_display := panel_display st |}.

Definition with_panel_display (v : Display) (st : State) : State :=
  {|
     camera_position := camera_position st; camera_quaternion :=
     camera_quaternion st; camera_rotation := camera_rotation st;
     camera_matrix := camera_matrix st; moveForward := moveForward
     st; moveBackward := moveBackward st; moveLeft := moveLeft st;
     moveRight := moveRight st; isJumping := isJumping st;
     jumpVelocity := jumpVelocity st; canJump := canJump st;
     prevTime := prevTime st; velocity := velocity st; direction
     := direction st; isZooming := isZooming st; artworks :=
     artworks st; furniture := furniture st;
     originalCameraPosition := originalCameraPosition st;
     originalCameraRotation := originalCameraRotation st;
     controls_isLocked := controls_isLocked st; lock_requests :=
     lock_requests st; panel_title := panel_title st;
     panel_message := panel_message st; panel_display := v |}.

Definition init_state (random : nat -> Q) (now : Q) : State :=
  {| camera_position := vec3 0 2 0;
     camera_quaternion := quat 0 0 0 1;
     camera_rotation := euler 0 0 0;
     camera_matrix := quat 0 0 0 1;
     moveForward := false; moveBackward := false;
     moveLeft := false; moveRight := false;
     isJumping := false; jumpVelocity := 0; canJump := true;
     prevTime := now;
     velocity := vec3 0 0 0; direction := vec3 0 0 0;
     isZooming := false;
     artworks := [];
     furniture := init_furniture random;
     originalCameraPosition := None;
     originalCameraRotation := None;
     controls_isLocked := false;
     lock_requests := [];
     panel_title := None; panel_message := None;
     panel_display := display_unset |}.

(** [controls.lock()] *)
Definition controls_lock (st : State) : State :=
  with_lock_requests (lock_requests st ++ [request_lock]) st.

(** [controls.unlock()] *)
Definition controls_unlock (st : State) : State :=
  with_lock_requests (lock_requests st ++ [request_unlock]) st.

(** [camera.updateMatrix()]: [camera.matrix] is composed anew, from the
    orientation of the moment. *)
Definition updateMatrix (st : State) : State :=
  with_camera_matrix (camera_quaternion st) st.

(** [controls.moveRight(distance)]: along column 0 of [camera.matrix],
    as it was last composed. *)
Definition controls_moveRight (distance : Q) (st : State) : State :=
  let _vector := matrixColumn0 (camera_matrix st) in
  with_camera_position
    (addScaledVector (camera_position st) _vector distance) st.

(** [controls.moveForward(distance)]: along [camera.up] x column 0. *)
Definition controls_moveForward (distance : Q) (st : State) : State :=
  let _vector := matrixColumn0 (camera_matrix st) in
  let _vector := crossVectors camera_up _vector in
  with_camera_position
    (addScaledVector (camera_position st) _vector distance) st.

(** [v === undefined] *)
Definition undefinedb {A : Type} (v : option A) : bool :=
  match v with None => true | Some _ => false end.

(** A dimension read as a number.  On [undefined] JavaScript computes with
    NaN, which the rationals lack; [findNearestArtwork] reads dimensions
    only behind its guard, and the key handler passes [zoomToArtwork] an
    artwork that went through that guard. *)
Definition dimension (d : option Q) : Q :=
  match d with Some q => q | None => 0 end.

(** [x || 1] on a number *)
Definition or_one (x : Q) : Q := if Qeq_bool x 0 then 1 else x.

(** [v.multiplyScalar(s)] *)
Definition multiplyScalar (v : Vector3) (s : Q) : Vector3 :=
  vec3 (vx v * s) (vy v * s) (vz v * s).

(** [v.divideScalar(s)] *)
Definition divideScalar (v : Vector3) (s : Q) : Vector3 :=
  multiplyScalar v (1 / s).

(** [MathUtils.clamp] *)
Definition clamp (value min max : Q) : Q :=
  Math_max min (Math_min max value).

(** [-Infinity] is [None]: [score > bestScore]. *)
Definition score_gt (score : Q) (bestScore : option Q) : bool :=
  match bestScore with
  | None => true
  | Some best => gtb score best
  end.

Definition safePositions : list Vector3 :=
  [ vec3 0 2 0;
    vec3 (- ROOM_WIDTH / 4) 2 0;
    vec3 (ROOM_WIDTH / 4) 2 0;
    vec3 0 2 (- ROOM_LENGTH / 4);
    vec3 0 2 (ROOM_LENGTH / 4) ].

(** The trigger of the bounds check at the head of [animate]; [&&] binds
    tighter than [||]. *)
Definition outsideBounds (st : State) : bool :=
  let p := camera_position st in
  (negb (isZooming st) && ltb (vy p) 0)
  || ltb (vx p) (- ROOM_WIDTH / 2 - 5)
  || gtb (vx p) (ROOM_WIDTH / 2 + 5)
  || ltb (vz p) (- ROOM_LENGTH / 2 - 5)
  || gtb (vz p) (ROOM_LENGTH / 2 + 5).

(** The wall test of [animate] on the candidate position. *)
Definition hasWallCollision (newPosition : Vector3) : bool :=
  ltb (vx newPosition) (- ROOM_WIDTH / 2 + 1)
  || gtb (vx newPosition) (ROOM_WIDTH / 2 - 1)
  || ltb (vz newPosition) (- ROOM_LENGTH / 2 + 1)
  || gtb (vz newPosition) (ROOM_LENGTH / 2 - 1).

(** Is [p] over the bench [item], its footprint shrunk by 0.2?  Used by
    [animate] both for landing and for staying on a bench. *)
Definition overBench (item : FurnitureItem) (p : Vector3) : bool :=
  is_bench (item_type item)
  && (let dx := vx p - vx (item_position item) in
      let dz := vz p - vz (item_position item) in
      let '(xBound, zBound) := bench_bounds item in
      ltb (Math_abs dx) (xBound - 0.2) && ltb (Math_abs dz) (zBound - 0.2)).

(** Key codes the handlers distinguish. *)
Inductive KeyCode : Type :=
  KeyW | KeyA | KeyS | KeyD | Space | KeyV | Escape | KeyR | OtherKey.

(** What the browser delivers to the script. *)
Inductive Event : Type :=
| KeyDown (code : KeyCode)
| KeyUp (code : KeyCode)
| Click
| PointerLockChange (locked : bool)
| TextureLoaded (index : nat) (imageWidth imageHeight : Q)
| Frame (time : Q)
| MouseMove (movementX movementY : Q).

(* ================================================================= *)
(** ** The functions of [main.js] *)

Section Museum.

Set Default Proof Using "Type".

(** [Math.sqrt] and [Math.acos]. *)
Variable Math_sqrt : Q -> Q.
Variable Math_acos : Q -> Q.

(** three.js: the quaternion of an object whose [rotation] is set to the
    Euler angles [(x, y, z)]. *)
Variable setFromEuler : Q -> Q -> Q -> Quaternion.

(** three.js: the quaternion of the camera standing at the first point
    after [camera.lookAt] of the second. *)
Variable lookAt : Vector3 -> Vector3 -> Quaternion.

(** three.js: the Euler angles, in the order XYZ, that [camera.rotation]
    takes when [camera.quaternion] is written. *)
Variable setFromQuaternion : Quaternion -> Euler.

(** three.js: the quaternion the mouse handler of [PointerLockControls]
    makes of the camera's for a movement of [(movementX, movementY)]. *)
Variable turn : Q -> Q -> Quaternion -> Quaternion.

(** A write to [camera.quaternion]: [camera.rotation] follows. *)
Definition set_quaternion (q : Quaternion) (st : State) : State :=
  let st := with_camera_quaternion q st in
  with_camera_rotation (setFromQuaternion (camera_quaternion st)) st.

(** A write to [camera.rotation]: [camera.quaternion] follows. *)
Definition set_rotation (e : Euler) (st : State) : State :=
  let st := with_camera_rotation e st in
  with_camera_quaternion
    (setFromEuler (euler_x (camera_rotation st))
                  (euler_y (camera_rotation st))
                  (euler_z (camera_rotation st))) st.

(** [camera.lookAt(target)]: [updateWorldMatrix] first, which composes
    [camera.matrix] from the orientation before the turn. *)
Definition camera_lookAt (target : Vector3) (st : State) : State :=
  let st := updateMatrix st in
  set_quaternion (lookAt (camera_position st) target) st.

(** [v.length()] *)
Definition vlength (v : Vector3) : Q := Math_sqrt (lengthSq v).

(** [v.normalize()] *)
Definition normalize (v : Vector3) : Vector3 :=
  divideScalar v (or_one (vlength v)).

(** [a.distanceTo(b)] *)
Definition distanceTo (a b : Vector3) : Q :=
  Math_sqrt (distanceToSquared a b).

(** [a.angleTo(b)] *)
Definition angleTo (a b : Vector3) : Q :=
  let denominator := Math_sqrt (lengthSq a * lengthSq b) in
  if Qeq_bool denominator 0 then Math_PI / 2
  else
    let theta := vdot a b / denominator in
    Math_acos (clamp theta (-1) 1).

(** [camera.getWorldDirection(target)] *)
Definition getWorldDirection (q : Quaternion) : Vector3 :=
  let e := matrixColumn2 q in
  normalize (vec3 (- vx e) (- vy e) (- vz e)).

(** *** createArtworks: the texture-load callback *)

(** The callback of [textureLoader.load] for [imagePaths[index]].  On an
    index outside the tables [pos.position] throws before anything is
    pushed. *)
Definition onTextureLoaded (index : nat) (imageWidth imageHeight : Q)
  (artworks : list Artwork) : list Artwork :=
  let aspectRatio := imageWidth / imageHeight in
  let '(artworkWidth, artworkHeight) :=
    if geb aspectRatio 1 then
      let artworkWidth := Math_min MAX_ARTWORK_DIMENSION 4 in
      (artworkWidth, artworkWidth / aspectRatio)
    else
      let artworkHeight := Math_min MAX_ARTWORK_DIMENSION 4 in
      (artworkHeight * aspectRatio, artworkHeight) in
  match nth_error imagePaths index,
        nth_error artworkPositions index,
        nth_error artworkInfo index with
  | Some path, Some pos, Some info =>
      let artworkGroup :=
        mkGroup (place_position pos)
                (setFromEuler 0 (place_rotation pos) 0) in
      artworks ++
        [ {| group := artworkGroup;
             originalPosition := place_position pos;
             isZoomed := false;
             imagePath := path;
             title := Some (info_title info);
             description := Some (info_description info);
             width := Some artworkWidth;
             height := Some artworkHeight |} ]
  | _, _, _ => artworks
  end.

(** *** findNearestArtwork *)

(** The body of the [forEach] callback; the accumulator is
    [(nearestArtwork, bestScore)]. *)
Definition visitArtwork (cameraPosition cameraDirection : Vector3)
  (acc : option Artwork * option Q) (artwork : Artwork)
  : option Artwork * option Q :=
  if undefinedb (width artwork) || undefinedb (height artwork) then acc
  else
    let artwork_width := dimension (width artwork) in
    let artwork_height := dimension (height artwork) in
    let artworkPosition := group_position (group artwork) in
    let distance := distanceTo cameraPosition artworkPosition in
    let sizeBasedThreshold := Math_max artwork_width artwork_height * 3 in
    let maxDistance := Math_max 10 sizeBasedThreshold in
    if ltb distance maxDistance then
      let toArtwork := normalize (vsub artworkPosition cameraPosition) in
      let angle := angleTo cameraDirection toArtwork in
      let sizeAdjustedAngleThreshold :=
        Math_PI / 4 * (1 + Math_min artwork_width artwork_height / 5) in
      if ltb angle sizeAdjustedAngleThreshold then
        let artworkSize := Math_max artwork_width artwork_height in
        let score :=
          (1 - angle / Math_PI) * 10 + (maxDistance - distance)
          + artworkSize in
        if score_gt score (snd acc) then (Some artwork, Some score)
        else acc
      else acc
    else acc.

Definition nearestArtworkOf (cameraPosition : Vector3)
  (cameraQuaternion : Quaternion) (artworks : list Artwork)
  : option Artwork :=
  let cameraDirection := getWorldDirection cameraQuaternion in
  fst (fold_left (visitArtwork cameraPosition cameraDirection)
                 artworks (None, None)).

Definition findNearestArtwork (st : State) : option Artwork :=
  nearestArtworkOf (camera_position st) (camera_quaternion st)
                   (artworks st).

(** *** zoomToArtwork *)

Definition zoomToArtwork (artwork : Artwork) (st : State) : State :=
  if isZooming st then st
  else
    let st := with_originalCameraPosition (Some (camera_position st)) st in
    (* new THREE.Euler().copy(camera.rotation) *)
    let st := with_originalCameraRotation (Some (camera_rotation st)) st in
    let st := with_isZooming true st in
    let st := controls_unlock st in
    let viewingDistance :=
      Math_max 1.5
        (Math_max (dimension (width artwork))
                  (dimension (height artwork)) * 0.8) in
    let offset := vec3 0 0 viewingDistance in
    let offset := applyQuaternion offset (group_quaternion (group artwork)) in
    let targetPosition := vsub (group_position (group artwork)) offset in
    let targetPosition :=
      set_x targetPosition
        (Math_max (- ROOM_WIDTH / 2 + 1.5)
           (Math_min (ROOM_WIDTH / 2 - 1.5) (vx targetPosition))) in
    let targetPosition :=
      set_z targetPosition
        (Math_max (- ROOM_LENGTH / 2 + 1.5)
           (Math_min (ROOM_LENGTH / 2 - 1.5) (vz targetPosition))) in
    let targetPosition := set_y targetPosition (ROOM_HEIGHT / 2 - 1) in
    let st := with_camera_position targetPosition st in
    let st := camera_lookAt (group_position (group artwork)) st in
    let st := with_panel_title (title artwork) st in
    let st := with_panel_message (description artwork) st in
    with_panel_display display_block st.

(** *** resetZoom *)

(** The loop over [safePositions[1..]]. *)
Definition closestSafePosition (furniture : list FurnitureItem)
  (validPosition : Vector3) : Vector3 :=
  let first := vec3 0 2 0 in
  fst (fold_left
         (fun (acc : Vector3 * Q) (candidate : Vector3) =>
            let distance := distanceTo validPosition candidate in
            if ltb distance (snd acc)
               && negb (checkFurnitureCollision furniture candidate)
            then (candidate, distance)
            else acc)
         (tl safePositions)
         (first, distanceTo validPosition first)).

Definition resetZoom (st : State) : State :=
  let validPosition :=
    match originalCameraPosition st, originalCameraRotation st with
    | Some original, Some _ =>
        let validPosition := original in
        let validPosition :=
          set_x validPosition
            (Math_max (- ROOM_WIDTH / 2 + 1)
               (Math_min (ROOM_WIDTH / 2 - 1) (vx validPosition))) in
        let validPosition :=
          set_z validPosition
            (Math_max (- ROOM_LENGTH / 2 + 1)
               (Math_min (ROOM_LENGTH / 2 - 1) (vz validPosition))) in
        let validPosition :=
          set_y validPosition (Math_max 2 (vy validPosition)) in
        if checkFurnitureCollision (furniture st) validPosition
        then closestSafePosition (furniture st) validPosition
        else validPosition
    | _, _ => vec3 0 2 0
    end in
  let st := with_camera_position validPosition st in
  let st :=
    match originalCameraRotation st with
    | Some rotation =>
        (* camera.rotation.copy(originalCameraRotation) *)
        set_rotation rotation st
    | None => st
    end in
  let st := with_isZooming false st in
  let st := controls_lock st in
  let st := with_panel_display display_none st in
  let st := with_originalCameraPosition None st in
  with_originalCameraRotation None st.

(** *** emergencyReset *)

Definition emergencyReset (st : State) : State :=
  let st := if isZooming st then resetZoom st else st in
  let st := with_camera_position (vec3 0 2 0) st in
  (* controls.getObject() is the camera *)
  let st := with_camera_position (vec3 0 2 0) st in
  let st := with_velocity (vec3 0 0 0) st in
  let st := with_direction (vec3 0 0 0) st in
  let st := with_moveForward false st in
  let st := with_moveBackward false st in
  let st := with_moveLeft false st in
  let st := with_moveRight false st in
  if negb (controls_isLocked st) then controls_lock st else st.

(** *** Key handlers *)

Definition onKeyDown (code : KeyCode) (st : State) : State :=
  if isZooming st then
    match code with
    | KeyV | Escape => resetZoom st
    | _ => st
    end
  else
    match code with
    | KeyW => with_moveForward true st
    | KeyA => with_moveLeft true st
    | KeyS => with_moveBackward true st
    | KeyD => with_moveRight true st
    | Space =>
        if canJump st then
          let st := with_isJumping true st in
          let st := with_canJump false st in
          with_jumpVelocity JUMP_FORCE st
        else st
    | KeyV =>
        (* camera.getWorldDirection composes camera.matrix anew *)
        let st := updateMatrix st in
        match findNearestArtwork st with
        | Some nearestArtwork => zoomToArtwork nearestArtwork st
        | None => st
        end
    | _ => st
    end.

Definition onKeyUp (code : KeyCode) (st : State) : State :=
  match code with
  | KeyW => with_moveForward false st
  | KeyA => with_moveLeft false st
  | KeyS => with_moveBackward false st
  | KeyD => with_moveRight false st
  | _ => st
  end.

(** The second [keydown] listener registered by [init]. *)
Definition onKeyDownReset (code : KeyCode) (st : State) : State :=
  match code with
  | KeyR => emergencyReset st
  | _ => st
  end.

(** *** animate *)

(** Touching down at height [h]. *)
Definition land (h : Q) (st : State) : State :=
  let st := with_camera_position (set_y (camera_position st) h) st in
  let st := with_isJumping false st in
  let st := with_canJump true st in
  with_jumpVelocity 0 st.

(** The jump and gravity block.  The loops over [furniture] stop at the
    first bench that satisfies their test, hence [existsb]. *)
Definition jumpAndGravity (delta : Q) (st : State) : State :=
  if isJumping st then
    let st := with_jumpVelocity (jumpVelocity st + GRAVITY * delta) st in
    let st :=
      with_camera_position
        (set_y (camera_position st)
               (vy (camera_position st) + jumpVelocity st * delta)) st in
    let landedOnBench :=
      ltb (jumpVelocity st) 0
      && existsb (fun item =>
                    overBench item (camera_position st)
                    && leb (vy (camera_position st)) 3
                    && gtb (vy (camera_position st)) 2)
                 (furniture st) in
    let st := if landedOnBench then land 3 st else st in
    if negb landedOnBench && leb (vy (camera_position st)) 2
    then land 2 st
    else st
  else if gtb (vy (camera_position st)) 2 then
    let onBench :=
      existsb (fun item => overBench item (camera_position st))
              (furniture st) in
    if negb onBench then
      let st := with_isJumping true st in
      with_jumpVelocity 0 st
    else st
  else st.

(** The candidate position [animate] tests before moving. *)
Definition candidatePosition (delta : Q) (st : State) : Vector3 :=
  let speed := 50.0 in
  let newPosition := camera_position st in
  let newPosition :=
    if moveForward st || moveBackward st
    then set_z newPosition
               (vz newPosition - vz (direction st) * speed * delta)
    else newPosition in
  if moveLeft st || moveRight st
  then set_x newPosition
             (vx newPosition - vx (direction st) * speed * delta)
  else newPosition.

(** [direction.z = ...; direction.x = ...; direction.normalize()] *)
Definition setDirection (st : State) : State :=
  let st :=
    with_direction
      (set_z (direction st)
             (Number (moveForward st) - Number (moveBackward st))) st in
  let st :=
    with_direction
      (set_x (direction st)
             (Number (moveRight st) - Number (moveLeft st))) st in
  with_direction (normalize (direction st)) st.

(** The branch "only move if no collisions". *)
Definition moveFreely (delta : Q) (st : State) : State :=
  let speed := 50.0 in
  let st :=
    if moveForward st || moveBackward st
    then with_velocity
           (set_z (velocity st)
                  (vz (velocity st) - vz (direction st) * speed * delta))
           st
    else st in
  let st :=
    if moveLeft st || moveRight st
    then with_velocity
           (set_x (velocity st)
                  (vx (velocity st) - vx (direction st) * speed * delta))
           st
    else st in
  let st := controls_moveRight (- vx (velocity st) * delta) st in
  controls_moveForward (- vz (velocity st) * delta) st.

(** The branch that tries to slide along the obstacle; [newPosition] is
    the candidate that was refused. *)
Definition slideAlong (delta : Q) (newPosition : Vector3) (st : State)
  : State :=
  let slidePositionX :=
    set_y (set_x (camera_position st) (vx newPosition))
          (vy (camera_position st)) in
  let slidePositionZ :=
    set_y (set_z (camera_position st) (vz newPosition))
          (vy (camera_position st)) in
  let furniture := furniture st in
  let st :=
    if (moveForward st || moveBackward st)
       && negb (checkFurnitureCollision furniture slidePositionX)
       && geb (vx slidePositionX) (- ROOM_WIDTH / 2 + 1)
       && leb (vx slidePositionX) (ROOM_WIDTH / 2 - 1)
    then controls_moveRight (- vx (velocity st) * delta) st
    else st in
  if (moveLeft st || moveRight st)
     && negb (checkFurnitureCollision furniture slidePositionZ)
     && geb (vz slidePositionZ) (- ROOM_LENGTH / 2 + 1)
     && leb (vz slidePositionZ) (ROOM_LENGTH / 2 - 1)
  then controls_moveForward (- vz (velocity st) * delta) st
  else st.

(** From [direction.z = ...] to the end of the movement block. *)
Definition moveStep (delta : Q) (st : State) : State :=
  let st := setDirection st in
  let newPosition := candidatePosition delta st in
  let wallCollision := hasWallCollision newPosition in
  let newPosition := set_y newPosition (vy (camera_position st)) in
  let furnitureCollision :=
    checkFurnitureCollision (furniture st) newPosition in
  if negb wallCollision && negb furnitureCollision
  then moveFreely delta st
  else slideAlong delta newPosition st.

(** The movement block of [animate], entered when the controls are
    locked and no zoom is active. *)
Definition movement (time : Q) (st : State) : State :=
  let delta := (time - prevTime st) / 1000 in
  let st :=
    with_velocity
      (set_x (velocity st)
             (vx (velocity st) - vx (velocity st) * 10.0 * delta)) st in
  let st :=
    with_velocity
      (set_z (velocity st)
             (vz (velocity st) - vz (velocity st) * 10.0 * delta)) st in
  let st := jumpAndGravity delta st in
  let st := moveStep delta st in
  with_prevTime time st.

(** [renderer.render(scene, camera)]: of the state of the script it
    changes [camera.matrix], composed anew for the picture. *)
Definition render (st : State) : State := updateMatrix st.

(** One call of [animate]; [time] is the value of [performance.now()]
    during the call. *)
Definition animate (time : Q) (st : State) : State :=
  let st := if outsideBounds st then emergencyReset st else st in
  let st :=
    if controls_isLocked st && negb (isZooming st) then movement time st
    else if negb (controls_isLocked st) then with_prevTime time st
    else st in
  render st.

(** *** The mouse *)

(** The [mousemove] listener of [PointerLockControls]. *)
Definition onMouseMove (movementX movementY : Q) (st : State) : State :=
  if controls_isLocked st
  then set_quaternion (turn movementX movementY (camera_quaternion st)) st
  else st.

(** *** The event loop *)

Definition step (st : State) (ev : Event) : State :=
  match ev with
  | KeyDown code => onKeyDownReset code (onKeyDown code st)
  | KeyUp code => onKeyUp code st
  | Click => controls_lock st
  | PointerLockChange locked => with_controls_isLocked locked st
  | TextureLoaded index imageWidth imageHeight =>
      with_artworks
        (onTextureLoaded index imageWidth imageHeight (artworks st)) st
  | Frame time => animate time st
  | MouseMove movementX movementY => onMouseMove movementX movementY st
  end.

Definition run (st : State) (events : list Event) : State :=
  fold_left step events st.


(* ================================================================= *)
(** ** Vocabulary of the properties *)

(** The horizontal overlap test of the source, on the unswapped extents. *)
Definition horizontalOverlap (item : FurnitureItem) (p : Vector3) : Prop :=
  Qabs (vx p - vx (item_position item)) < vx (item_dimensions item) / 2 + 0.3
  /\ Qabs (vz p - vz (item_position item)) < vz (item_dimensions item) / 2 + 0.3.

(** The bench of the collision examples: at the origin, footprint
    (4, 1, 1.5), not rotated. *)
Definition bench_at_origin : FurnitureItem :=
  mkItem bench (vec3 0 0 0) (vec3 4 1 1.5) (Some 0).

(** A horizontal coordinate more than 5 units outside the room. *)
Definition farOutside (p : Vector3) : Prop :=
  vx p < - ROOM_WIDTH / 2 - 5 \/ ROOM_WIDTH / 2 + 5 < vx p
  \/ vz p < - ROOM_LENGTH / 2 - 5 \/ ROOM_LENGTH / 2 + 5 < vz p.

(** Strictly inside the room inset by 1 unit from each wall. *)
Definition strictlyInside (p : Vector3) : Prop :=
  - ROOM_WIDTH / 2 + 1 < vx p < ROOM_WIDTH / 2 - 1
  /\ - ROOM_LENGTH / 2 + 1 < vz p < ROOM_LENGTH / 2 - 1.

(** Events that neither leave the focus session nor reset the camera:
    everything but a key-down of V, Escape or R; frames, mouse movements
    and texture loads are among them. *)
Definition keepsFocus (ev : Event) : bool :=
  match ev with
  | KeyDown KeyV | KeyDown Escape | KeyDown KeyR => false
  | _ => true
  end.

(** Two states with the same focus session: flag, camera position, saved
    pose and furniture. *)
Definition sameFocus (a b : State) : Prop :=
  isZooming a = isZooming b
  /\ camera_position a = camera_position b
  /\ originalCameraPosition a = originalCameraPosition b
  /\ originalCameraRotation a = originalCameraRotation b
  /\ furniture a = furniture b.

(** A rotation by a whole number of quarter turns: the axis-aligned and
    the rotated-90-degrees orientation classes together. *)
Definition quarterTurns (r : Q) : Prop :=
  exists k : Z, r == inject_Z k * (Math_PI / 2).

(** The entry has a rotation, and it is in one of the two classes. *)
Definition inOrientationClass (item : FurnitureItem) : Prop :=
  match item_rotation item with
  | Some r => quarterTurns r
  | None => False
  end.

(** The same item standing axis-aligned: rotation 0, and the x and z
    extents exchanged if the collision engine treats the item as
    rotated. *)
Definition asAxisAligned (item : FurnitureItem) : FurnitureItem :=
  let d := item_dimensions item in
  if is_bench (item_type item) && rotation_nonzero (item_rotation item)
  then mkItem (item_type item) (item_position item)
              (vec3 (vz d) (vy d) (vx d)) (Some 0)
  else mkItem (item_type item) (item_position item) d (Some 0).

(** The first gift box when its [Math.random()] returns 1/2. *)
Definition tilted_gift_box : FurnitureItem :=
  mkItem decoration (vec3 (- ROOM_WIDTH / 3) (0 + 0.5 / 2) (- ROOM_LENGTH / 3))
         (vec3 0.8 0.5 0.8) (Some ((1 # 2) * Math_PI / 2)).

(** All four data properties of a registry entry are defined. *)
Definition populated (a : Artwork) : Prop :=
  width a <> None /\ height a <> None
  /\ title a <> None /\ description a <> None.

(** The guard at the head of the [forEach] callback of
    [findNearestArtwork]. *)
Definition guardSkips (a : Artwork) : bool :=
  undefinedb (width a) || undefinedb (height a).

(** *** The selection rule in the words of the specification

    For a loaded artwork: distance is the Euclidean distance to its
    position, size is max(width, height), maxDistance is max(10, size*3),
    angle is the angle between the camera's forward direction and the
    normalized vector to the artwork, the angle threshold is
    45 degrees * (1 + min(width, height)/5).  The artwork is skipped if
    distance >= maxDistance or angle >= threshold; otherwise its score is
    (1 - angle/pi)*10 + (maxDistance - distance) + size. *)

Definition spec_loaded (a : Artwork) : Prop :=
  width a <> None /\ height a <> None.

Definition spec_size (a : Artwork) : Q :=
  Math_max (dimension (width a)) (dimension (height a)).

Definition spec_maxDistance (a : Artwork) : Q :=
  Math_max 10 (spec_size a * 3).

Definition spec_distance (cameraPosition : Vector3) (a : Artwork) : Q :=
  distanceTo cameraPosition (group_position (group a)).

Definition spec_angle (cameraPosition cameraForward : Vector3) (a : Artwork)
  : Q :=
  angleTo cameraForward
          (normalize (vsub (group_position (group a)) cameraPosition)).

Definition spec_angleThreshold (a : Artwork) : Q :=
  Math_PI / 4 * (1 + Math_min (dimension (width a)) (dimension (height a)) / 5).

Definition spec_candidate (cameraPosition cameraForward : Vector3)
  (a : Artwork) : Prop :=
  spec_loaded a
  /\ ~ spec_maxDistance a <= spec_distance cameraPosition a
  /\ ~ spec_angleThreshold a <= spec_angle cameraPosition cameraForward a.

Definition spec_score (cameraPosition cameraForward : Vector3) (a : Artwork)
  : Q :=
  (1 - spec_angle cameraPosition cameraForward a / Math_PI) * 10
  + (spec_maxDistance a - spec_distance cameraPosition a)
  + spec_size a.

(** What one visit of the [forEach] callback computes for an artwork:
    its score, or nothing when the artwork is skipped. *)
Definition visitedScore (cameraPosition cameraDirection : Vector3)
  (artwork : Artwork) : option Q :=
  snd (visitArtwork cameraPosition cameraDirection (None, None) artwork).

(** *** Concrete inputs *)

(** The scene when every gift box draws 1/2 for its rotation, the page
    having been loaded at time 0. *)
Definition museum : State := init_state (fun _ => 1 # 2) 0.

(** Two loaded artworks of the back wall (the places of img8 and img9),
    4 by 3 and 3 by 4, their groups unrotated. *)
Definition artwork_img8 : Artwork :=
  {| group := mkGroup (vec3 (-5) 3 (-14.8)) (quat 0 0 0 1);
     originalPosition := vec3 (-5) 3 (-14.8);
     isZoomed := false;
     imagePath := "images/img8.jpg";
     title := Some "8-11-24"%string;
     description :=
       Some "Are you a squat rack? Because I can't resist getting under you."%string;
     width := Some 4;
     height := Some 3 |}.

Definition artwork_img9 : Artwork :=
  {| group := mkGroup (vec3 5 3 (-14.8)) (quat 0 0 0 1);
     originalPosition := vec3 5 3 (-14.8);
     isZoomed := false;
     imagePath := "images/img9.jpg";
     title := Some "idk the date"%string;
     description := Some "Sunshine, sandwiches, and your sweet kisses."%string;
     width := Some 3;
     height := Some 4 |}.

(** The museum with these two artworks loaded, the camera at (-4, 2, -8)
    looking down the negative z axis, towards the back wall. *)
Definition gallery : State :=
  with_camera_position (vec3 (-4) 2 (-8))
    (with_artworks [artwork_img8; artwork_img9] museum).

(** Pointer locked, W held, frames 100 or 200 ms apart: a walk from the
    centre of the room straight ahead, towards the bench at (0, -7.5). *)
Definition walk_towards_bench : list Event :=
  [ Frame 0; Click; PointerLockChange true; KeyDown KeyW;
    Frame 100; Frame 300; Frame 500; Frame 700; Frame 900;
    Frame 1000; Frame 1100; Frame 1200 ].

(** The camera turned half a turn about the vertical axis, its rotation
    and its matrix in step with the quaternion, as after a frame. *)
Definition half_turned (st : State) : State :=
  with_camera_matrix (quat 0 1 0 0)
    (with_camera_rotation (sample_setFromQuaternion (quat 0 1 0 0))
       (with_camera_quaternion (quat 0 1 0 0) st)).

(** The camera turned half a turn about the vertical axis, so that it
    looks down the positive z axis, standing just short of the bench at
    (0, 7.5) with the pointer locked and W held. *)
Definition facing_front_bench : State :=
  half_turned
    (with_camera_position (vec3 0 2 6.44)
       (with_moveForward true (with_controls_isLocked true museum))).



(** The first balloon group of the museum, beside the back bench. *)
Definition side_balloons : FurnitureItem :=
  mkItem decoration (vec3 (- ROOM_WIDTH / 4) 0 (- ROOM_LENGTH / 4))
         (vec3 1 3 1) (Some 0).

(** A bench of the museum's size turned a quarter turn, and the same
    bench not turned. *)
Definition bench_quarter_turned : FurnitureItem :=
  mkItem bench (vec3 0 0 0) (vec3 4 1 1.5) (Some (Math_PI / 2)).

(** The first planter and the first bench of the museum. *)
Definition corner_planter : FurnitureItem :=
  mkItem planter (vec3 (- ROOM_WIDTH / 2 + 2) 0 (- ROOM_LENGTH / 2 + 2))
         (vec3 2 3 2) None.

Definition back_bench : FurnitureItem :=
  mkItem bench (vec3 0 0 (- ROOM_LENGTH / 4)) (vec3 4 1 1.5) (Some 0).

(** The museum with the camera moved away from the room centre. *)
Definition off_centre : State :=
  with_camera_position (vec3 5 2 5) museum.

(** While a focus session is open the camera stands inside the room,
    1.5 units or more off every wall. *)
Definition focusedInsideRoom (st : State) : Prop :=
  isZooming st = true ->
  (- ROOM_WIDTH / 2 + 1.5 <= vx (camera_position st) <= ROOM_WIDTH / 2 - 1.5)
  /\ (- ROOM_LENGTH / 2 + 1.5 <= vz (camera_position st)
      <= ROOM_LENGTH / 2 - 1.5).

(** The camera turned the same way, a hundredth of a unit short of the
    inset of the front wall (z = 14), pointer locked and W held. *)
Definition facing_front_wall : State :=
  half_turned
    (with_camera_position (vec3 10 2 13.99)
       (with_moveForward true (with_controls_isLocked true museum))).

(** *** Further vocabulary *)

(** The horizontal test of [checkFurnitureCollision] for one item, on the
    bounds the function uses (exchanged for a rotated bench). *)
Definition overlapb (item : FurnitureItem) (p : Vector3) : bool :=
  let '(xBound, zBound) := collision_bounds item in
  ltb (Math_abs (vx p - vx (item_position item))) (xBound + 0.3)
  && ltb (Math_abs (vz p - vz (item_position item))) (zBound + 0.3).

(** The verdict read off the first item in scan order whose footprint,
    with its margin, holds the position: a bench blocks up to height 2,
    anything else blocks at every height; no such item, no collision. *)
Definition firstOverlapVerdict (furniture : list FurnitureItem)
  (p : Vector3) : bool :=
  match find (fun item => overlapb item p) furniture with
  | Some item =>
      if is_bench (item_type item) then leb (vy p) 2 else true
  | None => false
  end.

(** The front bench of the museum and the balloon group that stands on
    the same spot, later in the registry. *)
Definition front_bench : FurnitureItem :=
  mkItem bench (vec3 0 0 (ROOM_LENGTH / 4)) (vec3 4 1 1.5) (Some 0).

Definition front_balloons : FurnitureItem :=
  mkItem decoration (vec3 0 0 (ROOM_LENGTH / 4)) (vec3 1 3 1) (Some 0).

(** A focus session whose saved position lies inside the back bench. *)
Definition saved_inside_bench : State :=
  with_originalCameraPosition (Some (vec3 0 2 (- ROOM_LENGTH / 4)))
    (with_originalCameraRotation (Some (euler 0 0 0))
       (with_isZooming true museum)).

(** A focus session whose saved position lies far beyond the walls and
    below the floor. *)
Definition saved_outside_room : State :=
  with_originalCameraPosition (Some (vec3 100 (-7) (-40)))
    (with_originalCameraRotation (Some (euler 0 0 0))
       (with_isZooming true museum)).

(** The camera standing still at the room centre, no movement key held
    and no focus session open. *)
Definition atRestAtCentre (st : State) : Prop :=
  camera_position st = vec3 0 2 0
  /\ velocity st = vec3 0 0 0
  /\ direction st = vec3 0 0 0
  /\ moveForward st = false /\ moveBackward st = false
  /\ moveLeft st = false /\ moveRight st = false
  /\ isZooming st = false.

(** The camera thrown out of the room and below the floor, with the
    pointer locked. *)
Definition lost_outside : State :=
  with_camera_position (vec3 40 (-3) 0)
    (with_isJumping true
       (with_jumpVelocity (-12) (with_controls_isLocked true museum))).

(** The four movement-intent flags. *)
Definition heldKeys (st : State) : bool * bool * bool * bool :=
  (moveForward st, moveBackward st, moveLeft st, moveRight st).

(** Everything the movement block of [animate] leaves alone: the
    registries, the focus session, the pointer lock and its requests,
    the orientation, the key flags and the artwork panel. *)
Definition movementFrame (st : State) :=
  (furniture st, artworks st,
   (isZooming st, originalCameraPosition st, originalCameraRotation st),
   (controls_isLocked st, lock_requests st),
   (camera_quaternion st, camera_rotation st, camera_matrix st),
   heldKeys st,
   (panel_title st, panel_message st, panel_display st)).

(** What the jump and gravity block leaves alone besides: the horizontal
    position, the velocity and the direction. *)
Definition groundTrack (st : State) :=
  (vx (camera_position st), vz (camera_position st),
   velocity st, direction st).

(** The focus flag and the saved pose agree: a pose is saved exactly
    while a focus session is open. *)
Definition sessionConsistent (st : State) : Prop :=
  (isZooming st = true
   /\ originalCameraPosition st <> None
   /\ originalCameraRotation st <> None)
  \/ (isZooming st = false
      /\ originalCameraPosition st = None
      /\ originalCameraRotation st = None).

(* ================================================================= *)
(** * Properties *)

(* ================================================================= *)
(** ** Arithmetic and its automation *)

(** The operations of [Num] agree with those of [Q]. *)
Lemma add_correct (a b : Q) : a + b == Qplus a b.
Proof. apply Qred_correct. Qed.

Lemma sub_correct (a b : Q) : a - b == Qminus a b.
Proof. apply Qred_correct. Qed.

Lemma mul_correct (a b : Q) : a * b == Qmult a b.
Proof. apply Qred_correct. Qed.

Lemma div_correct (a b : Q) : a / b == Qdiv a b.
Proof. apply Qred_correct. Qed.

Lemma opp_correct (a : Q) : - a == Qopp a.
Proof. apply Qred_correct. Qed.

(** Closed arithmetic such as [ROOM_WIDTH / 2 - 1] is evaluated, what is
    left is read as arithmetic of [Q], and linear arithmetic concludes. *)
Ltac closed_term t :=
  match t with
  | context [?x] => is_var x; fail 1
  | _ => idtac
  end.

Ltac eval_closed t :=
  closed_term t;
  let v := eval vm_compute in t in
  change t with v in *.

Ltac eval_constants :=
  repeat match goal with
  | |- context [Num.add ?a ?b] => eval_closed (Num.add a b)
  | |- context [Num.sub ?a ?b] => eval_closed (Num.sub a b)
  | |- context [Num.mul ?a ?b] => eval_closed (Num.mul a b)
  | |- context [Num.div ?a ?b] => eval_closed (Num.div a b)
  | |- context [Num.opp ?a] => eval_closed (Num.opp a)
  | H : context [Num.add ?a ?b] |- _ => eval_closed (Num.add a b)
  | H : context [Num.sub ?a ?b] |- _ => eval_closed (Num.sub a b)
  | H : context [Num.mul ?a ?b] |- _ => eval_closed (Num.mul a b)
  | H : context [Num.div ?a ?b] |- _ => eval_closed (Num.div a b)
  | H : context [Num.opp ?a] |- _ => eval_closed (Num.opp a)
  end.

Ltac to_Q :=
  repeat match goal with
  | H : _ |- _ =>
      progress rewrite ?add_correct, ?sub_correct, ?mul_correct,
        ?div_correct, ?opp_correct in H
  end;
  rewrite ?add_correct, ?sub_correct, ?mul_correct, ?div_correct,
    ?opp_correct.

Ltac qlra := eval_constants; to_Q; lra.

(* ================================================================= *)
(** ** Comparisons and clamping *)


Lemma ltb_lt (a b : Q) : ltb a b = true <-> a < b.
Proof.
  unfold ltb. rewrite Qlt_alt.
  destruct (a ?= b); split; intro H; congruence.
Qed.

Lemma ltb_ge (a b : Q) : ltb a b = false <-> b <= a.
Proof.
  rewrite <- not_true_iff_false, ltb_lt. split.
  - apply Qnot_lt_le.
  - apply Qle_not_lt.
Qed.

Lemma gtb_gt (a b : Q) : gtb a b = true <-> b < a.
Proof. apply ltb_lt. Qed.

Lemma gtb_le (a b : Q) : gtb a b = false <-> a <= b.
Proof. apply ltb_ge. Qed.

Lemma leb_le (a b : Q) : leb a b = true <-> a <= b.
Proof. apply Qle_bool_iff. Qed.

Lemma leb_gt (a b : Q) : leb a b = false <-> b < a.
Proof.
  rewrite <- not_true_iff_false, leb_le. split.
  - apply Qnot_le_lt.
  - apply Qlt_not_le.
Qed.


Lemma if_same {A : Type} (c : bool) (a : A) : (if c then a else a) = a.
Proof. destruct c; reflexivity. Qed.

Lemma Math_min_inside (hi v : Q) : v <= hi -> Math_min hi v = v.
Proof.
  intro H. unfold Math_min.
  destruct (ltb hi v) eqn:E; [ | reflexivity ].
  apply ltb_lt in E. qlra.
Qed.

Lemma Math_max_inside (lo v : Q) : lo <= v -> Math_max lo v = v.
Proof.
  intro H. unfold Math_max.
  destruct (ltb v lo) eqn:E; [ | reflexivity ].
  apply ltb_lt in E. qlra.
Qed.

Lemma Math_max_ge_l (a b : Q) : a <= Math_max a b.
Proof.
  unfold Math_max. destruct (ltb b a) eqn:E.
  - qlra.
  - apply ltb_ge in E. exact E.
Qed.

Lemma Math_min_le_l (a b : Q) : Math_min a b <= a.
Proof.
  unfold Math_min. destruct (ltb a b) eqn:E.
  - qlra.
  - apply ltb_ge in E. exact E.
Qed.

(** A clamp lands in its interval. *)
Lemma clamp_bounds (lo hi v : Q) :
  lo <= hi -> lo <= Math_max lo (Math_min hi v) <= hi.
Proof.
  intro H. split; [ apply Math_max_ge_l | ].
  unfold Math_max.
  destruct (ltb (Math_min hi v) lo); [ exact H | apply Math_min_le_l ].
Qed.

(* ================================================================= *)
(** ** The collision engine *)

Lemma collision_bounds_not_bench (item : FurnitureItem) :
  is_bench (item_type item) = false ->
  collision_bounds item
  = (vx (item_dimensions item) / 2, vz (item_dimensions item) / 2).
Proof. intro H. unfold collision_bounds. rewrite H. reflexivity. Qed.

Lemma checkItem_not_bench (item : FurnitureItem) (p : Vector3) :
  is_bench (item_type item) = false ->
  checkItem item p
  = if ltb (Qabs (vx p - vx (item_position item)))
           (vx (item_dimensions item) / 2 + 0.3)
       && ltb (Qabs (vz p - vz (item_position item)))
              (vz (item_dimensions item) / 2 + 0.3)
    then Some true else None.
Proof.
  intro H. unfold checkItem.
  rewrite (collision_bounds_not_bench item H), H. reflexivity.
Qed.

Lemma is_bench_false (t : FurnitureType) : t <> bench -> is_bench t = false.
Proof. destruct t; intro H; [ reflexivity | congruence | reflexivity ]. Qed.

(** One iteration of the loop on an item that is not a bench. *)
Lemma checkItem_not_bench_iff (item : FurnitureItem) (p : Vector3) :
  is_bench (item_type item) = false ->
  (checkItem item p = Some true <-> horizontalOverlap item p).
Proof.
  intro Hty.
  rewrite (checkItem_not_bench item p Hty). unfold horizontalOverlap.
  rewrite <- !ltb_lt.
  destruct (ltb (Qabs (vx p - vx (item_position item))) _);
    destruct (ltb (Qabs (vz p - vz (item_position item))) _);
    cbn [andb];
    (split;
     [ intro H; first [ discriminate H | split; reflexivity ]
     | intros [H1 H2];
       first [ discriminate H1 | discriminate H2 | reflexivity ] ]).
Qed.

Lemma checkItem_not_bench_height (item : FurnitureItem) (p : Vector3)
  (h : Q) :
  is_bench (item_type item) = false ->
  checkItem item (set_y p h) = checkItem item p.
Proof. intro Hty. rewrite !(checkItem_not_bench _ _ Hty). reflexivity. Qed.

(** Above height 2 a bench never blocks: the first test of the bench
    branch returns [false] before the bench-top branch is reached. *)
Lemma bench_never_blocks_above_two (item : FurnitureItem) (p : Vector3) :
  is_bench (item_type item) = true ->
  2 < vy p ->
  checkItem item p = Some false \/ checkItem item p = None.
Proof.
  intros Hb Hy. unfold checkItem.
  destruct (collision_bounds item) as [xBound zBound].
  destruct (_ && _); [ | right; reflexivity ].
  rewrite Hb.
  assert (E : gtb (vy p) (1.0 + 1.0) = true) by (apply gtb_gt; qlra).
  rewrite E. left. reflexivity.
Qed.

(** The bench-top branch is never reached: within 0.1 of height 3 the
    bench at the origin blocks nowhere, the band between the shrunk top
    surface and the outer bound included. *)
Lemma bench_top_branch_unreachable (p : Vector3) :
  Qabs (vy p - 3) < 0.1 ->
  checkFurnitureCollision [bench_at_origin] p = false.
Proof.
  intro H. cbn [checkFurnitureCollision].
  assert (Hy : 2 < vy p).
  { apply Qabs_Qlt_condition in H. destruct H as [H _].
    qlra. }
  destruct (bench_never_blocks_above_two bench_at_origin p eq_refl Hy)
    as [E | E]; rewrite E; reflexivity.
Qed.

(** C2.  The verdicts of [checkFurnitureCollision] for the single bench at
    the origin with footprint (4,1,1.5) and rotation 0: blocked at height 1
    at (0,_,0.5); free at height 4.5 over the bench; free at height 3.0 at
    (1.9,_,0.6); and at height 3.0 at (1.95,_,0.7) the code answers
    "free" as well, where the bench-top rule asks for "blocked". *)
Theorem C2_bench_at_origin_verdicts :
  checkFurnitureCollision [bench_at_origin] (vec3 0 1 0.5) = true
  /\ checkFurnitureCollision [bench_at_origin] (vec3 0 4.5 0) = false
  /\ checkFurnitureCollision [bench_at_origin] (vec3 1.9 3.0 0.6) = false
  /\ checkFurnitureCollision [bench_at_origin] (vec3 1.95 3.0 0.7) = false.
Proof. repeat split; vm_compute; reflexivity. Qed.

(* ================================================================= *)
(** ** The bounds check of [animate] *)

Lemma outsideBounds_zooming (st : State) :
  isZooming st = true ->
  (outsideBounds st = true <-> farOutside (camera_position st)).
Proof.
  intro Hz. unfold outsideBounds, farOutside. rewrite Hz. cbn [negb andb orb].
  rewrite !orb_true_iff, !ltb_lt, !gtb_gt. tauto.
Qed.

(** Focused and within the outer bounds: the check is silent. *)
Lemma outsideBounds_focused_within (st : State) :
  isZooming st = true ->
  - ROOM_WIDTH / 2 - 5 <= vx (camera_position st) <= ROOM_WIDTH / 2 + 5 ->
  - ROOM_LENGTH / 2 - 5 <= vz (camera_position st) <= ROOM_LENGTH / 2 + 5 ->
  outsideBounds st = false.
Proof.
  intros Hz Hx Hzz. apply not_true_iff_false.
  rewrite (outsideBounds_zooming st Hz). unfold farOutside.
  intros [H | [H | [H | H]]]; qlra.
Qed.


(* ================================================================= *)
(** ** The focus controller *)

Lemma isZooming_zoomToArtwork (artwork : Artwork) (st : State) :
  isZooming (zoomToArtwork artwork st) = true.
Proof.
  unfold zoomToArtwork. destruct (isZooming st) eqn:E; [ exact E | reflexivity ].
Qed.

(** C7.  A request to enter focus while a focus session is active changes
    nothing: the state after [zoomToArtwork] is the state before it, so
    the camera pose, the saved pose, the focus flag and the artwork panel
    are all as they were. *)
Theorem C7_zoomToArtwork_while_focused (artwork : Artwork) (st : State) :
  isZooming st = true ->
  zoomToArtwork artwork st = st.
Proof. intro H. unfold zoomToArtwork. rewrite H. reflexivity. Qed.

(** Two requests in a row: the second has no effect. *)
Lemma zoomToArtwork_twice (first second : Artwork) (st : State) :
  zoomToArtwork second (zoomToArtwork first st) = zoomToArtwork first st.
Proof.
  unfold zoomToArtwork at 1. rewrite isZooming_zoomToArtwork. reflexivity.
Qed.

(** What [resetZoom] does when a pose is saved and the saved position
    needs no repair. *)
Lemma resetZoom_restores (st : State) (p : Vector3) (r : Euler) :
  originalCameraPosition st = Some p ->
  originalCameraRotation st = Some r ->
  strictlyInside p -> 2 <= vy p ->
  checkFurnitureCollision (furniture st) p = false ->
  camera_position (resetZoom st) = p
  /\ camera_rotation (resetZoom st) = r
  /\ camera_quaternion (resetZoom st)
     = setFromEuler (euler_x r) (euler_y r) (euler_z r).
Proof.
  intros Hp Hr [[Hx1 Hx2] [Hz1 Hz2]] Hy Hfree. unfold resetZoom.
  rewrite Hp, Hr. destruct p as [x y z].
  cbn [vx vy vz set_x set_y set_z] in *.
  rewrite (Math_min_inside _ x), (Math_max_inside _ x) by qlra.
  rewrite (Math_min_inside _ z), (Math_max_inside _ z) by qlra.
  rewrite (Math_max_inside _ y) by qlra.
  unfold set_x, set_y, set_z. cbn [vx vy vz].
  rewrite Hfree. cbn. rewrite Hr. repeat split.
Qed.

(** What focus entry saves: the camera position and the Euler angles of
    [camera.rotation]. *)
Lemma zoomToArtwork_saves (artwork : Artwork) (st : State) :
  isZooming st = false ->
  originalCameraPosition (zoomToArtwork artwork st)
  = Some (camera_position st)
  /\ originalCameraRotation (zoomToArtwork artwork st)
     = Some (camera_rotation st)
  /\ furniture (zoomToArtwork artwork st) = furniture st.
Proof.
  intro Hz. unfold zoomToArtwork. rewrite Hz. repeat split.
Qed.


(** C8 (amended).  [resetZoom] called while no focus session is active
    leaves the camera orientation as it is and puts the camera at the
    default point (0,2,0); the Escape key, the input that asks for a
    focus exit, leaves the whole state unchanged when no session is
    active. *)
Theorem C8_resetZoom_without_session (st : State) :
  isZooming st = false ->
  originalCameraPosition st = None ->
  originalCameraRotation st = None ->
  camera_quaternion (resetZoom st) = camera_quaternion st
  /\ camera_position (resetZoom st) = vec3 0 2 0
  /\ onKeyDown Escape st = st.
Proof.
  intros Hz Hp Hr. unfold resetZoom, onKeyDown. rewrite Hp, Hz. cbn.
  rewrite Hr. repeat split; reflexivity.
Qed.

Lemma camera_position_after_entry
  (target lookedAt : Vector3) (x z y : Q)
  (t m : option string) (d : Display) (st : State) :
  camera_position
    (with_panel_display d
       (with_panel_message m
          (with_panel_title t
             (camera_lookAt lookedAt
                (with_camera_position
                   (set_y (set_z (set_x target x) z) y) st)))))
  = vec3 x y z.
Proof. reflexivity. Qed.

(** Focus entry puts the camera inside the room, 1.5 units off the walls,
    at eye height. *)
Lemma zoomToArtwork_target (artwork : Artwork) (st : State) :
  isZooming st = false ->
  - ROOM_WIDTH / 2 + 1.5 <= vx (camera_position (zoomToArtwork artwork st))
    <= ROOM_WIDTH / 2 - 1.5
  /\ - ROOM_LENGTH / 2 + 1.5 <= vz (camera_position (zoomToArtwork artwork st))
     <= ROOM_LENGTH / 2 - 1.5
  /\ vy (camera_position (zoomToArtwork artwork st)) = ROOM_HEIGHT / 2 - 1.
Proof.
  intro Hz. unfold zoomToArtwork. rewrite Hz. cbv zeta.
  rewrite camera_position_after_entry. cbn [vx vy vz].
  split; [ | split; [ | reflexivity ] ];
    apply clamp_bounds; qlra.
Qed.

(** The bounds check is silent right after focus entry. *)
Lemma outsideBounds_after_zoomToArtwork (artwork : Artwork) (st : State) :
  isZooming st = false ->
  outsideBounds (zoomToArtwork artwork st) = false.
Proof.
  intro Hz.
  destruct (zoomToArtwork_target artwork st Hz) as [Hx [Hzz _]].
  apply outsideBounds_focused_within; [ apply isZooming_zoomToArtwork | | ];
    qlra.
Qed.

Lemma sameFocus_refl (st : State) : sameFocus st st.
Proof. repeat split. Qed.

Lemma sameFocus_trans (a b c : State) :
  sameFocus a b -> sameFocus b c -> sameFocus a c.
Proof.
  unfold sameFocus. intros (?&?&?&?&?) (?&?&?&?&?).
  repeat split; congruence.
Qed.

(** While focused and within the outer bounds, [animate] neither resets
    nor moves the camera: it draws the picture, and notes the time when
    the pointer is free. *)
Lemma animate_while_focused (time : Q) (st : State) :
  isZooming st = true ->
  outsideBounds st = false ->
  animate time st
  = render (if controls_isLocked st then st else with_prevTime time st).
Proof.
  intros Hz Hout. unfold animate. rewrite Hout, Hz.
  destruct (controls_isLocked st); reflexivity.
Qed.

(** An event that keeps the focus leaves the session as it is. *)
Lemma step_keeps_focus (st : State) (ev : Event) :
  isZooming st = true ->
  outsideBounds st = false ->
  keepsFocus ev = true ->
  sameFocus (step st ev) st.
Proof.
  intros Hz Hout Hk.
  destruct ev as [code | code | | locked | i w h | time | mx my];
    cbn [step].
  - unfold onKeyDown. rewrite Hz.
    destruct code; try discriminate Hk; apply sameFocus_refl.
  - destruct code; repeat split.
  - repeat split.
  - repeat split.
  - repeat split.
  - rewrite (animate_while_focused time st Hz Hout).
    destruct (controls_isLocked st); repeat split.
  - unfold onMouseMove. destruct (controls_isLocked st); repeat split.
Qed.

Lemma outsideBounds_sameFocus (a b : State) :
  sameFocus a b -> outsideBounds a = outsideBounds b.
Proof.
  intros (Hz & Hp & _). unfold outsideBounds. rewrite Hz, Hp. reflexivity.
Qed.

Lemma run_keeps_focus (events : list Event) (st : State) :
  isZooming st = true ->
  outsideBounds st = false ->
  forallb keepsFocus events = true ->
  sameFocus (run st events) st.
Proof.
  revert st. induction events as [ | ev events IH ]; intros st Hz Hout Hk.
  - apply sameFocus_refl.
  - cbn [forallb] in Hk. apply andb_true_iff in Hk. destruct Hk as [Hev Hk].
    pose proof (step_keeps_focus st ev Hz Hout Hev) as Hs.
    cbn [run fold_left]. change (sameFocus (run (step st ev) events) st).
    apply sameFocus_trans with (b := step st ev); [ | exact Hs ].
    apply IH; [ | | exact Hk ].
    + destruct Hs as [Hs _]. congruence.
    + rewrite (outsideBounds_sameFocus _ _ Hs). exact Hout.
Qed.

(** The round trip of C4 with the session left open for any number of
    frames, mouse movements and other events that keep the focus. *)
Lemma focus_round_trip_through_events
  (artwork : Artwork) (events : list Event) (st : State) :
  isZooming st = false ->
  strictlyInside (camera_position st) ->
  2 <= vy (camera_position st) ->
  checkFurnitureCollision (furniture st) (camera_position st) = false ->
  forallb keepsFocus events = true ->
  camera_position (resetZoom (run (zoomToArtwork artwork st) events))
  = camera_position st
  /\ camera_rotation (resetZoom (run (zoomToArtwork artwork st) events))
     = camera_rotation st
  /\ camera_quaternion (resetZoom (run (zoomToArtwork artwork st) events))
     = setFromEuler (euler_x (camera_rotation st))
                    (euler_y (camera_rotation st))
                    (euler_z (camera_rotation st)).
Proof.
  intros Hz Hin Hy Hfree Hk.
  destruct (run_keeps_focus events (zoomToArtwork artwork st)
              (isZooming_zoomToArtwork artwork st)
              (outsideBounds_after_zoomToArtwork artwork st Hz) Hk)
    as (_ & _ & Hp & Hr & Hf).
  destruct (zoomToArtwork_saves artwork st Hz) as (Sp & Sr & Sf).
  apply resetZoom_restores; try assumption.
  - rewrite Hp. exact Sp.
  - rewrite Hr. exact Sr.
  - rewrite Hf, Sf. exact Hfree.
Qed.

(* ================================================================= *)
(** ** Reachable focus sessions *)

(** The movement block never touches the focus flag. *)

Lemma isZooming_with_camera_position (v : Vector3) (st : State) :
  isZooming (with_camera_position v st) = isZooming st.
Proof. reflexivity. Qed.

Lemma isZooming_with_jumpVelocity (v : Q) (st : State) :
  isZooming (with_jumpVelocity v st) = isZooming st.
Proof. reflexivity. Qed.

Lemma isZooming_with_isJumping (v : bool) (st : State) :
  isZooming (with_isJumping v st) = isZooming st.
Proof. reflexivity. Qed.

Lemma isZooming_with_canJump (v : bool) (st : State) :
  isZooming (with_canJump v st) = isZooming st.
Proof. reflexivity. Qed.

Lemma isZooming_with_direction (v : Vector3) (st : State) :
  isZooming (with_direction v st) = isZooming st.
Proof. reflexivity. Qed.

Lemma isZooming_with_velocity (v : Vector3) (st : State) :
  isZooming (with_velocity v st) = isZooming st.
Proof. reflexivity. Qed.

Lemma isZooming_with_prevTime (v : Q) (st : State) :
  isZooming (with_prevTime v st) = isZooming st.
Proof. reflexivity. Qed.

Lemma isZooming_with_moveForward (v : bool) (st : State) :
  isZooming (with_moveForward v st) = isZooming st.
Proof. reflexivity. Qed.

Lemma isZooming_with_moveBackward (v : bool) (st : State) :
  isZooming (with_moveBackward v st) = isZooming st.
Proof. reflexivity. Qed.

Lemma isZooming_with_moveLeft (v : bool) (st : State) :
  isZooming (with_moveLeft v st) = isZooming st.
Proof. reflexivity. Qed.

Lemma isZooming_with_moveRight (v : bool) (st : State) :
  isZooming (with_moveRight v st) = isZooming st.
Proof. reflexivity. Qed.

Lemma isZooming_with_lock_requests (v : list LockRequest) (st : State) :
  isZooming (with_lock_requests v st) = isZooming st.
Proof. reflexivity. Qed.

Lemma isZooming_controls_moveRight (distance : Q) (st : State) :
  isZooming (controls_moveRight distance st) = isZooming st.
Proof. reflexivity. Qed.

Lemma isZooming_controls_moveForward (distance : Q) (st : State) :
  isZooming (controls_moveForward distance st) = isZooming st.
Proof. reflexivity. Qed.

Lemma isZooming_controls_lock (st : State) :
  isZooming (controls_lock st) = isZooming st.
Proof. reflexivity. Qed.

Lemma isZooming_if (c : bool) (a b : State) :
  isZooming (if c then a else b) = if c then isZooming a else isZooming b.
Proof. destruct c; reflexivity. Qed.

Lemma isZooming_with_camera_quaternion (v : Quaternion) (st : State) :
  isZooming (with_camera_quaternion v st) = isZooming st.
Proof. reflexivity. Qed.

Lemma isZooming_with_camera_rotation (v : Euler) (st : State) :
  isZooming (with_camera_rotation v st) = isZooming st.
Proof. reflexivity. Qed.

Lemma isZooming_with_camera_matrix (v : Quaternion) (st : State) :
  isZooming (with_camera_matrix v st) = isZooming st.
Proof. reflexivity. Qed.

Lemma isZooming_updateMatrix (st : State) :
  isZooming (updateMatrix st) = isZooming st.
Proof. reflexivity. Qed.

Lemma isZooming_set_quaternion (q : Quaternion) (st : State) :
  isZooming (set_quaternion q st) = isZooming st.
Proof. reflexivity. Qed.

Lemma isZooming_set_rotation (e : Euler) (st : State) :
  isZooming (set_rotation e st) = isZooming st.
Proof. reflexivity. Qed.

Lemma isZooming_camera_lookAt (target : Vector3) (st : State) :
  isZooming (camera_lookAt target st) = isZooming st.
Proof. reflexivity. Qed.

Lemma isZooming_render (st : State) : isZooming (render st) = isZooming st.
Proof. reflexivity. Qed.

Create Rewrite HintDb focusflag.
#[local] Hint Rewrite
  isZooming_with_camera_quaternion isZooming_with_camera_rotation
  isZooming_with_camera_matrix isZooming_updateMatrix
  isZooming_set_quaternion isZooming_set_rotation
  isZooming_camera_lookAt
  isZooming_with_camera_position isZooming_with_jumpVelocity
  isZooming_with_isJumping isZooming_with_canJump
  isZooming_with_direction isZooming_with_velocity
  isZooming_with_prevTime isZooming_with_moveForward
  isZooming_with_moveBackward isZooming_with_moveLeft
  isZooming_with_moveRight isZooming_with_lock_requests
  isZooming_controls_moveRight isZooming_controls_moveForward
  isZooming_controls_lock isZooming_render isZooming_if
  @if_same : focusflag.

Ltac focusflag := cbv zeta; autorewrite with focusflag; try reflexivity.


Lemma isZooming_jumpAndGravity (delta : Q) (st : State) :
  isZooming (jumpAndGravity delta st) = isZooming st.
Proof. unfold jumpAndGravity, land. focusflag. Qed.

Lemma isZooming_moveStep (delta : Q) (st : State) :
  isZooming (moveStep delta st) = isZooming st.
Proof.
  assert (H : isZooming (setDirection st) = isZooming st)
    by (unfold setDirection; focusflag).
  unfold moveStep. cbv zeta. revert H. generalize (setDirection st).
  intros st1 H.
  destruct (_ && _); [ unfold moveFreely | unfold slideAlong ];
    focusflag; exact H.
Qed.

Lemma isZooming_movement (time : Q) (st : State) :
  isZooming (movement time st) = isZooming st.
Proof.
  unfold movement. cbv zeta.
  rewrite isZooming_with_prevTime, isZooming_moveStep,
    isZooming_jumpAndGravity.
  focusflag.
Qed.

Lemma isZooming_resetZoom (st : State) : isZooming (resetZoom st) = false.
Proof. reflexivity. Qed.

Lemma isZooming_emergencyReset (st : State) :
  isZooming (emergencyReset st) = false.
Proof.
  assert (H : isZooming (if isZooming st then resetZoom st else st) = false).
  { destruct (isZooming st) eqn:E; [ reflexivity | exact E ]. }
  unfold emergencyReset. cbv zeta. revert H.
  generalize (if isZooming st then resetZoom st else st).
  intros st1 H. focusflag. exact H.
Qed.

Lemma focusedInsideRoom_unfocused (st : State) :
  isZooming st = false -> focusedInsideRoom st.
Proof. intros H E. congruence. Qed.

Lemma focusedInsideRoom_zoomToArtwork (artwork : Artwork) (st : State) :
  focusedInsideRoom st -> focusedInsideRoom (zoomToArtwork artwork st).
Proof.
  intros H. destruct (isZooming st) eqn:Hz.
  - unfold zoomToArtwork. rewrite Hz. exact H.
  - intros _. destruct (zoomToArtwork_target artwork st Hz) as (Hx & Hzz & _).
    split; assumption.
Qed.

Lemma focusedInsideRoom_silent (st : State) :
  focusedInsideRoom st -> isZooming st = true -> outsideBounds st = false.
Proof.
  intros H Hz. destruct (H Hz) as [Hx Hzz].
  apply outsideBounds_focused_within; [ exact Hz | | ]; qlra.
Qed.

Lemma focusedInsideRoom_animate (time : Q) (st : State) :
  focusedInsideRoom st -> focusedInsideRoom (animate time st).
Proof.
  intro H. destruct (isZooming st) eqn:Hz.
  - rewrite (animate_while_focused time st Hz (focusedInsideRoom_silent st H Hz)).
    destruct (controls_isLocked st); exact H.
  - apply focusedInsideRoom_unfocused. unfold animate. cbv zeta.
    assert (E : isZooming (if outsideBounds st then emergencyReset st else st)
                = false).
    { destruct (outsideBounds st);
        [ apply isZooming_emergencyReset | exact Hz ]. }
    revert E. generalize (if outsideBounds st then emergencyReset st else st).
    intros st1 E. rewrite isZooming_render, E.
    destruct (controls_isLocked st1); cbn [andb negb].
    + rewrite isZooming_movement. exact E.
    + exact E.
Qed.

Lemma focusedInsideRoom_step (st : State) (ev : Event) :
  focusedInsideRoom st -> focusedInsideRoom (step st ev).
Proof.
  intro H.
  destruct ev as [code | code | | locked | i w h | time | mx my]; cbn [step].
  - assert (H1 : focusedInsideRoom (onKeyDown code st)).
    { unfold onKeyDown. destruct (isZooming st) eqn:Hz.
      - destruct code; try exact H;
          apply focusedInsideRoom_unfocused, isZooming_resetZoom.
      - destruct code; try (apply focusedInsideRoom_unfocused; exact Hz).
        + destruct (canJump st); apply focusedInsideRoom_unfocused; exact Hz.
        + cbv zeta. destruct (findNearestArtwork _);
            [ apply focusedInsideRoom_zoomToArtwork | ]; exact H. }
    destruct code; try exact H1.
    apply focusedInsideRoom_unfocused, isZooming_emergencyReset.
  - destruct code; exact H.
  - exact H.
  - exact H.
  - exact H.
  - apply focusedInsideRoom_animate. exact H.
  - unfold onMouseMove. destruct (controls_isLocked st); exact H.
Qed.

(** In every state the script can reach from its start, a focus session
    has the camera inside the room, and the bounds check of [animate]
    stays silent. *)
Lemma reachable_focus_is_silent
  (random : nat -> Q) (now : Q) (events : list Event) :
  isZooming (run (init_state random now) events) = true ->
  outsideBounds (run (init_state random now) events) = false.
Proof.
  apply focusedInsideRoom_silent.
  assert (H : focusedInsideRoom (init_state random now))
    by (apply focusedInsideRoom_unfocused; reflexivity).
  revert H. generalize (init_state random now).
  induction events as [ | ev events IH ]; intros st H.
  - exact H.
  - cbn [run fold_left]. apply (IH (step st ev)).
    apply focusedInsideRoom_step. exact H.
Qed.



(* ================================================================= *)
(** ** Rotation in the furniture registry *)

Lemma checkItem_asAxisAligned (item : FurnitureItem) (p : Vector3) :
  checkItem (asAxisAligned item) p = checkItem item p.
Proof.
  unfold asAxisAligned, checkItem, collision_bounds.
  destruct (is_bench (item_type item)) eqn:Hb;
    destruct (rotation_nonzero (item_rotation item)) eqn:Hr;
    cbn [andb item_type item_position item_dimensions item_rotation
         vx vy vz rotation_nonzero neqb Qeq_bool negb];
    rewrite ?Hb; cbn [andb]; reflexivity.
Qed.

Lemma overBench_asAxisAligned (item : FurnitureItem) (p : Vector3) :
  overBench (asAxisAligned item) p = overBench item p.
Proof.
  unfold asAxisAligned, overBench, bench_bounds.
  destruct (is_bench (item_type item)) eqn:Hb;
    destruct (rotation_nonzero (item_rotation item)) eqn:Hr;
    cbn [andb item_type item_position item_dimensions item_rotation
         vx vy vz rotation_nonzero neqb Qeq_bool negb];
    rewrite ?Hb; cbn [andb]; reflexivity.
Qed.

Lemma init_furniture_benches (random : nat -> Q) (item : FurnitureItem) :
  In item (init_furniture random) ->
  item_type item = bench ->
  item_rotation item = Some 0.
Proof.
  unfold init_furniture, createGiftBoxes, createBalloons, setupLighting,
    createGiftBox, createBalloonGroup, createBench, createPlanter.
  cbn [app In]. intros H Hty.
  repeat (destruct H as [H | H];
          [ subst item; (discriminate Hty || reflexivity) | ]).
  contradiction.
Qed.

(** An eighth of a turn is no whole number of quarter turns. *)
Lemma quarterTurns_half : ~ quarterTurns ((1 # 2) * Math_PI / 2).
Proof.
  intros [k H]. unfold Math_PI in H.
  assert (Hk : inject_Z k == 1 # 2) by qlra.
  unfold Qeq in Hk. cbn in Hk. lia.
Qed.

(** A draw of [Math.random()], which is at least 0 and less than 1,
    makes a whole number of quarter turns of [random * PI / 2] only when
    it is 0. *)
Lemma quarterTurns_draw (r : Q) :
  0 <= r -> r < 1 -> (quarterTurns (r * Math_PI / 2) <-> r == 0).
Proof.
  intros H0 H1. unfold quarterTurns, Math_PI. split.
  - intros [k H].
    assert (Hk : r == inject_Z k).
    { eval_constants. to_Q. unfold Qdiv in H.
      change (/ 2) with (1 # 2) in H. lra. }
    assert (Hz : (k = 0)%Z).
    { rewrite Hk in H0, H1.
      assert (A : (0 <= k)%Z) by (rewrite Zle_Qle; exact H0).
      assert (B : (k < 1)%Z) by (rewrite Zlt_Qlt; exact H1).
      lia. }
    rewrite Hk, Hz. reflexivity.
  - intro H. exists 0%Z. eval_constants. to_Q. unfold Qdiv.
    change (/ 2) with (1 # 2). rewrite mul_correct, H. lra.
Qed.

(** C9 (amended).  The rotations of the furniture registry, entry by
    entry in the order [init] pushes them: the four planters have no
    rotation property; the two benches and the five balloon groups have
    rotation 0, the axis-aligned class; each of the six gift boxes has
    the rotation [Math.random() * PI / 2] it was drawn with, which is a
    whole number of quarter turns only when the draw is 0.  The
    collision engine's only use of an item's rotation is to exchange
    the x and z footprint extents of a bench whose rotation is not 0:
    the verdict on an item is the verdict on the same item standing
    axis-aligned with the extents exchanged, and the rotation of an
    item that is not a bench is never read. *)
Theorem C9_rotation_only_swaps_bench_extents (random : nat -> Q) :
  map (fun item => (item_type item, item_rotation item))
      (init_furniture random)
  = [ (planter, None); (planter, None); (planter, None); (planter, None);
      (bench, Some 0); (bench, Some 0);
      (decoration, Some 0); (decoration, Some 0); (decoration, Some 0);
      (decoration, Some 0); (decoration, Some 0);
      (decoration, Some (random 0%nat * Math_PI / 2));
      (decoration, Some (random 1%nat * Math_PI / 2));
      (decoration, Some (random 2%nat * Math_PI / 2));
      (decoration, Some (random 3%nat * Math_PI / 2));
      (decoration, Some (random 4%nat * Math_PI / 2));
      (decoration, Some (random 5%nat * Math_PI / 2)) ]
  /\ (forall item : FurnitureItem,
        In item (init_furniture random) ->
        item_type item = bench -> item_rotation item = Some 0)
  /\ (forall r : Q,
        0 <= r -> r < 1 ->
        (quarterTurns (r * Math_PI / 2) <-> r == 0))
  /\ (forall (item : FurnitureItem) (p : Vector3),
        checkItem item p = checkItem (asAxisAligned item) p
        /\ overBench item p = overBench (asAxisAligned item) p)
  /\ (forall (item : FurnitureItem) (r : option Q) (p : Vector3),
        item_type item <> bench ->
        checkItem (mkItem (item_type item) (item_position item)
                          (item_dimensions item) r) p
        = checkItem item p
        /\ overBench (mkItem (item_type item) (item_position item)
                             (item_dimensions item) r) p
           = overBench item p).
Proof.
  split; [ reflexivity | ].
  split; [ apply init_furniture_benches | ].
  split; [ exact quarterTurns_draw | split ].
  - intros item p. split; symmetry.
    + apply checkItem_asAxisAligned.
    + apply overBench_asAxisAligned.
  - intros item r p Hty. apply is_bench_false in Hty. split.
    + rewrite !checkItem_not_bench by exact Hty. reflexivity.
    + unfold overBench. cbn [item_type]. rewrite Hty. reflexivity.
Qed.

(* ================================================================= *)
(** ** The artwork registry *)

(** Only the texture-load callback writes [artworks]; every other
    function of the script leaves the array alone. *)

(** No setter but [with_artworks] touches the registry. *)

Lemma artworks_with_camera_position (v : Vector3) (st : State) :
  artworks (with_camera_position v st) = artworks st.
Proof. reflexivity. Qed.

Lemma artworks_with_camera_quaternion (v : Quaternion) (st : State) :
  artworks (with_camera_quaternion v st) = artworks st.
Proof. reflexivity. Qed.

Lemma artworks_with_moveForward (v : bool) (st : State) :
  artworks (with_moveForward v st) = artworks st.
Proof. reflexivity. Qed.

Lemma artworks_with_moveBackward (v : bool) (st : State) :
  artworks (with_moveBackward v st) = artworks st.
Proof. reflexivity. Qed.

Lemma artworks_with_moveLeft (v : bool) (st : State) :
  artworks (with_moveLeft v st) = artworks st.
Proof. reflexivity. Qed.

Lemma artworks_with_moveRight (v : bool) (st : State) :
  artworks (with_moveRight v st) = artworks st.
Proof. reflexivity. Qed.

Lemma artworks_with_isJumping (v : bool) (st : State) :
  artworks (with_isJumping v st) = artworks st.
Proof. reflexivity. Qed.

Lemma artworks_with_jumpVelocity (v : Q) (st : State) :
  artworks (with_jumpVelocity v st) = artworks st.
Proof. reflexivity. Qed.

Lemma artworks_with_canJump (v : bool) (st : State) :
  artworks (with_canJump v st) = artworks st.
Proof. reflexivity. Qed.

Lemma artworks_with_prevTime (v : Q) (st : State) :
  artworks (with_prevTime v st) = artworks st.
Proof. reflexivity. Qed.

Lemma artworks_with_velocity (v : Vector3) (st : State) :
  artworks (with_velocity v st) = artworks st.
Proof. reflexivity. Qed.

Lemma artworks_with_direction (v : Vector3) (st : State) :
  artworks (with_direction v st) = artworks st.
Proof. reflexivity. Qed.

Lemma artworks_with_isZooming (v : bool) (st : State) :
  artworks (with_isZooming v st) = artworks st.
Proof. reflexivity. Qed.

Lemma artworks_with_furniture (v : list FurnitureItem) (st : State) :
  artworks (with_furniture v st) = artworks st.
Proof. reflexivity. Qed.

Lemma artworks_with_originalCameraPosition (v : option Vector3) (st : State) :
  artworks (with_originalCameraPosition v st) = artworks st.
Proof. reflexivity. Qed.

Lemma artworks_with_originalCameraRotation (v : option Euler) (st : State) :
  artworks (with_originalCameraRotation v st) = artworks st.
Proof. reflexivity. Qed.

Lemma artworks_with_controls_isLocked (v : bool) (st : State) :
  artworks (with_controls_isLocked v st) = artworks st.
Proof. reflexivity. Qed.

Lemma artworks_with_lock_requests (v : list LockRequest) (st : State) :
  artworks (with_lock_requests v st) = artworks st.
Proof. reflexivity. Qed.

Lemma artworks_with_panel_title (v : option string) (st : State) :
  artworks (with_panel_title v st) = artworks st.
Proof. reflexivity. Qed.

Lemma artworks_with_panel_message (v : option string) (st : State) :
  artworks (with_panel_message v st) = artworks st.
Proof. reflexivity. Qed.

Lemma artworks_with_panel_display (v : Display) (st : State) :
  artworks (with_panel_display v st) = artworks st.
Proof. reflexivity. Qed.

Lemma artworks_controls_lock (st : State) :
  artworks (controls_lock st) = artworks st.
Proof. reflexivity. Qed.

Lemma artworks_controls_unlock (st : State) :
  artworks (controls_unlock st) = artworks st.
Proof. reflexivity. Qed.

Lemma artworks_controls_moveRight (distance : Q) (st : State) :
  artworks (controls_moveRight distance st) = artworks st.
Proof. reflexivity. Qed.

Lemma artworks_controls_moveForward (distance : Q) (st : State) :
  artworks (controls_moveForward distance st) = artworks st.
Proof. reflexivity. Qed.

Lemma artworks_if (c : bool) (a b : State) :
  artworks (if c then a else b) = if c then artworks a else artworks b.
Proof. destruct c; reflexivity. Qed.


Lemma artworks_with_camera_rotation (v : Euler) (st : State) :
  artworks (with_camera_rotation v st) = artworks st.
Proof. reflexivity. Qed.

Lemma artworks_with_camera_matrix (v : Quaternion) (st : State) :
  artworks (with_camera_matrix v st) = artworks st.
Proof. reflexivity. Qed.

Lemma artworks_updateMatrix (st : State) :
  artworks (updateMatrix st) = artworks st.
Proof. reflexivity. Qed.

Lemma artworks_set_quaternion (q : Quaternion) (st : State) :
  artworks (set_quaternion q st) = artworks st.
Proof. reflexivity. Qed.

Lemma artworks_set_rotation (e : Euler) (st : State) :
  artworks (set_rotation e st) = artworks st.
Proof. reflexivity. Qed.

Lemma artworks_camera_lookAt (target : Vector3) (st : State) :
  artworks (camera_lookAt target st) = artworks st.
Proof. reflexivity. Qed.

Lemma artworks_render (st : State) :
  artworks (render st) = artworks st.
Proof. reflexivity. Qed.

Create Rewrite HintDb registry.
#[local] Hint Rewrite
  artworks_with_camera_rotation artworks_with_camera_matrix
  artworks_updateMatrix artworks_set_quaternion
  artworks_set_rotation artworks_camera_lookAt artworks_render
  artworks_with_camera_position artworks_with_camera_quaternion
  artworks_with_moveForward artworks_with_moveBackward
  artworks_with_moveLeft artworks_with_moveRight
  artworks_with_isJumping artworks_with_jumpVelocity
  artworks_with_canJump artworks_with_prevTime artworks_with_velocity
  artworks_with_direction artworks_with_isZooming
  artworks_with_furniture artworks_with_originalCameraPosition
  artworks_with_originalCameraRotation artworks_with_controls_isLocked
  artworks_with_lock_requests artworks_with_panel_title
  artworks_with_panel_message artworks_with_panel_display
  artworks_controls_lock artworks_controls_unlock
  artworks_controls_moveRight artworks_controls_moveForward
  artworks_if
  @if_same : registry.

(** The registry after a chain of setters and conditionals. *)
Ltac registry := cbv zeta; autorewrite with registry; try reflexivity.

Lemma artworks_resetZoom (st : State) :
  artworks (resetZoom st) = artworks st.
Proof.
  unfold resetZoom. cbv zeta.
  match goal with
  | |- context [with_camera_position ?v st] => generalize v
  end.
  intro validPosition. rewrite !artworks_with_originalCameraRotation,
    artworks_with_originalCameraPosition, artworks_with_panel_display,
    artworks_controls_lock, artworks_with_isZooming.
  change (originalCameraRotation (with_camera_position validPosition st))
    with (originalCameraRotation st).
  destruct (originalCameraRotation st); registry.
Qed.

Lemma artworks_zoomToArtwork (artwork : Artwork) (st : State) :
  artworks (zoomToArtwork artwork st) = artworks st.
Proof. unfold zoomToArtwork. destruct (isZooming st); registry. Qed.

Lemma artworks_emergencyReset (st : State) :
  artworks (emergencyReset st) = artworks st.
Proof.
  assert (H : artworks (if isZooming st then resetZoom st else st)
              = artworks st).
  { destruct (isZooming st); [ apply artworks_resetZoom | reflexivity ]. }
  unfold emergencyReset. cbv zeta. revert H.
  generalize (if isZooming st then resetZoom st else st).
  intros st1 H. registry. exact H.
Qed.

Lemma artworks_onKeyDown (code : KeyCode) (st : State) :
  artworks (onKeyDown code st) = artworks st.
Proof.
  unfold onKeyDown.
  destruct (isZooming st); destruct code;
    try reflexivity; try apply artworks_resetZoom.
  - destruct (canJump st); reflexivity.
  - cbv zeta. destruct (findNearestArtwork _);
      [ rewrite artworks_zoomToArtwork | ]; reflexivity.
Qed.

Lemma artworks_onKeyDownReset (code : KeyCode) (st : State) :
  artworks (onKeyDownReset code st) = artworks st.
Proof.
  destruct code; try reflexivity. apply artworks_emergencyReset.
Qed.

Lemma artworks_onKeyUp (code : KeyCode) (st : State) :
  artworks (onKeyUp code st) = artworks st.
Proof. destruct code; reflexivity. Qed.

Lemma artworks_jumpAndGravity (delta : Q) (st : State) :
  artworks (jumpAndGravity delta st) = artworks st.
Proof. unfold jumpAndGravity, land. registry. Qed.

Lemma artworks_setDirection (st : State) :
  artworks (setDirection st) = artworks st.
Proof. unfold setDirection. registry. Qed.

Lemma artworks_moveFreely (delta : Q) (st : State) :
  artworks (moveFreely delta st) = artworks st.
Proof. unfold moveFreely. registry. Qed.

Lemma artworks_slideAlong (delta : Q) (newPosition : Vector3) (st : State) :
  artworks (slideAlong delta newPosition st) = artworks st.
Proof. unfold slideAlong. registry. Qed.

Lemma artworks_moveStep (delta : Q) (st : State) :
  artworks (moveStep delta st) = artworks st.
Proof.
  unfold moveStep. cbv zeta.
  destruct (_ && _);
    [ rewrite artworks_moveFreely | rewrite artworks_slideAlong ];
    apply artworks_setDirection.
Qed.

Lemma artworks_movement (time : Q) (st : State) :
  artworks (movement time st) = artworks st.
Proof.
  unfold movement. cbv zeta.
  rewrite artworks_with_prevTime, artworks_moveStep, artworks_jumpAndGravity.
  registry.
Qed.

Lemma artworks_animate (time : Q) (st : State) :
  artworks (animate time st) = artworks st.
Proof.
  assert (H : artworks (if outsideBounds st then emergencyReset st else st)
              = artworks st).
  { destruct (outsideBounds st);
      [ apply artworks_emergencyReset | reflexivity ]. }
  unfold animate. cbv zeta. revert H.
  generalize (if outsideBounds st then emergencyReset st else st).
  intros st1 H. rewrite artworks_render.
  destruct (_ && _); [ rewrite artworks_movement; exact H | ].
  destruct (negb _); exact H.
Qed.

Lemma artworks_onMouseMove (movementX movementY : Q) (st : State) :
  artworks (onMouseMove movementX movementY st) = artworks st.
Proof. unfold onMouseMove. destruct (controls_isLocked st); reflexivity. Qed.

Lemma populated_onTextureLoaded
  (index : nat) (imageWidth imageHeight : Q) (artworks : list Artwork) :
  Forall populated artworks ->
  Forall populated (onTextureLoaded index imageWidth imageHeight artworks).
Proof.
  intro H. unfold onTextureLoaded.
  destruct (if geb (imageWidth / imageHeight) 1 then _ else _)
    as [artworkWidth artworkHeight].
  destruct (nth_error imagePaths index); [ | exact H ].
  destruct (nth_error artworkPositions index); [ | exact H ].
  destruct (nth_error artworkInfo index); [ | exact H ].
  apply Forall_app. split; [ exact H | ].
  constructor; [ | constructor ].
  unfold populated. cbn. repeat split; discriminate.
Qed.

(** Where the registry changes at all, one populated entry is appended. *)
Lemma step_artworks (st : State) (ev : Event) :
  artworks (step st ev) = artworks st
  \/ exists (index : nat) (imageWidth imageHeight : Q) (entry : Artwork),
       ev = TextureLoaded index imageWidth imageHeight
       /\ populated entry
       /\ artworks (step st ev) = artworks st ++ [entry].
Proof.
  destruct ev as [code | code | | locked | index w h | time | mx my]; cbn [step].
  - left. rewrite artworks_onKeyDownReset. apply artworks_onKeyDown.
  - left. apply artworks_onKeyUp.
  - left. reflexivity.
  - left. reflexivity.
  - cbn [artworks with_artworks]. unfold onTextureLoaded.
    destruct (if geb (w / h) 1 then _ else _) as [artworkWidth artworkHeight].
    destruct (nth_error imagePaths index); [ | left; reflexivity ].
    destruct (nth_error artworkPositions index); [ | left; reflexivity ].
    destruct (nth_error artworkInfo index); [ | left; reflexivity ].
    right. eexists index, w, h, _. split; [ reflexivity | ].
    split; [ | reflexivity ].
    unfold populated. cbn. repeat split; discriminate.
  - left. apply artworks_animate.
  - left. apply artworks_onMouseMove.
Qed.

Lemma populated_step (st : State) (ev : Event) :
  Forall populated (artworks st) -> Forall populated (artworks (step st ev)).
Proof.
  intro H. destruct (step_artworks st ev) as [E | (i & w & h & a & _ & Ha & E)];
    rewrite E; [ exact H | ].
  apply Forall_app. split; [ exact H | ]. constructor; [ exact Ha | constructor ].
Qed.

Lemma populated_run (events : list Event) (st : State) :
  Forall populated (artworks st) ->
  Forall populated (artworks (run st events)).
Proof.
  revert st. induction events as [ | ev events IH ]; intros st H.
  - exact H.
  - cbn [run fold_left]. apply (IH (step st ev)). apply populated_step. exact H.
Qed.

(** [guardSkips] is the test that makes the callback return at once. *)
Lemma visitArtwork_guard (cameraPosition cameraDirection : Vector3)
  (acc : option Artwork * option Q) (a : Artwork) :
  guardSkips a = true ->
  visitArtwork cameraPosition cameraDirection acc a = acc.
Proof. unfold guardSkips, visitArtwork. intros ->. reflexivity. Qed.

Lemma populated_guard (a : Artwork) : populated a -> guardSkips a = false.
Proof.
  intros (Hw & Hh & _). unfold guardSkips.
  destruct (width a); [ | congruence ].
  destruct (height a); [ reflexivity | congruence ].
Qed.

(** C10.  Whatever the browser delivers after [init], every entry of the
    artwork registry has its width, height, title and description
    defined: entries are appended by the texture-load callback alone,
    complete.  Hence the undefined-dimension guard of
    [findNearestArtwork] skips no entry of the registry. *)
Theorem C10_registry_entries_populated
  (random : nat -> Q) (now : Q) (events : list Event) :
  Forall populated (artworks (run (init_state random now) events))
  /\ Forall (fun a : Artwork => guardSkips a = false)
            (artworks (run (init_state random now) events)).
Proof.
  assert (H : Forall populated (artworks (run (init_state random now) events))).
  { apply populated_run. constructor. }
  split; [ exact H | ].
  eapply Forall_impl; [ | exact H ]. exact populated_guard.
Qed.

(* ================================================================= *)
(** ** Artwork selection *)

Lemma visitArtwork_cases (cameraPosition cameraDirection : Vector3)
  (acc : option Artwork * option Q) (artwork : Artwork) :
  visitArtwork cameraPosition cameraDirection acc artwork
  = match visitedScore cameraPosition cameraDirection artwork with
    | Some score =>
        if score_gt score (snd acc) then (Some artwork, Some score) else acc
    | None => acc
    end.
Proof.
  unfold visitedScore, visitArtwork.
  destruct (undefinedb (width artwork) || undefinedb (height artwork));
    [ reflexivity | ].
  cbv zeta.
  destruct (ltb (distanceTo cameraPosition (group_position (group artwork))) _);
    [ | reflexivity ].
  destruct (ltb (angleTo cameraDirection _) _); reflexivity.
Qed.

(** The code visits with a score exactly the candidates of the
    specification, and the score is the specified one. *)
Lemma visitedScore_spec (cameraPosition cameraDirection : Vector3)
  (artwork : Artwork) :
  (spec_candidate cameraPosition cameraDirection artwork
   /\ visitedScore cameraPosition cameraDirection artwork
      = Some (spec_score cameraPosition cameraDirection artwork))
  \/ (~ spec_candidate cameraPosition cameraDirection artwork
      /\ visitedScore cameraPosition cameraDirection artwork = None).
Proof.
  unfold visitedScore, visitArtwork, spec_candidate, spec_loaded.
  destruct (width artwork) as [w | ] eqn:Hw;
    [ | right; split; [ intros [[H _] _]; congruence | reflexivity ] ].
  destruct (height artwork) as [h | ] eqn:Hh;
    [ | right; split; [ intros [[_ H] _]; congruence | reflexivity ] ].
  cbn [undefinedb orb]. cbv zeta.
  fold (spec_distance cameraPosition artwork).
  unfold spec_score, spec_angleThreshold, spec_maxDistance, spec_size,
    spec_angle, spec_distance.
  rewrite Hw, Hh.
  destruct (ltb (distanceTo cameraPosition (group_position (group artwork))) _)
    eqn:Hd.
  - destruct (ltb (angleTo cameraDirection _) _) eqn:Ha.
    + left. apply ltb_lt in Hd, Ha. split; [ | reflexivity ].
      split; [ split; discriminate | ].
      split; apply Qlt_not_le; assumption.
    + right. apply ltb_ge in Ha. split; [ | reflexivity ].
      intros (_ & _ & H). apply H. exact Ha.
  - right. apply ltb_ge in Hd. split; [ | reflexivity ].
    intros (_ & H & _). apply H. exact Hd.
Qed.

Lemma score_gt_trans (s1 s2 : Q) (best : option Q) :
  score_gt s1 best = true -> score_gt s2 (Some s1) = true ->
  score_gt s2 best = true.
Proof.
  destruct best as [b | ]; [ | reflexivity ]. unfold score_gt.
  rewrite !gtb_gt. intros. qlra.
Qed.

(** The loop keeps the first artwork of maximal score, if any beats the
    score it started with. *)
Lemma fold_visitArtwork (cameraPosition cameraDirection : Vector3)
  (artworks : list Artwork) (acc : option Artwork * option Q) :
  let visited := visitedScore cameraPosition cameraDirection in
  let result :=
    fold_left (visitArtwork cameraPosition cameraDirection) artworks acc in
  (result = acc
   /\ forall a s, In a artworks -> visited a = Some s ->
                  score_gt s (snd acc) = false)
  \/ (exists before best s after,
         artworks = before ++ best :: after
         /\ result = (Some best, Some s)
         /\ visited best = Some s
         /\ score_gt s (snd acc) = true
         /\ (forall a s', In a before -> visited a = Some s' -> s' < s)
         /\ (forall a s', In a after -> visited a = Some s' -> s' <= s)).
Proof.
  cbv zeta. revert acc.
  induction artworks as [ | a rest IH ]; intro acc.
  - left. split; [ reflexivity | intros a s [] ].
  - cbn [fold_left]. rewrite visitArtwork_cases.
    destruct (visitedScore cameraPosition cameraDirection a) as [sa | ] eqn:Ea.
    + destruct (score_gt sa (snd acc)) eqn:Egt.
      * (* [a] becomes the best so far *)
        right.
        destruct (IH (Some a, Some sa))
          as [[Hr Hall] | (before & best & s & after & Hl & Hr & Hb & Hgt & Hbef & Haft)].
        -- exists [], a, sa, rest. repeat split; try assumption.
           ++ intros x s' [].
           ++ intros x s' Hin Hx. specialize (Hall x s' Hin Hx).
              cbn in Hall. apply gtb_le in Hall. exact Hall.
        -- exists (a :: before), best, s, after. cbn [snd] in Hgt.
           repeat split; try assumption.
           ++ rewrite Hl. reflexivity.
           ++ apply (score_gt_trans sa s (snd acc) Egt Hgt).
           ++ intros x s' [Hx | Hx] Hv.
              ** subst x. rewrite Ea in Hv. injection Hv as <-.
                 apply gtb_gt in Hgt. exact Hgt.
              ** apply (Hbef x s' Hx Hv).
      * (* [a] does not beat the best so far *)
        destruct (IH acc)
          as [[Hr Hall] | (before & best & s & after & Hl & Hr & Hb & Hgt & Hbef & Haft)].
        -- left. split; [ exact Hr | ].
           intros x s' [Hx | Hx] Hv.
           ++ subst x. rewrite Ea in Hv. injection Hv as <-. exact Egt.
           ++ apply (Hall x s' Hx Hv).
        -- right. exists (a :: before), best, s, after.
           repeat split; try assumption.
           ++ rewrite Hl. reflexivity.
           ++ intros x s' [Hx | Hx] Hv.
              ** subst x. rewrite Ea in Hv. injection Hv as <-.
                 destruct (snd acc) as [b | ]; [ | discriminate Egt ].
                 cbn in Egt, Hgt. apply gtb_le in Egt. apply gtb_gt in Hgt.
                 qlra.
              ** apply (Hbef x s' Hx Hv).
    + (* [a] is skipped *)
      destruct (IH acc)
        as [[Hr Hall] | (before & best & s & after & Hl & Hr & Hb & Hgt & Hbef & Haft)].
      * left. split; [ exact Hr | ].
        intros x s' [Hx | Hx] Hv.
        -- subst x. congruence.
        -- apply (Hall x s' Hx Hv).
      * right. exists (a :: before), best, s, after.
        repeat split; try assumption.
        -- rewrite Hl. reflexivity.
        -- intros x s' [Hx | Hx] Hv.
           ++ subst x. congruence.
           ++ apply (Hbef x s' Hx Hv).
Qed.

Lemma visited_candidate (cameraPosition cameraDirection : Vector3)
  (a : Artwork) :
  spec_candidate cameraPosition cameraDirection a ->
  visitedScore cameraPosition cameraDirection a
  = Some (spec_score cameraPosition cameraDirection a).
Proof.
  intro H.
  destruct (visitedScore_spec cameraPosition cameraDirection a)
    as [[_ E] | [N _]]; [ exact E | contradiction ].
Qed.

Lemma visited_some (cameraPosition cameraDirection : Vector3)
  (a : Artwork) (s : Q) :
  visitedScore cameraPosition cameraDirection a = Some s ->
  spec_candidate cameraPosition cameraDirection a
  /\ s = spec_score cameraPosition cameraDirection a.
Proof.
  intro H.
  destruct (visitedScore_spec cameraPosition cameraDirection a)
    as [[C E] | [_ E]]; rewrite E in H; [ | discriminate H ].
  injection H as <-. split; [ exact C | reflexivity ].
Qed.

(** What is selected is a candidate of maximal score, the first of
    them in scan order. *)
Lemma findNearestArtwork_selected (st : State) (best : Artwork) :
  let position := camera_position st in
  let forward := getWorldDirection (camera_quaternion st) in
  let candidate := spec_candidate position forward in
  let score := spec_score position forward in
  findNearestArtwork st = Some best ->
  exists before after : list Artwork,
    artworks st = before ++ best :: after
    /\ candidate best
    /\ (forall a, In a before -> candidate a -> score a < score best)
    /\ (forall a, In a after -> candidate a -> score a <= score best).
Proof.
  cbv zeta. unfold findNearestArtwork, nearestArtworkOf. intro Hbest.
  destruct (fold_visitArtwork (camera_position st)
              (getWorldDirection (camera_quaternion st))
              (artworks st) (None, None))
    as [[Hr _] | (before & b & s & after & Hl & Hr & Hb & _ & Hbef & Haft)];
    rewrite Hr in Hbest; [ discriminate Hbest | ].
  injection Hbest as <-.
  destruct (visited_some _ _ _ _ Hb) as [Hc ->].
  exists before, after.
  split; [ exact Hl | split; [ exact Hc | split ] ].
  - intros a Hin Ha. apply (Hbef a _ Hin (visited_candidate _ _ _ Ha)).
  - intros a Hin Ha. apply (Haft a _ Hin (visited_candidate _ _ _ Ha)).
Qed.

(** Nothing is selected exactly when the registry holds no candidate. *)
Lemma findNearestArtwork_none (st : State) :
  findNearestArtwork st = None
  <-> forall a, In a (artworks st) ->
                ~ spec_candidate (camera_position st)
                    (getWorldDirection (camera_quaternion st)) a.
Proof.
  unfold findNearestArtwork, nearestArtworkOf.
  destruct (fold_visitArtwork (camera_position st)
              (getWorldDirection (camera_quaternion st))
              (artworks st) (None, None))
    as [[Hr Hall] | (before & b & s & after & Hl & Hr & Hb & _)];
    rewrite Hr; split.
  - intros _ a Hin Ha.
    specialize (Hall a _ Hin (visited_candidate _ _ _ Ha)).
    discriminate Hall.
  - reflexivity.
  - intro H. discriminate H.
  - intro Hno. exfalso. apply (Hno b).
    + rewrite Hl. apply in_or_app. right. left. reflexivity.
    + apply (visited_some _ _ _ _ Hb).
Qed.

(** C5.  [findNearestArtwork] returns the candidate of maximal score.
    Candidates are the loaded artworks that are not skipped for distance
    (>= max(10, max(width,height)*3)) or for angle
    (>= 45 degrees * (1 + min(width,height)/5)); the score is
    (1 - angle/pi)*10 + (maxDistance - distance) + size.  Among equal
    maximal scores the first in scan order is returned; the result is
    none exactly when there is no candidate; and of two candidates with
    different scores the higher one is returned in either scan order. *)
Theorem C5_findNearestArtwork_first_maximum (st : State) :
  let position := camera_position st in
  let forward := getWorldDirection (camera_quaternion st) in
  let candidate := spec_candidate position forward in
  let score := spec_score position forward in
  (forall best : Artwork,
      findNearestArtwork st = Some best ->
      exists before after : list Artwork,
        artworks st = before ++ best :: after
        /\ candidate best
        /\ (forall a, In a before -> candidate a -> score a < score best)
        /\ (forall a, In a after -> candidate a -> score a <= score best))
  /\ (findNearestArtwork st = None
      <-> forall a, In a (artworks st) -> ~ candidate a)
  /\ (forall a b : Artwork,
        candidate a -> candidate b -> score a < score b ->
        findNearestArtwork (with_artworks [a; b] st) = Some b
        /\ findNearestArtwork (with_artworks [b; a] st) = Some b).
Proof.
  cbv zeta.
  split; [ exact (findNearestArtwork_selected st) | ].
  split; [ exact (findNearestArtwork_none st) | ].
  intros a b Ha Hb Hlt.
  unfold findNearestArtwork, nearestArtworkOf.
  change (camera_position (with_artworks ?l st)) with (camera_position st).
  change (camera_quaternion (with_artworks ?l st))
    with (camera_quaternion st).
  set (position := camera_position st) in *.
  set (forward := getWorldDirection (camera_quaternion st)) in *.
  cbn [artworks with_artworks fold_left].
  rewrite !visitArtwork_cases.
  rewrite (visited_candidate _ _ _ Ha), (visited_candidate _ _ _ Hb).
  cbn [score_gt snd].
  assert (E1 : gtb (spec_score position forward b)
                   (spec_score position forward a) = true)
    by (apply gtb_gt; exact Hlt).
  assert (E2 : gtb (spec_score position forward a)
                   (spec_score position forward b) = false)
    by (apply gtb_le; apply Qlt_le_weak; exact Hlt).
  rewrite E1, E2. split; reflexivity.
Qed.

(** Selection does not depend on the scan order when the best candidate
    has no equal: any rearrangement of the registry selects it again. *)
Lemma findNearestArtwork_order_independent
  (st : State) (rearranged : list Artwork) (best : Artwork) :
  let position := camera_position st in
  let forward := getWorldDirection (camera_quaternion st) in
  (forall a, In a (artworks st) <-> In a rearranged) ->
  In best (artworks st) ->
  spec_candidate position forward best ->
  (forall a, In a (artworks st) -> spec_candidate position forward a ->
             a = best
             \/ spec_score position forward a
                < spec_score position forward best) ->
  findNearestArtwork (with_artworks rearranged st) = Some best.
Proof.
  cbv zeta. intros Hperm Hin Hbest Huniq.
  pose proof (findNearestArtwork_selected (with_artworks rearranged st))
    as Hsome.
  pose proof (findNearestArtwork_none (with_artworks rearranged st))
    as Hnone.
  cbv zeta in Hsome.
  destruct (findNearestArtwork (with_artworks rearranged st)) as [b | ] eqn:E.
  - f_equal.
    destruct (Hsome b eq_refl)
      as (before & after & Hl & Hc & Hbef & Haft).
    cbn [artworks with_artworks camera_position camera_quaternion] in *.
    assert (Hb : In b (artworks st)).
    { apply Hperm. rewrite Hl. apply in_or_app. right. left. reflexivity. }
    destruct (Huniq b Hb Hc) as [-> | Hlt]; [ reflexivity | ].
    exfalso.
    assert (Hin' : In best (before ++ b :: after))
      by (rewrite <- Hl; apply Hperm; exact Hin).
    apply in_app_or in Hin'. destruct Hin' as [H | [H | H]].
    + specialize (Hbef best H Hbest). qlra.
    + subst b. qlra.
    + specialize (Haft best H Hbest). qlra.
  - exfalso. destruct Hnone as [Hnone _].
    apply (Hnone eq_refl best); [ apply Hperm; exact Hin | exact Hbest ].
Qed.

(* ================================================================= *)
(** ** The collision engine in closed form *)

Lemma checkItem_no_overlap (item : FurnitureItem) (p : Vector3) :
  overlapb item p = false -> checkItem item p = None.
Proof.
  unfold overlapb, checkItem.
  destruct (collision_bounds item) as [xBound zBound].
  intros ->. reflexivity.
Qed.

Lemma checkItem_overlap (item : FurnitureItem) (p : Vector3) :
  overlapb item p = true ->
  checkItem item p
  = Some (if is_bench (item_type item) then leb (vy p) 2 else true).
Proof.
  unfold overlapb, checkItem.
  destruct (collision_bounds item) as [xBound zBound].
  intros ->. destruct (is_bench (item_type item)); [ | reflexivity ].
  cbv zeta.
  destruct (gtb (vy p) (1.0 + 1.0)) eqn:Hjump.
  - apply gtb_gt in Hjump.
    assert (E : leb (vy p) 2 = false) by (apply leb_gt; qlra).
    rewrite E. reflexivity.
  - apply gtb_le in Hjump.
    assert (Htop : ltb (Math_abs (vy p - 3)) 0.1 = false).
    { apply ltb_ge. unfold Math_abs.
      assert (H : vy p - 3 <= 0) by qlra.
      rewrite (Qabs_neg _ H). qlra. }
    rewrite Htop.
    assert (E : leb (vy p) (1.0 + 1.0) = true) by (apply leb_le; exact Hjump).
    rewrite E.
    assert (E2 : leb (vy p) 2 = true) by (apply leb_le; qlra).
    rewrite E2. reflexivity.
Qed.

(** X1.  [checkFurnitureCollision] in closed form: the verdict is that of
    the first item in scan order whose footprint plus the margin 0.3
    holds the position.  If that item is a bench the position is blocked
    exactly when the height is at most 2; any other item blocks at every
    height; if there is no such item the position is free.  Items after
    the first overlapping one are never consulted. *)
Theorem X1_collision_is_first_overlap_verdict
  (furniture : list FurnitureItem) (p : Vector3) :
  checkFurnitureCollision furniture p = firstOverlapVerdict furniture p.
Proof.
  unfold firstOverlapVerdict.
  induction furniture as [ | item rest IH ]; [ reflexivity | ].
  cbn [checkFurnitureCollision find].
  destruct (overlapb item p) eqn:Ho.
  - rewrite (checkItem_overlap item p Ho). reflexivity.
  - rewrite (checkItem_no_overlap item p Ho). exact IH.
Qed.

Lemma checkFurnitureCollision_skips (before rest : list FurnitureItem)
  (p : Vector3) :
  (forall item, In item before -> overlapb item p = false) ->
  checkFurnitureCollision (before ++ rest) p
  = checkFurnitureCollision rest p.
Proof.
  induction before as [ | item before IH ]; intro H; [ reflexivity | ].
  cbn [app checkFurnitureCollision].
  rewrite (checkItem_no_overlap item p (H item (or_introl eq_refl))).
  apply IH. intros i Hi. apply H. right. exact Hi.
Qed.

Lemma overlapb_not_bench (item : FurnitureItem) (p : Vector3) :
  is_bench (item_type item) = false ->
  (overlapb item p = true <-> horizontalOverlap item p).
Proof.
  intro Hty. unfold overlapb, horizontalOverlap.
  rewrite (collision_bounds_not_bench item Hty).
  rewrite andb_true_iff, !ltb_lt. reflexivity.
Qed.

Lemma overlapb_height (item : FurnitureItem) (p : Vector3) (h : Q) :
  overlapb item (set_y p h) = overlapb item p.
Proof. reflexivity. Qed.

(** Up to the first bench that overlaps the position, every item that
    overlaps it blocks. *)
Lemma checkFurnitureCollision_before_benches
  (before rest : list FurnitureItem) (item : FurnitureItem) (p : Vector3) :
  (forall b, In b before -> item_type b = bench -> overlapb b p = false) ->
  is_bench (item_type item) = false ->
  overlapb item p = true ->
  checkFurnitureCollision (before ++ item :: rest) p = true.
Proof.
  intros Hbefore Hty Ho.
  induction before as [ | b before IH ].
  - cbn [app checkFurnitureCollision].
    rewrite (checkItem_overlap item p Ho), Hty. reflexivity.
  - cbn [app checkFurnitureCollision].
    destruct (overlapb b p) eqn:Hb.
    + rewrite (checkItem_overlap b p Hb).
      destruct (item_type b) eqn:Tb; try reflexivity.
      rewrite (Hbefore b (or_introl eq_refl) Tb) in Hb. discriminate Hb.
    + rewrite (checkItem_no_overlap b p Hb). apply IH.
      intros b' Hin. apply Hbefore. right. exact Hin.
Qed.

(** C6 (amended).  For a furniture item that is not a bench, the test
    that [checkFurnitureCollision] makes of the item (one iteration of
    its loop, and the whole function on a registry holding that item
    alone) answers "blocked" exactly when the position overlaps the
    footprint horizontally, within the margin 0.3
    ([|dx| < halfWidth + 0.3] and [|dz| < halfDepth + 0.3]), and the
    camera height has no influence on it.  On a registry that holds the
    item among others the function answers "blocked" at every position
    the item overlaps, at every height, provided that no bench standing
    earlier in the registry overlaps the position as well.  Where the
    first entry of the registry that overlaps the position is a bench,
    the function answers as for the bench and consults no later entry:
    above height 2 the position is "free", although the item overlaps
    it. *)
Theorem C6_non_bench_blocks_iff_overlap
  (item : FurnitureItem) (p : Vector3) :
  item_type item <> bench ->
  (checkItem item p = Some true <-> horizontalOverlap item p)
  /\ (checkFurnitureCollision [item] p = true <-> horizontalOverlap item p)
  /\ (forall h : Q,
        checkItem item (set_y p h) = checkItem item p
        /\ checkFurnitureCollision [item] (set_y p h)
           = checkFurnitureCollision [item] p)
  /\ (forall before rest : list FurnitureItem,
        (forall b, In b before -> item_type b = bench ->
                   overlapb b p = false) ->
        horizontalOverlap item p ->
        forall h : Q,
          checkFurnitureCollision (before ++ item :: rest) (set_y p h)
          = true)
  /\ (forall (before rest : list FurnitureItem) (b : FurnitureItem),
        (forall i, In i before -> overlapb i p = false) ->
        item_type b = bench ->
        overlapb b p = true ->
        In item rest ->
        horizontalOverlap item p ->
        2 < vy p ->
        checkFurnitureCollision (before ++ b :: rest) p = false).
Proof.
  intro Hty. apply is_bench_false in Hty.
  pose proof (checkItem_not_bench_iff item p Hty) as Hiff.
  split; [ exact Hiff | split; [ | split; [ | split ] ] ].
  - rewrite <- Hiff. simpl.
    rewrite (checkItem_not_bench item p Hty).
    destruct (_ && _); split; intro H;
      first [ reflexivity | discriminate H ].
  - intro h. split; [ apply checkItem_not_bench_height; exact Hty | ].
    simpl. rewrite (checkItem_not_bench_height item p h Hty). reflexivity.
  - intros before rest Hbefore Ho h.
    apply checkFurnitureCollision_before_benches.
    + intros b Hin Tb. rewrite overlapb_height. apply Hbefore; assumption.
    + exact Hty.
    + rewrite overlapb_height. apply overlapb_not_bench; assumption.
  - intros before rest b Hbefore Hb Ho _ _ Hy.
    rewrite (checkFurnitureCollision_skips before (b :: rest) p Hbefore).
    cbn [checkFurnitureCollision].
    rewrite (checkItem_overlap b p Ho), Hb. cbn [is_bench].
    apply leb_gt. exact Hy.
Qed.

(** X2.  A bench the player is above hides everything behind it in the
    registry: when the first item that overlaps the position is a bench
    and the height is above 2, the position is free whatever items
    follow, solid ones that overlap it included. *)
Theorem X2_bench_above_two_hides_later_items
  (before rest : list FurnitureItem) (b : FurnitureItem) (p : Vector3) :
  (forall item, In item before -> overlapb item p = false) ->
  item_type b = bench ->
  overlapb b p = true ->
  2 < vy p ->
  checkFurnitureCollision (before ++ b :: rest) p = false.
Proof.
  intros Hbefore Hb Ho Hy.
  rewrite (checkFurnitureCollision_skips before (b :: rest) p Hbefore).
  cbn [checkFurnitureCollision].
  rewrite (checkItem_overlap b p Ho), Hb. cbn [is_bench].
  apply leb_gt. exact Hy.
Qed.

(* ================================================================= *)
(** ** Where [resetZoom] puts the camera *)

(** The position [resetZoom] gives the camera, by cases on the saved
    pose. *)
Lemma resetZoom_position_cases (st : State) :
  ((originalCameraPosition st = None \/ originalCameraRotation st = None)
   /\ camera_position (resetZoom st) = vec3 0 2 0)
  \/ (exists (original : Vector3) (rotation : Euler),
         originalCameraPosition st = Some original
         /\ originalCameraRotation st = Some rotation
         /\ camera_position (resetZoom st)
            = let valid :=
                vec3 (Math_max (- ROOM_WIDTH / 2 + 1)
                        (Math_min (ROOM_WIDTH / 2 - 1) (vx original)))
                     (Math_max 2 (vy original))
                     (Math_max (- ROOM_LENGTH / 2 + 1)
                        (Math_min (ROOM_LENGTH / 2 - 1) (vz original))) in
              if checkFurnitureCollision (furniture st) valid
              then closestSafePosition (furniture st) valid
              else valid).
Proof.
  assert (P : forall (v : Vector3),
             camera_position
               (with_originalCameraRotation None
                  (with_originalCameraPosition None
                     (with_panel_display display_none
                        (controls_lock
                           (with_isZooming false
                              match
                                originalCameraRotation
                                  (with_camera_position v st)
                              with
                              | Some rotation =>
                                  set_rotation rotation
                                    (with_camera_position v st)
                              | None => with_camera_position v st
                              end)))))
             = v).
  { intro v.
    change (originalCameraRotation (with_camera_position v st))
      with (originalCameraRotation st).
    destruct (originalCameraRotation st); reflexivity. }
  unfold resetZoom. cbv zeta. rewrite P.
  destruct (originalCameraPosition st) as [original | ];
    [ | left; split; [ left | ]; reflexivity ].
  destruct (originalCameraRotation st) as [rotation | ];
    [ | left; split; [ right | ]; reflexivity ].
  right. exists original, rotation.
  split; [ reflexivity | split; [ reflexivity | reflexivity ] ].
Qed.

Lemma closestSafePosition_listed (furniture : list FurnitureItem)
  (valid : Vector3) :
  In (closestSafePosition furniture valid) safePositions.
Proof.
  unfold closestSafePosition.
  assert (G : forall (l : list Vector3) (acc : Vector3 * Q),
             In (fst acc) safePositions ->
             (forall c, In c l -> In c safePositions) ->
             In (fst (fold_left
                        (fun (acc : Vector3 * Q) (candidate : Vector3) =>
                           let distance := distanceTo valid candidate in
                           if ltb distance (snd acc)
                              && negb (checkFurnitureCollision furniture
                                         candidate)
                           then (candidate, distance)
                           else acc)
                        l acc))
                safePositions).
  { induction l as [ | c l IH ]; intros acc Hacc Hl; [ exact Hacc | ].
    cbn [fold_left]. apply IH.
    - cbv zeta. destruct (_ && _); [ | exact Hacc ].
      apply Hl. left. reflexivity.
    - intros c' Hc'. apply Hl. right. exact Hc'. }
  apply G.
  - left. reflexivity.
  - intros c Hc. right. exact Hc.
Qed.

Lemma closestSafePosition_free (furniture : list FurnitureItem)
  (valid : Vector3) :
  checkFurnitureCollision furniture (vec3 0 2 0) = false ->
  checkFurnitureCollision furniture (closestSafePosition furniture valid)
  = false.
Proof.
  intro Hcentre. unfold closestSafePosition.
  assert (G : forall (l : list Vector3) (acc : Vector3 * Q),
             checkFurnitureCollision furniture (fst acc) = false ->
             checkFurnitureCollision furniture
               (fst (fold_left
                       (fun (acc : Vector3 * Q) (candidate : Vector3) =>
                          let distance := distanceTo valid candidate in
                          if ltb distance (snd acc)
                             && negb (checkFurnitureCollision furniture
                                        candidate)
                          then (candidate, distance)
                          else acc)
                       l acc))
             = false).
  { induction l as [ | c l IH ]; intros acc Hacc; [ exact Hacc | ].
    cbn [fold_left]. apply IH. cbv zeta.
    destruct (ltb (distanceTo valid c) (snd acc)); [ | exact Hacc ].
    destruct (checkFurnitureCollision furniture c) eqn:Hc;
      [ exact Hacc | exact Hc ]. }
  apply G. exact Hcentre.
Qed.

Lemma furniture_resetZoom (st : State) :
  furniture (resetZoom st) = furniture st.
Proof.
  unfold resetZoom. cbv zeta.
  match goal with
  | |- context [with_camera_position ?v st] => generalize v
  end.
  intro v.
  change (originalCameraRotation (with_camera_position v st))
    with (originalCameraRotation st).
  destruct (originalCameraRotation st); reflexivity.
Qed.

Lemma safePositions_inside (p : Vector3) :
  In p safePositions -> hasWallCollision p = false /\ 2 <= vy p.
Proof.
  intros [<- | [<- | [<- | [<- | [<- | []]]]]];
    (split; [ vm_compute; reflexivity | vm_compute; discriminate ]).
Qed.

(** X3.  Whatever pose was saved, and also when none was, [resetZoom]
    leaves the camera inside the wall boundary inset by 1 unit and at
    height 2 or more: a saved position outside is clamped, a colliding
    one is replaced by one of the five fallback points. *)
Theorem X3_resetZoom_lands_inside_the_room (st : State) :
  hasWallCollision (camera_position (resetZoom st)) = false
  /\ 2 <= vy (camera_position (resetZoom st)).
Proof.
  destruct (resetZoom_position_cases st)
    as [[_ E] | (original & rotation & _ & _ & E)]; rewrite E.
  - split; [ vm_compute; reflexivity | vm_compute; discriminate ].
  - cbv zeta.
    match goal with
    | |- context [if ?c then _ else _] => destruct c
    end.
    + apply safePositions_inside, closestSafePosition_listed.
    + unfold hasWallCollision. cbn [vx vy vz].
      assert (Hx := clamp_bounds (- ROOM_WIDTH / 2 + 1) (ROOM_WIDTH / 2 - 1)
                      (vx original)).
      assert (Hz := clamp_bounds (- ROOM_LENGTH / 2 + 1)
                      (ROOM_LENGTH / 2 - 1) (vz original)).
      destruct Hx as [Hx1 Hx2]; [ qlra | ].
      destruct Hz as [Hz1 Hz2]; [ qlra | ].
      split; [ | apply Math_max_ge_l ].
      apply ltb_ge in Hx1, Hz1. apply gtb_le in Hx2, Hz2.
      rewrite Hx1, Hx2, Hz1, Hz2. reflexivity.
Qed.

Lemma resetZoom_free (st : State) :
  checkFurnitureCollision (furniture st) (vec3 0 2 0) = false ->
  checkFurnitureCollision (furniture (resetZoom st))
                          (camera_position (resetZoom st)) = false.
Proof.
  intro Hcentre. rewrite furniture_resetZoom.
  destruct (resetZoom_position_cases st)
    as [[_ E] | (original & rotation & _ & _ & E)]; rewrite E.
  - exact Hcentre.
  - cbv zeta.
    match goal with
    | |- context [if ?c then _ else _] => destruct c eqn:Hc
    end.
    + apply closestSafePosition_free. exact Hcentre.
    + exact Hc.
Qed.

(** X4.  Where the room centre (0,2,0) is free of furniture, [resetZoom]
    never leaves the camera in a position that
    [checkFurnitureCollision] rejects: a colliding saved position is
    replaced by a fallback point that is itself free.  The centre is the
    one fallback point the code takes without testing it. *)
Theorem X4_resetZoom_never_leaves_a_collision (st : State) :
  checkFurnitureCollision (furniture st) (vec3 0 2 0) = false ->
  checkFurnitureCollision (furniture (resetZoom st))
                          (camera_position (resetZoom st)) = false.
Proof. apply resetZoom_free. Qed.

(* ================================================================= *)
(** ** Emergency recovery *)

Lemma outsideBounds_at_centre (st : State) :
  camera_position st = vec3 0 2 0 -> outsideBounds st = false.
Proof.
  intro H. unfold outsideBounds. rewrite H.
  destruct (isZooming st); vm_compute; reflexivity.
Qed.

Lemma emergencyReset_at_rest (st : State) :
  atRestAtCentre (emergencyReset st).
Proof.
  assert (H : isZooming (if isZooming st then resetZoom st else st) = false).
  { destruct (isZooming st) eqn:E; [ reflexivity | exact E ]. }
  unfold emergencyReset. cbv zeta. revert H.
  generalize (if isZooming st then resetZoom st else st).
  intros st1 H. unfold atRestAtCentre.
  destruct (negb _); repeat split; exact H.
Qed.

(** X5.  The R key always recovers, in focus mode as well: after the two
    key-down listeners have run on KeyR the camera stands at the room
    centre (0,2,0) with zero velocity, no movement key is held, no focus
    session is open, and the bounds check of [animate] is satisfied. *)
Theorem X5_R_key_always_recovers (st : State) :
  atRestAtCentre (step st (KeyDown KeyR))
  /\ outsideBounds (step st (KeyDown KeyR)) = false.
Proof.
  assert (E : step st (KeyDown KeyR) = emergencyReset st).
  { cbn [step onKeyDownReset]. unfold onKeyDown.
    destruct (isZooming st); reflexivity. }
  rewrite E.
  pose proof (emergencyReset_at_rest st) as H.
  split; [ exact H | ].
  apply outsideBounds_at_centre. apply H.
Qed.

(* ================================================================= *)
(** ** What the functions of the script leave alone *)

(** No setter but [with_furniture] touches the furniture registry, and
    no function of the script calls that one. *)

Lemma furniture_with_camera_position (v : Vector3) (st : State) :
  furniture (with_camera_position v st) = furniture st.
Proof. reflexivity. Qed.

Lemma furniture_with_camera_quaternion (v : Quaternion) (st : State) :
  furniture (with_camera_quaternion v st) = furniture st.
Proof. reflexivity. Qed.

Lemma furniture_with_moveForward (v : bool) (st : State) :
  furniture (with_moveForward v st) = furniture st.
Proof. reflexivity. Qed.

Lemma furniture_with_moveBackward (v : bool) (st : State) :
  furniture (with_moveBackward v st) = furniture st.
Proof. reflexivity. Qed.

Lemma furniture_with_moveLeft (v : bool) (st : State) :
  furniture (with_moveLeft v st) = furniture st.
Proof. reflexivity. Qed.

Lemma furniture_with_moveRight (v : bool) (st : State) :
  furniture (with_moveRight v st) = furniture st.
Proof. reflexivity. Qed.

Lemma furniture_with_isJumping (v : bool) (st : State) :
  furniture (with_isJumping v st) = furniture st.
Proof. reflexivity. Qed.

Lemma furniture_with_jumpVelocity (v : Q) (st : State) :
  furniture (with_jumpVelocity v st) = furniture st.
Proof. reflexivity. Qed.

Lemma furniture_with_canJump (v : bool) (st : State) :
  furniture (with_canJump v st) = furniture st.
Proof. reflexivity. Qed.

Lemma furniture_with_prevTime (v : Q) (st : State) :
  furniture (with_prevTime v st) = furniture st.
Proof. reflexivity. Qed.

Lemma furniture_with_velocity (v : Vector3) (st : State) :
  furniture (with_velocity v st) = furniture st.
Proof. reflexivity. Qed.

Lemma furniture_with_direction (v : Vector3) (st : State) :
  furniture (with_direction v st) = furniture st.
Proof. reflexivity. Qed.

Lemma furniture_with_isZooming (v : bool) (st : State) :
  furniture (with_isZooming v st) = furniture st.
Proof. reflexivity. Qed.

Lemma furniture_with_artworks (v : list Artwork) (st : State) :
  furniture (with_artworks v st) = furniture st.
Proof. reflexivity. Qed.

Lemma furniture_with_originalCameraPosition (v : option Vector3) (st : State) :
  furniture (with_originalCameraPosition v st) = furniture st.
Proof. reflexivity. Qed.

Lemma furniture_with_originalCameraRotation (v : option Euler) (st : State) :
  furniture (with_originalCameraRotation v st) = furniture st.
Proof. reflexivity. Qed.

Lemma furniture_with_controls_isLocked (v : bool) (st : State) :
  furniture (with_controls_isLocked v st) = furniture st.
Proof. reflexivity. Qed.

Lemma furniture_with_lock_requests (v : list LockRequest) (st : State) :
  furniture (with_lock_requests v st) = furniture st.
Proof. reflexivity. Qed.

Lemma furniture_with_panel_title (v : option string) (st : State) :
  furniture (with_panel_title v st) = furniture st.
Proof. reflexivity. Qed.

Lemma furniture_with_panel_message (v : option string) (st : State) :
  furniture (with_panel_message v st) = furniture st.
Proof. reflexivity. Qed.

Lemma furniture_with_panel_display (v : Display) (st : State) :
  furniture (with_panel_display v st) = furniture st.
Proof. reflexivity. Qed.

Lemma furniture_controls_lock (st : State) :
  furniture (controls_lock st) = furniture st.
Proof. reflexivity. Qed.

Lemma furniture_controls_unlock (st : State) :
  furniture (controls_unlock st) = furniture st.
Proof. reflexivity. Qed.

Lemma furniture_controls_moveRight (distance : Q) (st : State) :
  furniture (controls_moveRight distance st) = furniture st.
Proof. reflexivity. Qed.

Lemma furniture_controls_moveForward (distance : Q) (st : State) :
  furniture (controls_moveForward distance st) = furniture st.
Proof. reflexivity. Qed.

Lemma furniture_if (c : bool) (a b : State) :
  furniture (if c then a else b) = if c then furniture a else furniture b.
Proof. destruct c; reflexivity. Qed.

Lemma furniture_with_camera_rotation (v : Euler) (st : State) :
  furniture (with_camera_rotation v st) = furniture st.
Proof. reflexivity. Qed.

Lemma furniture_with_camera_matrix (v : Quaternion) (st : State) :
  furniture (with_camera_matrix v st) = furniture st.
Proof. reflexivity. Qed.

Lemma furniture_updateMatrix (st : State) :
  furniture (updateMatrix st) = furniture st.
Proof. reflexivity. Qed.

Lemma furniture_set_quaternion (q : Quaternion) (st : State) :
  furniture (set_quaternion q st) = furniture st.
Proof. reflexivity. Qed.

Lemma furniture_set_rotation (e : Euler) (st : State) :
  furniture (set_rotation e st) = furniture st.
Proof. reflexivity. Qed.

Lemma furniture_camera_lookAt (target : Vector3) (st : State) :
  furniture (camera_lookAt target st) = furniture st.
Proof. reflexivity. Qed.

Lemma furniture_render (st : State) :
  furniture (render st) = furniture st.
Proof. reflexivity. Qed.

Create Rewrite HintDb scene.
#[local] Hint Rewrite
  furniture_with_camera_rotation furniture_with_camera_matrix
  furniture_updateMatrix furniture_set_quaternion
  furniture_set_rotation furniture_camera_lookAt furniture_render
  furniture_with_camera_position furniture_with_camera_quaternion
  furniture_with_moveForward furniture_with_moveBackward
  furniture_with_moveLeft furniture_with_moveRight
  furniture_with_isJumping furniture_with_jumpVelocity
  furniture_with_canJump furniture_with_prevTime
  furniture_with_velocity furniture_with_direction
  furniture_with_isZooming furniture_with_artworks
  furniture_with_originalCameraPosition
  furniture_with_originalCameraRotation
  furniture_with_controls_isLocked furniture_with_lock_requests
  furniture_with_panel_title furniture_with_panel_message
  furniture_with_panel_display furniture_controls_lock
  furniture_controls_unlock furniture_controls_moveRight
  furniture_controls_moveForward furniture_if
  @if_same : scene.

Ltac scene := cbv zeta; autorewrite with scene; try reflexivity.

(** The setters the movement block uses leave [movementFrame] alone. *)

Lemma movementFrame_with_camera_position (v : Vector3) (st : State) :
  movementFrame (with_camera_position v st) = movementFrame st.
Proof. reflexivity. Qed.

Lemma movementFrame_with_jumpVelocity (v : Q) (st : State) :
  movementFrame (with_jumpVelocity v st) = movementFrame st.
Proof. reflexivity. Qed.

Lemma movementFrame_with_isJumping (v : bool) (st : State) :
  movementFrame (with_isJumping v st) = movementFrame st.
Proof. reflexivity. Qed.

Lemma movementFrame_with_canJump (v : bool) (st : State) :
  movementFrame (with_canJump v st) = movementFrame st.
Proof. reflexivity. Qed.

Lemma movementFrame_with_direction (v : Vector3) (st : State) :
  movementFrame (with_direction v st) = movementFrame st.
Proof. reflexivity. Qed.

Lemma movementFrame_with_velocity (v : Vector3) (st : State) :
  movementFrame (with_velocity v st) = movementFrame st.
Proof. reflexivity. Qed.

Lemma movementFrame_with_prevTime (v : Q) (st : State) :
  movementFrame (with_prevTime v st) = movementFrame st.
Proof. reflexivity. Qed.

Lemma movementFrame_controls_moveRight (distance : Q) (st : State) :
  movementFrame (controls_moveRight distance st) = movementFrame st.
Proof. reflexivity. Qed.

Lemma movementFrame_controls_moveForward (distance : Q) (st : State) :
  movementFrame (controls_moveForward distance st) = movementFrame st.
Proof. reflexivity. Qed.

Lemma movementFrame_if (c : bool) (a b : State) :
  movementFrame (if c then a else b) = if c then movementFrame a else movementFrame b.
Proof. destruct c; reflexivity. Qed.

Create Rewrite HintDb frame.
#[local] Hint Rewrite
  movementFrame_with_camera_position movementFrame_with_jumpVelocity
  movementFrame_with_isJumping movementFrame_with_canJump
  movementFrame_with_direction movementFrame_with_velocity
  movementFrame_with_prevTime movementFrame_controls_moveRight
  movementFrame_controls_moveForward movementFrame_if
  @if_same : frame.

Ltac frame := cbv zeta; autorewrite with frame; try reflexivity.

(** The setters of the jump block leave [groundTrack] alone; the camera
    height is the one coordinate it writes. *)

Lemma groundTrack_with_jumpVelocity (v : Q) (st : State) :
  groundTrack (with_jumpVelocity v st) = groundTrack st.
Proof. reflexivity. Qed.

Lemma groundTrack_with_isJumping (v : bool) (st : State) :
  groundTrack (with_isJumping v st) = groundTrack st.
Proof. reflexivity. Qed.

Lemma groundTrack_with_canJump (v : bool) (st : State) :
  groundTrack (with_canJump v st) = groundTrack st.
Proof. reflexivity. Qed.

Lemma groundTrack_if (c : bool) (a b : State) :
  groundTrack (if c then a else b) = if c then groundTrack a else groundTrack b.
Proof. destruct c; reflexivity. Qed.

Create Rewrite HintDb ground.
#[local] Hint Rewrite
  groundTrack_with_jumpVelocity groundTrack_with_isJumping
  groundTrack_with_canJump groundTrack_if
  @if_same : ground.

Ltac ground := cbv zeta; autorewrite with ground; try reflexivity.

Lemma groundTrack_set_height (h : Q) (st : State) :
  groundTrack (with_camera_position (set_y (camera_position st) h) st)
  = groundTrack st.
Proof. reflexivity. Qed.

#[local] Hint Rewrite groundTrack_set_height : ground.

(** Reading the components back from an equation between frames. *)
Lemma movementFrame_furniture (a b : State) :
  movementFrame a = movementFrame b -> furniture a = furniture b.
Proof. unfold movementFrame. intro H. injection H. intros. assumption. Qed.

Lemma movementFrame_heldKeys (a b : State) :
  movementFrame a = movementFrame b -> heldKeys a = heldKeys b.
Proof.
  unfold movementFrame. intro H. injection H. intros.
  unfold heldKeys.
  repeat match goal with
  | E : ?f a = ?f b |- _ => rewrite E; clear E
  end.
  reflexivity.
Qed.

Lemma movementFrame_session (a b : State) :
  movementFrame a = movementFrame b ->
  isZooming a = isZooming b
  /\ originalCameraPosition a = originalCameraPosition b
  /\ originalCameraRotation a = originalCameraRotation b.
Proof.
  unfold movementFrame. intro H. injection H. intros.
  repeat split; assumption.
Qed.

Lemma movementFrame_jumpAndGravity (delta : Q) (st : State) :
  movementFrame (jumpAndGravity delta st) = movementFrame st.
Proof. unfold jumpAndGravity, land. frame. Qed.

Lemma groundTrack_jumpAndGravity (delta : Q) (st : State) :
  groundTrack (jumpAndGravity delta st) = groundTrack st.
Proof. unfold jumpAndGravity, land. ground. Qed.

Lemma movementFrame_setDirection (st : State) :
  movementFrame (setDirection st) = movementFrame st.
Proof. unfold setDirection. frame. Qed.

Lemma movementFrame_moveFreely (delta : Q) (st : State) :
  movementFrame (moveFreely delta st) = movementFrame st.
Proof. unfold moveFreely. frame. Qed.

Lemma movementFrame_slideAlong (delta : Q) (newPosition : Vector3)
  (st : State) :
  movementFrame (slideAlong delta newPosition st) = movementFrame st.
Proof. unfold slideAlong. frame. Qed.

Lemma movementFrame_moveStep (delta : Q) (st : State) :
  movementFrame (moveStep delta st) = movementFrame st.
Proof.
  unfold moveStep. cbv zeta.
  destruct (_ && _);
    [ rewrite movementFrame_moveFreely | rewrite movementFrame_slideAlong ];
    apply movementFrame_setDirection.
Qed.

Lemma movementFrame_movement (time : Q) (st : State) :
  movementFrame (movement time st) = movementFrame st.
Proof.
  unfold movement. cbv zeta.
  rewrite movementFrame_with_prevTime, movementFrame_moveStep,
    movementFrame_jumpAndGravity.
  frame.
Qed.


(* ================================================================= *)
(** ** The jump and gravity block *)

Lemma mul_0_l (a : Q) : 0 * a = 0.
Proof. destruct a. reflexivity. Qed.

Lemma mul_0_r (a : Q) : a * 0 = 0.
Proof.
  destruct a as [n d]. unfold Num.mul, Qmult. cbn [Qnum Qden].
  rewrite Z.mul_0_r. reflexivity.
Qed.

Lemma add_0_r (a : Q) : a + 0 == a.
Proof. qlra. Qed.

Lemma jumpAndGravity_landing (delta : Q) (st : State) :
  isJumping st = true ->
  (isJumping (jumpAndGravity delta st) = true
   /\ 2 < vy (camera_position (jumpAndGravity delta st)))
  \/ (isJumping (jumpAndGravity delta st) = false
      /\ canJump (jumpAndGravity delta st) = true
      /\ jumpVelocity (jumpAndGravity delta st) = 0
      /\ (vy (camera_position (jumpAndGravity delta st)) = 2
          \/ vy (camera_position (jumpAndGravity delta st)) = 3)).
Proof.
  intro J. unfold jumpAndGravity. rewrite J. cbv zeta.
  match goal with
  | |- context [if ?c then land 3 ?s else ?s] =>
      assert (Js : isJumping s = true) by exact J;
      revert Js; generalize s; intros t Jt
  end.
  match goal with
  | |- context [if ?c then land 3 t else t] => destruct c
  end.
  - right. cbn [negb andb]. cbv iota.
    split; [ | split; [ | split ] ]; try reflexivity.
    right. reflexivity.
  - cbn [negb andb]. cbv iota.
    destruct (leb (vy (camera_position t)) 2) eqn:L.
    + right. split; [ | split; [ | split ] ]; try reflexivity.
      left. reflexivity.
    + left. split; [ exact Jt | ]. apply leb_gt. exact L.
Qed.

Lemma jumpAndGravity_height (delta : Q) (st : State) :
  isJumping st = false ->
  vy (camera_position (jumpAndGravity delta st)) = vy (camera_position st).
Proof.
  intro J. unfold jumpAndGravity. rewrite J.
  repeat match goal with
  | |- context [if ?c then _ else _] => destruct c
  end; reflexivity.
Qed.

Lemma jumpAndGravity_floor (delta : Q) (st : State) :
  2 <= vy (camera_position st) ->
  2 <= vy (camera_position (jumpAndGravity delta st)).
Proof.
  intro H. destruct (isJumping st) eqn:J.
  - destruct (jumpAndGravity_landing delta st J)
      as [[_ G] | (_ & _ & _ & [E | E])].
    + lra.
    + rewrite E. lra.
    + rewrite E. lra.
  - rewrite jumpAndGravity_height by exact J. exact H.
Qed.

(** X6.  A jump ends only by landing.  Whatever the frame time, a camera
    that enters the jump block airborne leaves it either still airborne
    and strictly above eye height 2, or landed: [isJumping] cleared,
    [canJump] restored, [jumpVelocity] zero, and the height exactly 2
    (the floor) or exactly 3 (a bench top). *)
Theorem X6_jump_ends_only_by_landing (delta : Q) (st : State) :
  isJumping st = true ->
  let st' := jumpAndGravity delta st in
  (isJumping st' = true /\ 2 < vy (camera_position st'))
  \/ (isJumping st' = false /\ canJump st' = true
      /\ jumpVelocity st' = 0
      /\ (vy (camera_position st') = 2 \/ vy (camera_position st') = 3)).
Proof. intro J. exact (jumpAndGravity_landing delta st J). Qed.

(** X7.  The jump and gravity block writes the camera height and the
    jump state and nothing else: the horizontal position, the velocity,
    the direction, the key flags, the focus session, the pointer lock,
    the orientation, the panel and both registries come out as they went
    in. *)
Theorem X7_jump_block_is_vertical (delta : Q) (st : State) :
  groundTrack (jumpAndGravity delta st) = groundTrack st
  /\ movementFrame (jumpAndGravity delta st) = movementFrame st.
Proof.
  split;
    [ apply groundTrack_jumpAndGravity | apply movementFrame_jumpAndGravity ].
Qed.

(** X8.  The movement block of [animate] never writes the furniture or
    artwork registry, the focus session (flag and saved pose), the
    pointer lock or its requests, the camera orientation, the key flags
    or the artwork panel. *)
Theorem X8_movement_block_frame (time : Q) (st : State) :
  movementFrame (movement time st) = movementFrame st.
Proof. apply movementFrame_movement. Qed.

(* ================================================================= *)
(** ** Standing still *)

Lemma heldKeys_none (st : State) :
  heldKeys st = (false, false, false, false) ->
  moveForward st = false /\ moveBackward st = false
  /\ moveLeft st = false /\ moveRight st = false.
Proof. unfold heldKeys. intro H. inversion H. repeat split. Qed.

Lemma moveFreely_idle (delta : Q) (st : State) :
  heldKeys st = (false, false, false, false) ->
  velocity st = vec3 0 0 0 ->
  veq (camera_position (moveFreely delta st)) (camera_position st)
  /\ velocity (moveFreely delta st) = vec3 0 0 0.
Proof.
  intros K V. destruct (heldKeys_none st K) as (F & B & L & R).
  unfold moveFreely. cbv zeta. rewrite F, B. cbn [orb]. cbv iota.
  rewrite L, R. cbn [orb]. cbv iota.
  split; [ | exact V ].
  unfold controls_moveForward, controls_moveRight, addScaledVector, veq.
  cbv zeta.
  cbn [camera_position camera_quaternion velocity with_camera_position
       vx vy vz].
  rewrite V. cbn [vx vz]. change (- 0) with 0.
  rewrite !mul_0_l, !mul_0_r. repeat split; qlra.
Qed.

Lemma slideAlong_idle (delta : Q) (newPosition : Vector3) (st : State) :
  heldKeys st = (false, false, false, false) ->
  slideAlong delta newPosition st = st.
Proof.
  intro K. destruct (heldKeys_none st K) as (F & B & L & R).
  unfold slideAlong. cbv zeta. rewrite F, B. cbn [orb andb]. cbv iota.
  rewrite L, R. reflexivity.
Qed.

Lemma moveStep_idle (delta : Q) (st : State) :
  heldKeys st = (false, false, false, false) ->
  velocity st = vec3 0 0 0 ->
  veq (camera_position (moveStep delta st)) (camera_position st)
  /\ velocity (moveStep delta st) = vec3 0 0 0.
Proof.
  intros K V.
  assert (K1 : heldKeys (setDirection st) = (false, false, false, false))
    by exact K.
  assert (V1 : velocity (setDirection st) = vec3 0 0 0) by exact V.
  assert (P1 : camera_position (setDirection st) = camera_position st)
    by reflexivity.
  unfold moveStep. cbv zeta. rewrite <- P1.
  generalize dependent (setDirection st). intros s K1 V1 _.
  destruct (_ && _).
  - apply moveFreely_idle; assumption.
  - rewrite slideAlong_idle by exact K1.
    split; [ | exact V1 ]. repeat split; reflexivity.
Qed.

Lemma camera_position_with_prevTime (v : Q) (st : State) :
  camera_position (with_prevTime v st) = camera_position st.
Proof. reflexivity. Qed.

Lemma velocity_with_prevTime (v : Q) (st : State) :
  velocity (with_prevTime v st) = velocity st.
Proof. reflexivity. Qed.

Lemma movement_idle (time : Q) (st : State) :
  heldKeys st = (false, false, false, false) ->
  velocity st = vec3 0 0 0 ->
  vx (camera_position (movement time st)) == vx (camera_position st)
  /\ vz (camera_position (movement time st)) == vz (camera_position st)
  /\ velocity (movement time st) = vec3 0 0 0
  /\ (2 <= vy (camera_position st) ->
      2 <= vy (camera_position (movement time st))).
Proof.
  intros K V. unfold movement. cbv zeta.
  set (delta := (time - prevTime st) / 1000).
  match goal with
  | |- context [jumpAndGravity delta ?x] => set (s0 := x)
  end.
  assert (V0 : velocity s0 = vec3 0 0 0).
  { unfold s0, set_x, set_z. cbn [velocity with_velocity vx vy vz].
    rewrite V. cbn [vx vy vz]. rewrite !mul_0_l. reflexivity. }
  assert (G : groundTrack (jumpAndGravity delta s0)
              = (vx (camera_position st), vz (camera_position st),
                 vec3 0 0 0, direction st)).
  { rewrite groundTrack_jumpAndGravity. unfold groundTrack.
    rewrite V0. reflexivity. }
  assert (M : movementFrame (jumpAndGravity delta s0) = movementFrame st).
  { rewrite movementFrame_jumpAndGravity. reflexivity. }
  assert (Y : 2 <= vy (camera_position st) ->
              2 <= vy (camera_position (jumpAndGravity delta s0))).
  { intro H. apply jumpAndGravity_floor. exact H. }
  revert G M Y. generalize (jumpAndGravity delta s0). intros s G M Y.
  unfold groundTrack in G. injection G as Gx Gz Gv Gd.
  apply movementFrame_heldKeys in M. rewrite K in M. rename M into Mk.
  destruct (moveStep_idle delta s Mk Gv) as [(Ex & Ey & Ez) Ev].
  generalize dependent (moveStep delta s). intros s' Ex Ey Ez Ev.
  rewrite camera_position_with_prevTime, velocity_with_prevTime.
  rewrite <- Gx, <- Gz. repeat split; try assumption.
  intro H. rewrite Ey. apply Y. exact H.
Qed.


Lemma outsideBounds_near_centre (st : State) :
  vx (camera_position st) == 0 ->
  vz (camera_position st) == 0 ->
  2 <= vy (camera_position st) ->
  outsideBounds st = false.
Proof.
  intros Hx Hz Hy. unfold outsideBounds. cbv zeta.
  assert (Y : ltb (vy (camera_position st)) 0 = false)
    by (apply ltb_ge; lra).
  assert (X1 : ltb (vx (camera_position st)) (- ROOM_WIDTH / 2 - 5) = false)
    by (apply ltb_ge; unfold ROOM_WIDTH; qlra).
  assert (X2 : gtb (vx (camera_position st)) (ROOM_WIDTH / 2 + 5) = false)
    by (apply gtb_le; unfold ROOM_WIDTH; qlra).
  assert (Z1 : ltb (vz (camera_position st)) (- ROOM_LENGTH / 2 - 5) = false)
    by (apply ltb_ge; unfold ROOM_LENGTH; qlra).
  assert (Z2 : gtb (vz (camera_position st)) (ROOM_LENGTH / 2 + 5) = false)
    by (apply gtb_le; unfold ROOM_LENGTH; qlra).
  rewrite Y, X1, X2, Z1, Z2. destruct (isZooming st); reflexivity.
Qed.

Lemma animate_inside (time : Q) (st : State) :
  outsideBounds st = false ->
  animate time st = render (movement time st)
  \/ animate time st = render (with_prevTime time st)
  \/ animate time st = render st.
Proof.
  intro O. unfold animate. rewrite O. cbv zeta.
  destruct (_ && _); [ left; reflexivity | ].
  destruct (negb _); right; [ left | right ]; reflexivity.
Qed.

Lemma animate_outside (time : Q) (st : State) :
  outsideBounds st = true ->
  animate time st = render (movement time (emergencyReset st))
  \/ animate time st = render (with_prevTime time (emergencyReset st))
  \/ animate time st = render (emergencyReset st).
Proof.
  intro O. unfold animate. rewrite O. cbv zeta.
  generalize (emergencyReset st). intro s.
  destruct (_ && _); [ left; reflexivity | ].
  destruct (negb _); right; [ left | right ]; reflexivity.
Qed.

Lemma camera_position_render (st : State) :
  camera_position (render st) = camera_position st.
Proof. reflexivity. Qed.

Lemma velocity_render (st : State) : velocity (render st) = velocity st.
Proof. reflexivity. Qed.

Lemma heldKeys_render (st : State) : heldKeys (render st) = heldKeys st.
Proof. reflexivity. Qed.

Lemma heldKeys_movement (time : Q) (st : State) :
  heldKeys (movement time st) = heldKeys st.
Proof.
  apply movementFrame_heldKeys, movementFrame_movement.
Qed.

(** X9.  Standing still.  With no movement key held and the velocity at
    zero, a frame ([animate]) of a camera the bounds check accepts leaves
    the horizontal position where it was, whatever the frame time, the
    pointer lock, the focus flag, the orientation and the furniture; the
    velocity stays zero and no key becomes held, so the same holds of
    the next frame. *)
Theorem X9_no_drift_at_rest (time : Q) (st : State) :
  heldKeys st = (false, false, false, false) ->
  velocity st = vec3 0 0 0 ->
  outsideBounds st = false ->
  vx (camera_position (animate time st)) == vx (camera_position st)
  /\ vz (camera_position (animate time st)) == vz (camera_position st)
  /\ velocity (animate time st) = vec3 0 0 0
  /\ heldKeys (animate time st) = (false, false, false, false).
Proof.
  intros K V O.
  destruct (animate_inside time st O) as [E | [E | E]]; rewrite E;
    rewrite camera_position_render, velocity_render, heldKeys_render.
  - destruct (movement_idle time st K V) as (Hx & Hz & Hv & _).
    rewrite heldKeys_movement. repeat split; assumption.
  - repeat split; try assumption; reflexivity.
  - repeat split; try assumption; reflexivity.
Qed.

(** X10.  The bounds check never fires on two frames in a row.  A frame
    that starts outside the bounds ends with the camera on the vertical
    through the room centre, at eye height 2 or above, whatever keys
    were held and whatever the jump state and the frame time; the next
    frame's bounds check is then silent. *)
Theorem X10_bounds_check_fires_once (time : Q) (st : State) :
  outsideBounds st = true ->
  vx (camera_position (animate time st)) == 0
  /\ vz (camera_position (animate time st)) == 0
  /\ 2 <= vy (camera_position (animate time st))
  /\ outsideBounds (animate time st) = false.
Proof.
  intro O.
  destruct (emergencyReset_at_rest st)
    as (P & V & _ & F & B & L & R & _).
  assert (K : heldKeys (emergencyReset st) = (false, false, false, false)).
  { unfold heldKeys. rewrite F, B, L, R. reflexivity. }
  assert (H : vx (camera_position (animate time st)) == 0
              /\ vz (camera_position (animate time st)) == 0
              /\ 2 <= vy (camera_position (animate time st))).
  { destruct (animate_outside time st O) as [E | [E | E]]; rewrite E;
      rewrite camera_position_render.
    - destruct (movement_idle time _ K V) as (Hx & Hz & _ & Hy).
      rewrite P in Hx, Hz, Hy. cbn [vx vy vz] in Hx, Hz, Hy.
      repeat split; try assumption. apply Hy. lra.
    - rewrite camera_position_with_prevTime, P. cbn [vx vy vz].
      repeat split; lra.
    - rewrite P. cbn [vx vy vz]. repeat split; lra. }
  destruct H as (Hx & Hz & Hy).
  repeat split; try assumption.
  apply outsideBounds_near_centre; assumption.
Qed.


(* ================================================================= *)
(** ** The size of a loaded picture *)






(* ================================================================= *)
(** ** The registries over a whole run *)

Lemma furniture_zoomToArtwork (artwork : Artwork) (st : State) :
  furniture (zoomToArtwork artwork st) = furniture st.
Proof. unfold zoomToArtwork. destruct (isZooming st); reflexivity. Qed.

Lemma furniture_emergencyReset (st : State) :
  furniture (emergencyReset st) = furniture st.
Proof.
  assert (H : furniture (if isZooming st then resetZoom st else st)
              = furniture st).
  { destruct (isZooming st); [ apply furniture_resetZoom | reflexivity ]. }
  unfold emergencyReset. cbv zeta. revert H.
  generalize (if isZooming st then resetZoom st else st).
  intros st1 H. scene. exact H.
Qed.

Lemma furniture_onKeyDown (code : KeyCode) (st : State) :
  furniture (onKeyDown code st) = furniture st.
Proof.
  unfold onKeyDown.
  destruct (isZooming st); destruct code;
    try reflexivity; try apply furniture_resetZoom.
  - destruct (canJump st); reflexivity.
  - cbv zeta. destruct (findNearestArtwork _);
      [ rewrite furniture_zoomToArtwork | ]; reflexivity.
Qed.

Lemma furniture_movement (time : Q) (st : State) :
  furniture (movement time st) = furniture st.
Proof.
  apply movementFrame_furniture, movementFrame_movement.
Qed.

Lemma furniture_animate (time : Q) (st : State) :
  furniture (animate time st) = furniture st.
Proof.
  assert (H : furniture (if outsideBounds st then emergencyReset st else st)
              = furniture st).
  { destruct (outsideBounds st);
      [ apply furniture_emergencyReset | reflexivity ]. }
  unfold animate. cbv zeta. revert H.
  generalize (if outsideBounds st then emergencyReset st else st).
  intros st1 H. rewrite furniture_render.
  destruct (_ && _); [ rewrite furniture_movement; exact H | ].
  destruct (negb _); exact H.
Qed.

Lemma furniture_onMouseMove (movementX movementY : Q) (st : State) :
  furniture (onMouseMove movementX movementY st) = furniture st.
Proof. unfold onMouseMove. destruct (controls_isLocked st); reflexivity. Qed.

Lemma furniture_step (st : State) (ev : Event) :
  furniture (step st ev) = furniture st.
Proof.
  destruct ev as [code | code | | locked | index w h | time | mx my];
    cbn [step].
  - destruct code; cbn [onKeyDownReset];
      try rewrite furniture_emergencyReset; apply furniture_onKeyDown.
  - destruct code; reflexivity.
  - reflexivity.
  - reflexivity.
  - reflexivity.
  - apply furniture_animate.
  - apply furniture_onMouseMove.
Qed.

Lemma onTextureLoaded_appends
  (index : nat) (imageWidth imageHeight : Q) (artworks : list Artwork) :
  exists added : list Artwork,
    onTextureLoaded index imageWidth imageHeight artworks = artworks ++ added
    /\ (List.length added <= 1)%nat.
Proof.
  unfold onTextureLoaded.
  destruct (if geb (imageWidth / imageHeight) 1 then _ else _)
    as [artworkWidth artworkHeight].
  destruct (nth_error imagePaths index);
    [ | exists []; rewrite app_nil_r; split; [ reflexivity | cbn; lia ] ].
  destruct (nth_error artworkPositions index);
    [ | exists []; rewrite app_nil_r; split; [ reflexivity | cbn; lia ] ].
  destruct (nth_error artworkInfo index);
    [ | exists []; rewrite app_nil_r; split; [ reflexivity | cbn; lia ] ].
  eexists. split; [ reflexivity | cbn; lia ].
Qed.

(** One event appends at most one entry. *)
Lemma artworks_step_appends (st : State) (ev : Event) :
  exists added : list Artwork,
    artworks (step st ev) = artworks st ++ added
    /\ (List.length added <= 1)%nat.
Proof.
  assert (same : forall st' : State,
             artworks st' = artworks st ->
             exists added : list Artwork,
               artworks st' = artworks st ++ added
               /\ (List.length added <= 1)%nat).
  { intros st' E. exists []. rewrite app_nil_r.
    split; [ exact E | cbn; lia ]. }
  destruct ev as [code | code | | locked | index w h | time | mx my];
    cbn [step].
  - apply same. rewrite artworks_onKeyDownReset. apply artworks_onKeyDown.
  - apply same. apply artworks_onKeyUp.
  - apply same. reflexivity.
  - apply same. reflexivity.
  - cbn [artworks with_artworks]. apply onTextureLoaded_appends.
  - apply same. apply artworks_animate.
  - apply same. apply artworks_onMouseMove.
Qed.

Lemma furniture_run (events : list Event) (st : State) :
  furniture (run st events) = furniture st.
Proof.
  revert st. induction events as [ | ev events IH ]; intro st.
  - reflexivity.
  - cbn [run fold_left]. change (fold_left step events (step st ev))
      with (run (step st ev) events).
    rewrite IH. apply furniture_step.
Qed.

(** X12.  The registries over a whole run.  No event changes the
    furniture registry: the collision geometry of a session is the one
    [init] built.  The artwork registry only grows at its end: the
    entries present before a run are still there afterwards, unchanged
    and in the same places, and at most one entry is added per event. *)
Theorem X12_registries_over_a_run (st : State) (events : list Event) :
  furniture (run st events) = furniture st
  /\ exists added : list Artwork,
       artworks (run st events) = artworks st ++ added
       /\ (List.length added <= List.length events)%nat.
Proof.
  split; [ apply furniture_run | ].
  revert st. induction events as [ | ev events IH ]; intro st.
  - exists []. rewrite app_nil_r. split; [ reflexivity | cbn; lia ].
  - cbn [run fold_left]. change (fold_left step events (step st ev))
      with (run (step st ev) events).
    destruct (IH (step st ev)) as (added & A & L).
    destruct (artworks_step_appends st ev) as (first & A1 & L1).
    exists (first ++ added). rewrite A, A1, <- app_assoc.
    split; [ reflexivity | ].
    rewrite length_app. cbn [List.length]. lia.
Qed.

(* ================================================================= *)
(** ** The focus session and its saved pose *)

Lemma sessionConsistent_closed (st : State) :
  isZooming st = false ->
  originalCameraPosition st = None ->
  originalCameraRotation st = None ->
  sessionConsistent st.
Proof. intros A B C. right. repeat split; assumption. Qed.

Lemma sessionConsistent_resetZoom (st : State) :
  sessionConsistent (resetZoom st).
Proof. apply sessionConsistent_closed; reflexivity. Qed.

Lemma sessionConsistent_zoomToArtwork (artwork : Artwork) (st : State) :
  sessionConsistent st -> sessionConsistent (zoomToArtwork artwork st).
Proof.
  intro H. unfold zoomToArtwork. destruct (isZooming st) eqn:Hz.
  - exact H.
  - left. split; [ reflexivity | split; discriminate ].
Qed.

Lemma sessionConsistent_emergencyReset (st : State) :
  sessionConsistent st -> sessionConsistent (emergencyReset st).
Proof.
  intro H.
  assert (H1 : sessionConsistent (if isZooming st then resetZoom st else st)).
  { destruct (isZooming st);
      [ apply sessionConsistent_resetZoom | exact H ]. }
  unfold emergencyReset. cbv zeta. revert H1.
  generalize (if isZooming st then resetZoom st else st).
  intros st1 H1. destruct (negb _); exact H1.
Qed.

Lemma sessionConsistent_movement (time : Q) (st : State) :
  sessionConsistent st -> sessionConsistent (movement time st).
Proof.
  intro H.
  destruct (movementFrame_session _ _ (movementFrame_movement time st))
    as (Mz & Mp & Mr).
  unfold sessionConsistent. rewrite Mz, Mp, Mr. exact H.
Qed.

Lemma sessionConsistent_step (st : State) (ev : Event) :
  sessionConsistent st -> sessionConsistent (step st ev).
Proof.
  intro H.
  destruct ev as [code | code | | locked | i w h | time | mx my]; cbn [step].
  - assert (H1 : sessionConsistent (onKeyDown code st)).
    { unfold onKeyDown. destruct (isZooming st);
        destruct code; try exact H; try apply sessionConsistent_resetZoom.
      - destruct (canJump st); exact H.
      - cbv zeta. destruct (findNearestArtwork _);
          [ apply sessionConsistent_zoomToArtwork | ]; exact H. }
    destruct code; try exact H1.
    apply sessionConsistent_emergencyReset. exact H1.
  - destruct code; exact H.
  - exact H.
  - exact H.
  - exact H.
  - assert (H1 : sessionConsistent
                   (if outsideBounds st then emergencyReset st else st)).
    { destruct (outsideBounds st);
        [ apply sessionConsistent_emergencyReset | ]; exact H. }
    unfold animate. cbv zeta. revert H1.
    generalize (if outsideBounds st then emergencyReset st else st).
    intros st1 H1.
    assert (R : forall s : State,
               sessionConsistent s -> sessionConsistent (render s))
      by (intros s Hs; exact Hs).
    apply R.
    destruct (_ && _); [ apply sessionConsistent_movement; exact H1 | ].
    destruct (negb _); exact H1.
  - unfold onMouseMove. destruct (controls_isLocked st); exact H.
Qed.

(** X13.  The focus flag and the saved pose never disagree.  In every
    state the script reaches from [init], whatever the browser delivers,
    a camera pose is saved (position and orientation both) exactly while
    a focus session is open.  So a [resetZoom] started by a key press
    always finds a pose to go back to: its branch for a missing pose is
    dead code on every run. *)
Theorem X13_session_and_saved_pose_agree
  (random : nat -> Q) (now : Q) (events : list Event) :
  sessionConsistent (run (init_state random now) events).
Proof.
  assert (H : sessionConsistent (init_state random now))
    by (apply sessionConsistent_closed; reflexivity).
  revert H. generalize (init_state random now).
  induction events as [ | ev events IH ]; intros st H.
  - exact H.
  - cbn [run fold_left]. apply (IH (step st ev)).
    apply sessionConsistent_step. exact H.
Qed.


(* ================================================================= *)
(** ** The collision geometry of the museum *)

Lemma checkItem_decoration (position dimensions : Vector3)
  (r r' : option Q) (p : Vector3) :
  checkItem (mkItem decoration position dimensions r) p
  = checkItem (mkItem decoration position dimensions r') p.
Proof. reflexivity. Qed.

Lemma checkFurnitureCollision_cons (a a' : FurnitureItem)
  (rest rest' : list FurnitureItem) (p : Vector3) :
  checkItem a p = checkItem a' p ->
  checkFurnitureCollision rest p = checkFurnitureCollision rest' p ->
  checkFurnitureCollision (a :: rest) p
  = checkFurnitureCollision (a' :: rest') p.
Proof.
  intros Ha Hr. cbn [checkFurnitureCollision]. rewrite Ha, Hr. reflexivity.
Qed.

Lemma checkFurnitureCollision_app (before rest rest' : list FurnitureItem)
  (p : Vector3) :
  checkFurnitureCollision rest p = checkFurnitureCollision rest' p ->
  checkFurnitureCollision (before ++ rest) p
  = checkFurnitureCollision (before ++ rest') p.
Proof.
  intro H. induction before as [ | a before IH ]; [ exact H | ].
  cbn [app]. apply checkFurnitureCollision_cons; [ reflexivity | exact IH ].
Qed.

Lemma init_furniture_collision (random random' : nat -> Q) (p : Vector3) :
  checkFurnitureCollision (init_furniture random) p
  = checkFurnitureCollision (init_furniture random') p.
Proof.
  unfold init_furniture, createGiftBoxes, createGiftBox. cbv zeta.
  rewrite <- !app_assoc. cbn [app].
  apply checkFurnitureCollision_app.
  repeat (apply checkFurnitureCollision_cons;
          [ apply checkItem_decoration | ]).
  reflexivity.
Qed.

Lemma init_furniture_centre_free (random : nat -> Q) :
  checkFurnitureCollision (init_furniture random) (vec3 0 2 0) = false.
Proof.
  rewrite (init_furniture_collision random (fun _ => 0)).
  vm_compute. reflexivity.
Qed.

(** X14.  [Math.random()] has no part in the collision geometry.  Of
    the random values [init] draws, the rotations of the six gift boxes
    are the only ones that reach the furniture registry, and
    [checkFurnitureCollision] reads the rotation of benches only: two
    museums built from any two sequences of random values, at any two
    times, give the same verdict on every position. *)
Theorem X14_collisions_do_not_depend_on_random
  (random random' : nat -> Q) (now now' : Q) (p : Vector3) :
  checkFurnitureCollision (furniture (init_state random now)) p
  = checkFurnitureCollision (furniture (init_state random' now')) p.
Proof. apply init_furniture_collision. Qed.

(** X15.  In every state the script reaches from [init] the room centre
    (0,2,0) is free of furniture, so both recovery paths end in a
    position [checkFurnitureCollision] accepts: [resetZoom], wherever
    the saved pose was, and [emergencyReset]. *)
Theorem X15_recovery_positions_are_free
  (random : nat -> Q) (now : Q) (events : list Event) :
  let st := run (init_state random now) events in
  checkFurnitureCollision (furniture st) (vec3 0 2 0) = false
  /\ checkFurnitureCollision (furniture (resetZoom st))
                             (camera_position (resetZoom st)) = false
  /\ checkFurnitureCollision (furniture (emergencyReset st))
                             (camera_position (emergencyReset st)) = false.
Proof.
  cbv zeta.
  assert (C : checkFurnitureCollision
                (furniture (run (init_state random now) events))
                (vec3 0 2 0) = false).
  { rewrite furniture_run. apply init_furniture_centre_free. }
  split; [ exact C | split ].
  - apply resetZoom_free. exact C.
  - rewrite furniture_emergencyReset.
    destruct (emergencyReset_at_rest (run (init_state random now) events))
      as [P _].
    rewrite P. exact C.
Qed.

(* ================================================================= *)
(** ** The keys *)

Lemma run_app (st : State) (first second : list Event) :
  run st (first ++ second) = run (run st first) second.
Proof. apply fold_left_app. Qed.

(** X16.  The V key is a toggle that gives the camera back.  Pressed
    where [findNearestArtwork] selects an artwork and the camera stands
    at a valid place (inside the wall inset, at height 2 or more, free
    of furniture), it opens a focus session; after any frames, mouse
    movements, key releases, clicks, texture loads and other key
    presses, a second press of V, or Escape, ends the session with the
    camera position and the Euler angles of [camera.rotation] exactly
    as they were before the first press, and with [camera.quaternion]
    computed anew from those angles. *)
Theorem X16_V_key_gives_the_camera_back
  (st : State) (artwork : Artwork) (events : list Event) (exit : KeyCode) :
  isZooming st = false ->
  findNearestArtwork st = Some artwork ->
  strictlyInside (camera_position st) ->
  2 <= vy (camera_position st) ->
  checkFurnitureCollision (furniture st) (camera_position st) = false ->
  forallb keepsFocus events = true ->
  exit = KeyV \/ exit = Escape ->
  let st' := run st (KeyDown KeyV :: events ++ [KeyDown exit]) in
  camera_position st' = camera_position st
  /\ camera_rotation st' = camera_rotation st
  /\ camera_quaternion st'
     = setFromEuler (euler_x (camera_rotation st))
                    (euler_y (camera_rotation st))
                    (euler_z (camera_rotation st))
  /\ isZooming st' = false.
Proof.
  intros Hz Hnear Hin Hy Hfree Hk Hexit. cbv zeta.
  assert (E1 : step st (KeyDown KeyV)
               = zoomToArtwork artwork (updateMatrix st)).
  { cbn [step onKeyDownReset]. unfold onKeyDown. rewrite Hz. cbv zeta.
    change (findNearestArtwork (updateMatrix st))
      with (findNearestArtwork st).
    rewrite Hnear. reflexivity. }
  change (run st (KeyDown KeyV :: events ++ [KeyDown exit]))
    with (run (step st (KeyDown KeyV)) (events ++ [KeyDown exit])).
  rewrite E1, run_app.
  destruct (run_keeps_focus events (zoomToArtwork artwork (updateMatrix st))
              (isZooming_zoomToArtwork artwork (updateMatrix st))
              (outsideBounds_after_zoomToArtwork artwork (updateMatrix st)
                 Hz) Hk)
    as (Hmid & _).
  rewrite isZooming_zoomToArtwork in Hmid.
  pose proof (focus_round_trip_through_events artwork events
                (updateMatrix st) Hz Hin Hy Hfree Hk) as (Hp & Hr & Hq).
  change (camera_position (updateMatrix st)) with (camera_position st) in Hp.
  change (camera_rotation (updateMatrix st)) with (camera_rotation st)
    in Hr, Hq.
  revert Hmid Hp Hr Hq.
  generalize (run (zoomToArtwork artwork (updateMatrix st)) events).
  intros mid Hmid Hp Hr Hq.
  assert (E2 : run mid [KeyDown exit] = resetZoom mid).
  { cbn [run fold_left step]. unfold onKeyDown. rewrite Hmid.
    destruct Hexit as [-> | ->]; reflexivity. }
  rewrite E2.
  split; [ exact Hp | split; [ exact Hr | split; [ exact Hq | ] ] ].
  reflexivity.
Qed.

(** X17.  While a focus session is open the keyboard is muted: a
    key-down of anything but V, Escape or R (the movement keys and Space
    included) leaves the whole state as it is, so no walk and no jump
    can start under a focus session. *)
Theorem X17_focus_mutes_the_keyboard (st : State) (code : KeyCode) :
  isZooming st = true ->
  code <> KeyV -> code <> Escape -> code <> KeyR ->
  step st (KeyDown code) = st.
Proof.
  intros Hz HV HE HR. cbn [step]. unfold onKeyDown. rewrite Hz.
  destruct code; try reflexivity; exfalso;
    first [ apply HV; reflexivity | apply HE; reflexivity
          | apply HR; reflexivity ].
Qed.



(** X19.  What a focus session shows and asks of the browser.  Entering
    focus shows the panel with the title and the description of the
    artwork and asks once for the pointer to be released; leaving it
    hides the panel, keeps its text, and asks once for the pointer
    back.  The two requests are appended after those already made. *)
Theorem X19_focus_panel_and_pointer_requests
  (artwork : Artwork) (st : State) :
  isZooming st = false ->
  let entered := zoomToArtwork artwork st in
  let left := resetZoom entered in
  (panel_display entered = display_block
   /\ panel_title entered = title artwork
   /\ panel_message entered = description artwork
   /\ lock_requests entered = lock_requests st ++ [request_unlock])
  /\ (panel_display left = display_none
      /\ panel_title left = title artwork
      /\ panel_message left = description artwork
      /\ lock_requests left
         = lock_requests st ++ [request_unlock; request_lock]).
Proof.
  intro Hz. cbv zeta.
  assert (E : panel_display (zoomToArtwork artwork st) = display_block
              /\ panel_title (zoomToArtwork artwork st) = title artwork
              /\ panel_message (zoomToArtwork artwork st)
                 = description artwork
              /\ lock_requests (zoomToArtwork artwork st)
                 = lock_requests st ++ [request_unlock]
              /\ exists r, originalCameraRotation (zoomToArtwork artwork st)
                           = Some r).
  { unfold zoomToArtwork. rewrite Hz.
    repeat split. eexists. reflexivity. }
  revert E. generalize (zoomToArtwork artwork st).
  intros z (Ed & Et & Em & El & r & Er).
  split; [ repeat split; assumption | ].
  unfold resetZoom. cbv zeta.
  match goal with
  | |- context [with_camera_position ?v z] => generalize v
  end.
  intro v.
  change (originalCameraRotation (with_camera_position v z))
    with (originalCameraRotation z).
  rewrite Er. unfold set_rotation. cbv zeta.
  cbn [panel_display panel_title panel_message lock_requests
       with_originalCameraRotation with_originalCameraPosition
       with_panel_display controls_lock with_lock_requests with_isZooming
       with_camera_quaternion with_camera_rotation with_camera_position].
  rewrite Et, Em, El, <- app_assoc. repeat split.
Qed.


(** X20.  Which artwork the V key selects does not depend on the order
    in which the textures finished loading: when one candidate scores
    strictly above every other, [findNearestArtwork] returns it from
    the registry as it is and from any rearrangement of it. *)
Theorem X20_selection_ignores_load_order
  (st : State) (rearranged : list Artwork) (best : Artwork) :
  let position := camera_position st in
  let forward := getWorldDirection (camera_quaternion st) in
  (forall a, In a (artworks st) <-> In a rearranged) ->
  In best (artworks st) ->
  spec_candidate position forward best ->
  (forall a, In a (artworks st) -> spec_candidate position forward a ->
             a = best
             \/ spec_score position forward a
                < spec_score position forward best) ->
  findNearestArtwork st = Some best
  /\ findNearestArtwork (with_artworks rearranged st) = Some best.
Proof.
  cbv zeta. intros Hperm Hin Hbest Huniq. split.
  - assert (E : with_artworks (artworks st) st = st)
      by (destruct st; reflexivity).
    rewrite <- E at 1.
    apply (findNearestArtwork_order_independent st (artworks st) best);
      try assumption.
    intro a. split; intro H; exact H.
  - apply (findNearestArtwork_order_independent st rearranged best);
      assumption.
Qed.

End Museum.

(* ================================================================= *)
(** * The embedding on concrete inputs *)

(** Closed comparisons of rationals. *)
Ltac qdecide :=
  vm_compute;
  first [ reflexivity | discriminate | intro; discriminate ].

(** C1.  The movement step of [animate] commits a position that
    [checkFurnitureCollision] rejects at the height of that tick.  In the
    freshly built museum with the camera never turned, the pointer is
    locked and W is held; after eight frames the camera stands at
    (0, 2, -6), free of furniture.  The next frame comes 100 ms later:
    the candidate position (0, 2, -11) it tests is free, and the camera
    is moved to (0, 2, -6.5), inside the blocked zone of the bench at
    (0, -7.5). *)
Theorem C1_animate_commits_blocked_position :
  let before :=
    run sample_sqrt sample_acos sample_setFromEuler sample_lookAt
        sample_setFromQuaternion sample_turn
        museum walk_towards_bench in
  let after := animate sample_sqrt sample_setFromEuler 1300 before in
  (veqb (camera_position before) (vec3 0 2 (-6)) = true
   /\ checkFurnitureCollision (furniture before) (camera_position before)
      = false)
  /\ (veqb (camera_position after) (vec3 0 2 (-6.5)) = true
      /\ hasWallCollision (camera_position after) = false
      /\ checkFurnitureCollision (furniture after) (camera_position after)
         = true).
Proof. vm_compute. repeat split. Qed.

(** The same defect at any frame rate once the camera is turned: the
    candidate is taken along the world axes, the move along the camera's.
    Looking down the positive z axis and walking forward, the candidate
    lies behind the camera and is free, and the camera steps into the
    blocked zone of the bench at (0, 7.5) in front of it. *)
Lemma animate_tests_behind_a_turned_camera :
  let after := animate sample_sqrt sample_setFromEuler (50 / 3) facing_front_bench in
  checkFurnitureCollision (furniture facing_front_bench)
                          (camera_position facing_front_bench) = false
  /\ ltb (vz (camera_position facing_front_bench))
         (vz (camera_position after)) = true
  /\ checkFurnitureCollision (furniture after) (camera_position after) = true.
Proof. vm_compute. repeat split. Qed.

(** And the wall inset is crossed the same way: the candidate behind the
    camera is inside the inset, the step forward ends beyond it. *)
Lemma animate_walks_past_the_wall_inset :
  let after := animate sample_sqrt sample_setFromEuler (50 / 3) facing_front_wall in
  hasWallCollision (camera_position facing_front_wall) = false
  /\ hasWallCollision (camera_position after) = true
  /\ gtb (vz (camera_position after)) (ROOM_LENGTH / 2 - 1) = true.
Proof. vm_compute. repeat split. Qed.




Lemma C5_witness :
  let position := camera_position gallery in
  let forward := getWorldDirection sample_sqrt (camera_quaternion gallery) in
  let candidate := spec_candidate sample_sqrt sample_acos position forward in
  let score := spec_score sample_sqrt sample_acos position forward in
  findNearestArtwork sample_sqrt sample_acos gallery = Some artwork_img8
  /\ (exists before after : list Artwork,
         artworks gallery = before ++ artwork_img8 :: after
         /\ candidate artwork_img8
         /\ (forall a, In a before -> candidate a -> score a < score artwork_img8)
         /\ (forall a, In a after -> candidate a -> score a <= score artwork_img8))
  /\ (candidate artwork_img9 /\ candidate artwork_img8
      /\ score artwork_img9 < score artwork_img8)
  /\ findNearestArtwork sample_sqrt sample_acos
       (with_artworks [artwork_img9; artwork_img8] gallery)
     = Some artwork_img8
  /\ findNearestArtwork sample_sqrt sample_acos
       (with_artworks [artwork_img8; artwork_img9] gallery)
     = Some artwork_img8.
Proof.
  cbv zeta.
  destruct (C5_findNearestArtwork_first_maximum sample_sqrt sample_acos gallery)
    as [Hbest [_ Horder]].
  assert (E : findNearestArtwork sample_sqrt sample_acos gallery
              = Some artwork_img8) by (vm_compute; reflexivity).
  assert (Hc9 : spec_candidate sample_sqrt sample_acos (camera_position gallery)
                 (getWorldDirection sample_sqrt (camera_quaternion gallery))
                 artwork_img9).
  { split; [ split; discriminate | split; apply Qlt_not_le; qdecide ]. }
  assert (Hc8 : spec_candidate sample_sqrt sample_acos (camera_position gallery)
                 (getWorldDirection sample_sqrt (camera_quaternion gallery))
                 artwork_img8).
  { split; [ split; discriminate | split; apply Qlt_not_le; qdecide ]. }
  assert (L : spec_score sample_sqrt sample_acos (camera_position gallery)
                (getWorldDirection sample_sqrt (camera_quaternion gallery))
                artwork_img9
              < spec_score sample_sqrt sample_acos (camera_position gallery)
                  (getWorldDirection sample_sqrt (camera_quaternion gallery))
                  artwork_img8) by qdecide.
  split; [ exact E | ].
  split; [ exact (Hbest artwork_img8 E) | ].
  split; [ split; [ exact Hc9 | split; [ exact Hc8 | exact L ] ] | ].
  exact (Horder artwork_img9 artwork_img8 Hc9 Hc8 L).
Defined.

(** C6, the claim as written fails in the museum.  The third balloon
    group stands on the spot of the front bench, which precedes it in
    the registry: over the bench, at height 3, the position overlaps the
    balloon group and [checkFurnitureCollision] answers "free"; at
    height 2 it answers "blocked".  The answer on a position that a
    non-bench item overlaps depends on the height. *)
Lemma C6_counterexample :
  In front_balloons (furniture museum)
  /\ item_type front_balloons <> bench
  /\ horizontalOverlap front_balloons (vec3 0 3 (ROOM_LENGTH / 4))
  /\ checkFurnitureCollision (furniture museum) (vec3 0 3 (ROOM_LENGTH / 4))
     = false
  /\ checkFurnitureCollision (furniture museum) (vec3 0 2 (ROOM_LENGTH / 4))
     = true.
Proof.
  split; [ do 8 right; left; reflexivity | ].
  split; [ discriminate | ].
  split; [ split; vm_compute; reflexivity | ].
  split; vm_compute; reflexivity.
Qed.

(** C6 in the museum: the first balloon group, which no bench overlaps,
    blocks the position over it at every height. *)
Lemma C6_witness :
  let p := vec3 (- ROOM_WIDTH / 4) 5 (- ROOM_LENGTH / 4) in
  let before := firstn 6 (furniture museum) in
  let rest := skipn 7 (furniture museum) in
  (item_type side_balloons <> bench
   /\ before ++ side_balloons :: rest = furniture museum
   /\ (forall b, In b before -> item_type b = bench ->
                 overlapb b p = false)
   /\ horizontalOverlap side_balloons p)
  /\ (checkItem side_balloons p = Some true
      <-> horizontalOverlap side_balloons p)
  /\ (checkFurnitureCollision [side_balloons] p = true
      <-> horizontalOverlap side_balloons p)
  /\ (forall h : Q,
        checkItem side_balloons (set_y p h) = checkItem side_balloons p
        /\ checkFurnitureCollision [side_balloons] (set_y p h)
           = checkFurnitureCollision [side_balloons] p)
  /\ (forall h : Q,
        checkFurnitureCollision (furniture museum) (set_y p h) = true).
Proof.
  cbv zeta.
  assert (H : item_type side_balloons <> bench) by discriminate.
  assert (E : firstn 6 (furniture museum)
              ++ side_balloons :: skipn 7 (furniture museum)
              = furniture museum) by (vm_compute; reflexivity).
  assert (B : forall b,
             In b (firstn 6 (furniture museum)) ->
             item_type b = bench ->
             overlapb b (vec3 (- ROOM_WIDTH / 4) 5 (- ROOM_LENGTH / 4))
             = false).
  { intros b Hin _. vm_compute in Hin.
    repeat (destruct Hin as [<- | Hin]; [ vm_compute; reflexivity | ]).
    destruct Hin. }
  assert (O : horizontalOverlap side_balloons
                (vec3 (- ROOM_WIDTH / 4) 5 (- ROOM_LENGTH / 4)))
    by (split; vm_compute; reflexivity).
  destruct (C6_non_bench_blocks_iff_overlap side_balloons
              (vec3 (- ROOM_WIDTH / 4) 5 (- ROOM_LENGTH / 4)) H)
    as (C1 & C2 & C3 & C4 & _).
  split; [ exact (conj H (conj E (conj B O))) | ].
  split; [ exact C1 | split; [ exact C2 | split; [ exact C3 | ] ] ].
  intro h. rewrite <- E.
  exact (C4 (firstn 6 (furniture museum)) (skipn 7 (furniture museum))
            B O h).
Defined.

Lemma C7_witness :
  let st := zoomToArtwork sample_lookAt sample_setFromQuaternion artwork_img8 museum in
  isZooming st = true
  /\ zoomToArtwork sample_lookAt sample_setFromQuaternion artwork_img9 st = st.
Proof.
  cbv zeta.
  assert (H : isZooming (zoomToArtwork sample_lookAt sample_setFromQuaternion artwork_img8 museum)
              = true) by reflexivity.
  split; [ exact H | ].
  exact (C7_zoomToArtwork_while_focused sample_lookAt
           sample_setFromQuaternion artwork_img9 _ H).
Defined.

(** C8, the claim as written fails: with no focus session and the camera
    at (5, 2, 5), [resetZoom] moves the camera to (0, 2, 0). *)
Lemma C8_counterexample :
  isZooming off_centre = false
  /\ originalCameraPosition off_centre = None
  /\ originalCameraRotation off_centre = None
  /\ camera_position off_centre = vec3 5 2 5
  /\ camera_position (resetZoom sample_sqrt sample_setFromEuler off_centre) = vec3 0 2 0
  /\ ~ veq (camera_position (resetZoom sample_sqrt sample_setFromEuler off_centre))
           (camera_position off_centre).
Proof.
  repeat split. intros [H _]. vm_compute in H. discriminate H.
Qed.

Lemma C8_witness :
  (isZooming off_centre = false
   /\ originalCameraPosition off_centre = None
   /\ originalCameraRotation off_centre = None)
  /\ (camera_quaternion (resetZoom sample_sqrt sample_setFromEuler off_centre)
      = camera_quaternion off_centre
      /\ camera_position (resetZoom sample_sqrt sample_setFromEuler off_centre) = vec3 0 2 0
      /\ onKeyDown sample_sqrt sample_acos sample_setFromEuler sample_lookAt
           sample_setFromQuaternion Escape off_centre
         = off_centre).
Proof.
  split; [ repeat split | ].
  exact (C8_resetZoom_without_session sample_sqrt sample_acos
           sample_setFromEuler sample_lookAt sample_setFromQuaternion
           off_centre eq_refl eq_refl eq_refl).
Defined.

(** C9, the claim as written fails: when [Math.random()] returns 1/2 the
    first gift box enters the registry with the rotation pi/4, an eighth
    of a turn, which is in neither orientation class; and the corner
    planter enters it with no rotation at all. *)
Lemma C9_counterexample :
  (In tilted_gift_box (furniture museum)
   /\ ~ inOrientationClass tilted_gift_box)
  /\ (In corner_planter (furniture museum)
      /\ ~ inOrientationClass corner_planter).
Proof.
  split; split.
  - do 11 right. left. reflexivity.
  - exact quarterTurns_half.
  - left. reflexivity.
  - intros [].
Qed.

(** C9 on a bench that is turned: the extents are exchanged, which
    shows at (0.5, 1, 1.5), inside the turned bench and outside the
    bench not turned; and on the museum's registry with every draw
    1/2. *)
Lemma C9_witness :
  let p := vec3 0.5 1 1.5 in
  asAxisAligned bench_quarter_turned
  = mkItem bench (vec3 0 0 0) (vec3 1.5 1 4) (Some 0)
  /\ checkItem bench_quarter_turned p = Some true
  /\ checkItem bench_at_origin p = None
  /\ (checkItem bench_quarter_turned p
      = checkItem (asAxisAligned bench_quarter_turned) p
      /\ overBench bench_quarter_turned p
         = overBench (asAxisAligned bench_quarter_turned) p)
  /\ (In back_bench (init_furniture (fun _ => 1 # 2))
      /\ item_type back_bench = bench
      /\ item_rotation back_bench = Some 0)
  /\ (0 <= 1 # 2 /\ 1 # 2 < 1
      /\ ~ quarterTurns ((1 # 2) * Math_PI / 2))
  /\ (item_type corner_planter <> bench
      /\ checkItem (mkItem (item_type corner_planter)
                           (item_position corner_planter)
                           (item_dimensions corner_planter)
                           (Some (Math_PI / 2))) p
         = checkItem corner_planter p
      /\ overBench (mkItem (item_type corner_planter)
                           (item_position corner_planter)
                           (item_dimensions corner_planter)
                           (Some (Math_PI / 2))) p
         = overBench corner_planter p).
Proof.
  cbv zeta.
  destruct (C9_rotation_only_swaps_bench_extents (fun _ => 1 # 2))
    as (_ & Hbench & Hdraw & Hswap & Hother).
  assert (Hin : In back_bench (init_furniture (fun _ => 1 # 2)))
    by (do 4 right; left; reflexivity).
  assert (Hp : item_type corner_planter <> bench) by discriminate.
  assert (H0 : 0 <= 1 # 2) by discriminate.
  assert (H1 : 1 # 2 < 1) by reflexivity.
  split; [ vm_compute; reflexivity | ].
  split; [ vm_compute; reflexivity | ].
  split; [ vm_compute; reflexivity | ].
  split; [ exact (Hswap bench_quarter_turned (vec3 0.5 1 1.5)) | ].
  split; [ exact (conj Hin (conj eq_refl (Hbench back_bench Hin eq_refl)))
         | ].
  split.
  - split; [ exact H0 | split; [ exact H1 | ] ].
    intro Hq. apply (Hdraw (1 # 2) H0 H1) in Hq. discriminate Hq.
  - split; [ exact Hp | ].
    exact (Hother corner_planter (Some (Math_PI / 2)) (vec3 0.5 1 1.5) Hp).
Defined.

Lemma X2_witness :
  let p := vec3 0 3 (ROOM_LENGTH / 4) in
  let before := firstn 5 (furniture museum) in
  let rest := skipn 6 (furniture museum) in
  ((forall item, In item before -> overlapb item p = false)
   /\ item_type front_bench = bench
   /\ overlapb front_bench p = true
   /\ 2 < vy p)
  /\ In front_balloons rest
  /\ checkFurnitureCollision [front_balloons] p = true
  /\ checkFurnitureCollision (before ++ front_bench :: rest) p = false.
Proof.
  cbv zeta.
  assert (H1 : forall item,
             In item (firstn 5 (furniture museum)) ->
             overlapb item (vec3 0 3 (ROOM_LENGTH / 4)) = false).
  { intros item H. cbn [firstn furniture museum init_state] in H.
    vm_compute in H.
    repeat (destruct H as [<- | H]; [ vm_compute; reflexivity | ]).
    destruct H. }
  assert (H2 : item_type front_bench = bench) by reflexivity.
  assert (H3 : overlapb front_bench (vec3 0 3 (ROOM_LENGTH / 4)) = true)
    by (vm_compute; reflexivity).
  assert (H4 : 2 < vy (vec3 0 3 (ROOM_LENGTH / 4))) by qdecide.
  split; [ split; [ exact H1 | split; [ exact H2 | split;
    [ exact H3 | exact H4 ] ] ] | ].
  split; [ do 2 right; left; reflexivity | ].
  split; [ vm_compute; reflexivity | ].
  exact (X2_bench_above_two_hides_later_items
           (firstn 5 (furniture museum)) (skipn 6 (furniture museum))
           front_bench (vec3 0 3 (ROOM_LENGTH / 4)) H1 H2 H3 H4).
Defined.

Lemma X4_witness :
  checkFurnitureCollision (furniture saved_inside_bench) (vec3 0 2 0) = false
  /\ checkFurnitureCollision
       (furniture (resetZoom sample_sqrt sample_setFromEuler saved_inside_bench))
       (camera_position (resetZoom sample_sqrt sample_setFromEuler saved_inside_bench))
     = false.
Proof.
  assert (H : checkFurnitureCollision (furniture saved_inside_bench)
                                      (vec3 0 2 0) = false)
    by (vm_compute; reflexivity).
  split; [ exact H | ].
  exact (X4_resetZoom_never_leaves_a_collision sample_sqrt
           sample_setFromEuler
           saved_inside_bench H).
Defined.

Lemma X6_witness :
  isJumping lost_outside = true
  /\ (let st' := jumpAndGravity (2 # 125) lost_outside in
      (isJumping st' = true /\ 2 < vy (camera_position st'))
      \/ (isJumping st' = false /\ canJump st' = true
          /\ jumpVelocity st' = 0
          /\ (vy (camera_position st') = 2
              \/ vy (camera_position st') = 3))).
Proof.
  assert (H : isJumping lost_outside = true) by reflexivity.
  split; [ exact H | ].
  exact (X6_jump_ends_only_by_landing (2 # 125) lost_outside H).
Defined.

Lemma X9_witness :
  let st := with_controls_isLocked true museum in
  (heldKeys st = (false, false, false, false)
   /\ velocity st = vec3 0 0 0
   /\ outsideBounds st = false)
  /\ (vx (camera_position (animate sample_sqrt sample_setFromEuler 16 st))
      == vx (camera_position st)
      /\ vz (camera_position (animate sample_sqrt sample_setFromEuler 16 st))
         == vz (camera_position st)
      /\ velocity (animate sample_sqrt sample_setFromEuler 16 st) = vec3 0 0 0
      /\ heldKeys (animate sample_sqrt sample_setFromEuler 16 st) = (false, false, false, false)).
Proof.
  cbv zeta.
  assert (H1 : heldKeys (with_controls_isLocked true museum)
               = (false, false, false, false)) by reflexivity.
  assert (H2 : velocity (with_controls_isLocked true museum) = vec3 0 0 0)
    by reflexivity.
  assert (H3 : outsideBounds (with_controls_isLocked true museum) = false)
    by (vm_compute; reflexivity).
  split; [ split; [ exact H1 | split; [ exact H2 | exact H3 ] ] | ].
  exact (X9_no_drift_at_rest sample_sqrt sample_setFromEuler 16
           (with_controls_isLocked true museum) H1 H2 H3).
Defined.

Lemma X10_witness :
  outsideBounds lost_outside = true
  /\ (vx (camera_position (animate sample_sqrt sample_setFromEuler 16 lost_outside)) == 0
      /\ vz (camera_position (animate sample_sqrt sample_setFromEuler 16 lost_outside)) == 0
      /\ 2 <= vy (camera_position (animate sample_sqrt sample_setFromEuler 16 lost_outside))
      /\ outsideBounds (animate sample_sqrt sample_setFromEuler 16 lost_outside) = false).
Proof.
  assert (H : outsideBounds lost_outside = true) by (vm_compute; reflexivity).
  split; [ exact H | ].
  exact (X10_bounds_check_fires_once sample_sqrt sample_setFromEuler 16 lost_outside H).
Defined.


Lemma X16_witness :
  let events :=
    [ Frame 16; MouseMove 40 0; KeyDown KeyW; KeyUp KeyW; Click;
      Frame 32 ] in
  let st' :=
    run sample_sqrt sample_acos sample_setFromEuler sample_lookAt
        sample_setFromQuaternion sample_turn gallery
        (KeyDown KeyV :: events ++ [KeyDown Escape]) in
  (isZooming gallery = false
   /\ findNearestArtwork sample_sqrt sample_acos gallery = Some artwork_img8
   /\ strictlyInside (camera_position gallery)
   /\ 2 <= vy (camera_position gallery)
   /\ checkFurnitureCollision (furniture gallery) (camera_position gallery)
      = false
   /\ forallb keepsFocus events = true
   /\ (Escape = KeyV \/ Escape = Escape))
  /\ (camera_position st' = camera_position gallery
      /\ camera_rotation st' = camera_rotation gallery
      /\ camera_quaternion st'
         = sample_setFromEuler (euler_x (camera_rotation gallery))
                               (euler_y (camera_rotation gallery))
                               (euler_z (camera_rotation gallery))
      /\ isZooming st' = false).
Proof.
  cbv zeta.
  assert (H1 : isZooming gallery = false) by reflexivity.
  assert (H2 : findNearestArtwork sample_sqrt sample_acos gallery
               = Some artwork_img8) by (vm_compute; reflexivity).
  assert (H3 : strictlyInside (camera_position gallery))
    by (split; split; qdecide).
  assert (H4 : 2 <= vy (camera_position gallery)) by qdecide.
  assert (H5 : checkFurnitureCollision (furniture gallery)
                                      (camera_position gallery) = false)
    by (vm_compute; reflexivity).
  assert (H6 : forallb keepsFocus
                 [ Frame 16; MouseMove 40 0; KeyDown KeyW; KeyUp KeyW;
                   Click; Frame 32 ]
               = true) by reflexivity.
  assert (H7 : Escape = KeyV \/ Escape = Escape) by (right; reflexivity).
  split; [ exact (conj H1 (conj H2 (conj H3 (conj H4 (conj H5
                  (conj H6 H7)))))) | ].
  exact (X16_V_key_gives_the_camera_back sample_sqrt sample_acos
           sample_setFromEuler sample_lookAt sample_setFromQuaternion
           sample_turn gallery artwork_img8
           [ Frame 16; MouseMove 40 0; KeyDown KeyW; KeyUp KeyW; Click;
             Frame 32 ] Escape
           H1 H2 H3 H4 H5 H6 H7).
Defined.

Lemma X17_witness :
  let st := zoomToArtwork sample_lookAt sample_setFromQuaternion artwork_img8 museum in
  (isZooming st = true
   /\ KeyW <> KeyV /\ KeyW <> Escape /\ KeyW <> KeyR)
  /\ step sample_sqrt sample_acos sample_setFromEuler sample_lookAt
          sample_setFromQuaternion sample_turn
          st (KeyDown KeyW) = st.
Proof.
  cbv zeta.
  assert (H1 : isZooming (zoomToArtwork sample_lookAt sample_setFromQuaternion artwork_img8 museum)
               = true) by reflexivity.
  assert (H2 : KeyW <> KeyV) by discriminate.
  assert (H3 : KeyW <> Escape) by discriminate.
  assert (H4 : KeyW <> KeyR) by discriminate.
  split; [ split; [ exact H1 | split; [ exact H2 | split;
    [ exact H3 | exact H4 ] ] ] | ].
  exact (X17_focus_mutes_the_keyboard sample_sqrt sample_acos
           sample_setFromEuler sample_lookAt sample_setFromQuaternion
           sample_turn _ KeyW H1 H2 H3 H4).
Defined.


Lemma X19_witness :
  isZooming gallery = false
  /\ (let entered := zoomToArtwork sample_lookAt sample_setFromQuaternion artwork_img8 gallery in
      let left := resetZoom sample_sqrt sample_setFromEuler entered in
      (panel_display entered = display_block
       /\ panel_title entered = title artwork_img8
       /\ panel_message entered = description artwork_img8
       /\ lock_requests entered = lock_requests gallery ++ [request_unlock])
      /\ (panel_display left = display_none
          /\ panel_title left = title artwork_img8
          /\ panel_message left = description artwork_img8
          /\ lock_requests left
             = lock_requests gallery ++ [request_unlock; request_lock])).
Proof.
  split; [ reflexivity | ].
  exact (X19_focus_panel_and_pointer_requests sample_sqrt
           sample_setFromEuler sample_lookAt sample_setFromQuaternion
           artwork_img8 gallery eq_refl).
Defined.

Lemma X20_witness :
  let position := camera_position gallery in
  let forward := getWorldDirection sample_sqrt (camera_quaternion gallery) in
  let candidate := spec_candidate sample_sqrt sample_acos position forward in
  let score := spec_score sample_sqrt sample_acos position forward in
  ((forall a, In a (artworks gallery) <-> In a [artwork_img9; artwork_img8])
   /\ In artwork_img8 (artworks gallery)
   /\ candidate artwork_img8
   /\ (forall a, In a (artworks gallery) -> candidate a ->
                 a = artwork_img8 \/ score a < score artwork_img8))
  /\ (findNearestArtwork sample_sqrt sample_acos gallery = Some artwork_img8
      /\ findNearestArtwork sample_sqrt sample_acos
           (with_artworks [artwork_img9; artwork_img8] gallery)
         = Some artwork_img8).
Proof.
  cbv zeta.
  assert (H1 : forall a, In a (artworks gallery)
                         <-> In a [artwork_img9; artwork_img8]).
  { intro a. change (artworks gallery) with [artwork_img8; artwork_img9].
    split; (intros [H | [H | []]]; [ right; left | left ]; exact H). }
  assert (H2 : In artwork_img8 (artworks gallery)) by (left; reflexivity).
  assert (H3 : spec_candidate sample_sqrt sample_acos
                 (camera_position gallery)
                 (getWorldDirection sample_sqrt (camera_quaternion gallery))
                 artwork_img8).
  { split; [ split; discriminate | split; apply Qlt_not_le; qdecide ]. }
  assert (H4 : forall a, In a (artworks gallery) ->
                 spec_candidate sample_sqrt sample_acos
                   (camera_position gallery)
                   (getWorldDirection sample_sqrt (camera_quaternion gallery))
                   a ->
                 a = artwork_img8
                 \/ spec_score sample_sqrt sample_acos
                      (camera_position gallery)
                      (getWorldDirection sample_sqrt
                         (camera_quaternion gallery)) a
                    < spec_score sample_sqrt sample_acos
                        (camera_position gallery)
                        (getWorldDirection sample_sqrt
                           (camera_quaternion gallery)) artwork_img8).
  { intros a Ha _. change (artworks gallery)
      with [artwork_img8; artwork_img9] in Ha.
    destruct Ha as [<- | [<- | []]]; [ left; reflexivity | right; qdecide ]. }
  split; [ split; [ exact H1 | split; [ exact H2 | split;
    [ exact H3 | exact H4 ] ] ] | ].
  exact (X20_selection_ignores_load_order sample_sqrt sample_acos gallery
           [artwork_img9; artwork_img8] artwork_img8 H1 H2 H3 H4).
Defined.
